(** * A shallow embedding of the social-media agent (venv/app.py, venv/main.py)

    The development follows the Python source function by function.
    Python strings are sequences of code points, the agent's attributes and
    the module-level state of the [schedule] library live in an explicit
    [World], and everything the program obtains from outside (HTTP replies,
    the language models, the random module, the file system) is read from
    an [Env] of oracles, so that every statement below is quantified over
    all behaviours of the outside world. *)

From Stdlib Require Import List NArith Arith Lia Bool String Ascii.
From Stdlib Require Import DecimalString Permutation.
Import ListNotations.

Set Implicit Arguments.

(* ================================================================== *)
(** * Python strings *)
(* ================================================================== *)

Module PyStr.

(** A Python [str] is a sequence of Unicode code points; [len] counts code
    points. *)
Definition char := N.
Definition str := list char.

(** An ASCII literal of the source, as the code points Python reads. *)
Definition py (s : string) : str :=
  map N_of_ascii (list_ascii_of_string s).

Definition nl : str := [10%N].

Definition len (s : str) : nat := List.length s.

Fixpoint eqb (a b : str) : bool :=
  match a, b with
  | [], [] => true
  | x :: a', y :: b' => N.eqb x y && eqb a' b'
  | _, _ => false
  end.

(** [s.startswith(p)] *)
Fixpoint startswith (s p : str) : bool :=
  match p, s with
  | [], _ => true
  | _ :: _, [] => false
  | x :: p', y :: s' => N.eqb x y && startswith s' p'
  end.

(** [sub in s] *)
Fixpoint isin (sub s : str) : bool :=
  startswith s sub ||
  match s with
  | [] => false
  | _ :: s' => isin sub s'
  end.

(** [s[:n]] for a non-negative [n] *)
Definition upto (n : nat) (s : str) : str := firstn n s.

(** Membership in a table of code point ranges [(first, last)], sorted in
    increasing order. *)
Fixpoint in_ranges (c : char) (table : list (N * N)) : bool :=
  match table with
  | [] => false
  | (first, last) :: rest =>
      if (c <? first)%N then false
      else if (c <=? last)%N then true
      else in_ranges c rest
  end.

(** The simple lower-case mappings of the Unicode Character Database
    14.0.0, the database of CPython 3.11, without U+0130 and U+03A3: an
    entry [(first, last, step, image)] sends the code points [first],
    [first + step], ... up to [last] to [image], [image + step], ...;
    every other code point is its own lower case. *)
Definition lower_table : list (N * N * N * N) :=
  [(65, 90, 1, 97); (192, 214, 1, 224); (216, 222, 1, 248);
   (256, 302, 2, 257); (306, 310, 2, 307); (313, 327, 2, 314);
   (330, 374, 2, 331); (376, 376, 1, 255); (377, 381, 2, 378);
   (385, 385, 1, 595); (386, 388, 2, 387); (390, 390, 1, 596);
   (391, 391, 1, 392); (393, 394, 1, 598); (395, 395, 1, 396);
   (398, 398, 1, 477); (399, 399, 1, 601); (400, 400, 1, 603);
   (401, 401, 1, 402); (403, 403, 1, 608); (404, 404, 1, 611);
   (406, 406, 1, 617); (407, 407, 1, 616); (408, 408, 1, 409);
   (412, 412, 1, 623); (413, 413, 1, 626); (415, 415, 1, 629);
   (416, 420, 2, 417); (422, 422, 1, 640); (423, 423, 1, 424);
   (425, 425, 1, 643); (428, 428, 1, 429); (430, 430, 1, 648);
   (431, 431, 1, 432); (433, 434, 1, 650); (435, 437, 2, 436);
   (439, 439, 1, 658); (440, 440, 1, 441); (444, 444, 1, 445);
   (452, 452, 1, 454); (453, 453, 1, 454); (455, 455, 1, 457);
   (456, 456, 1, 457); (458, 458, 1, 460); (459, 475, 2, 460);
   (478, 494, 2, 479); (497, 497, 1, 499); (498, 500, 2, 499);
   (502, 502, 1, 405); (503, 503, 1, 447); (504, 542, 2, 505);
   (544, 544, 1, 414); (546, 562, 2, 547); (570, 570, 1, 11365);
   (571, 571, 1, 572); (573, 573, 1, 410); (574, 574, 1, 11366);
   (577, 577, 1, 578); (579, 579, 1, 384); (580, 580, 1, 649);
   (581, 581, 1, 652); (582, 590, 2, 583); (880, 882, 2, 881);
   (886, 886, 1, 887); (895, 895, 1, 1011); (902, 902, 1, 940);
   (904, 906, 1, 941); (908, 908, 1, 972); (910, 911, 1, 973);
   (913, 929, 1, 945); (932, 939, 1, 964); (975, 975, 1, 983);
   (984, 1006, 2, 985); (1012, 1012, 1, 952); (1015, 1015, 1, 1016);
   (1017, 1017, 1, 1010); (1018, 1018, 1, 1019); (1021, 1023, 1, 891);
   (1024, 1039, 1, 1104); (1040, 1071, 1, 1072); (1120, 1152, 2, 1121);
   (1162, 1214, 2, 1163); (1216, 1216, 1, 1231); (1217, 1229, 2, 1218);
   (1232, 1326, 2, 1233); (1329, 1366, 1, 1377); (4256, 4293, 1, 11520);
   (4295, 4295, 1, 11559); (4301, 4301, 1, 11565); (5024, 5103, 1, 43888);
   (5104, 5109, 1, 5112); (7312, 7354, 1, 4304); (7357, 7359, 1, 4349);
   (7680, 7828, 2, 7681); (7838, 7838, 1, 223); (7840, 7934, 2, 7841);
   (7944, 7951, 1, 7936); (7960, 7965, 1, 7952); (7976, 7983, 1, 7968);
   (7992, 7999, 1, 7984); (8008, 8013, 1, 8000); (8025, 8031, 2, 8017);
   (8040, 8047, 1, 8032); (8072, 8079, 1, 8064); (8088, 8095, 1, 8080);
   (8104, 8111, 1, 8096); (8120, 8121, 1, 8112); (8122, 8123, 1, 8048);
   (8124, 8124, 1, 8115); (8136, 8139, 1, 8050); (8140, 8140, 1, 8131);
   (8152, 8153, 1, 8144); (8154, 8155, 1, 8054); (8168, 8169, 1, 8160);
   (8170, 8171, 1, 8058); (8172, 8172, 1, 8165); (8184, 8185, 1, 8056);
   (8186, 8187, 1, 8060); (8188, 8188, 1, 8179); (8486, 8486, 1, 969);
   (8490, 8490, 1, 107); (8491, 8491, 1, 229); (8498, 8498, 1, 8526);
   (8544, 8559, 1, 8560); (8579, 8579, 1, 8580); (9398, 9423, 1, 9424);
   (11264, 11311, 1, 11312); (11360, 11360, 1, 11361); (11362, 11362, 1, 619);
   (11363, 11363, 1, 7549); (11364, 11364, 1, 637); (11367, 11371, 2, 11368);
   (11373, 11373, 1, 593); (11374, 11374, 1, 625); (11375, 11375, 1, 592);
   (11376, 11376, 1, 594); (11378, 11378, 1, 11379); (11381, 11381, 1, 11382);
   (11390, 11391, 1, 575); (11392, 11490, 2, 11393); (11499, 11501, 2, 11500);
   (11506, 11506, 1, 11507); (42560, 42604, 2, 42561);
   (42624, 42650, 2, 42625); (42786, 42798, 2, 42787);
   (42802, 42862, 2, 42803); (42873, 42875, 2, 42874);
   (42877, 42877, 1, 7545); (42878, 42886, 2, 42879);
   (42891, 42891, 1, 42892); (42893, 42893, 1, 613); (42896, 42898, 2, 42897);
   (42902, 42920, 2, 42903); (42922, 42922, 1, 614); (42923, 42923, 1, 604);
   (42924, 42924, 1, 609); (42925, 42925, 1, 620); (42926, 42926, 1, 618);
   (42928, 42928, 1, 670); (42929, 42929, 1, 647); (42930, 42930, 1, 669);
   (42931, 42931, 1, 43859); (42932, 42946, 2, 42933);
   (42948, 42948, 1, 42900); (42949, 42949, 1, 642); (42950, 42950, 1, 7566);
   (42951, 42953, 2, 42952); (42960, 42960, 1, 42961);
   (42966, 42968, 2, 42967); (42997, 42997, 1, 42998);
   (65313, 65338, 1, 65345); (66560, 66599, 1, 66600);
   (66736, 66771, 1, 66776); (66928, 66938, 1, 66967);
   (66940, 66954, 1, 66979); (66956, 66962, 1, 66995);
   (66964, 66965, 1, 67003); (68736, 68786, 1, 68800);
   (71840, 71871, 1, 71872); (93760, 93791, 1, 93792);
   (125184, 125217, 1, 125218)]%N.

Fixpoint lower_in (c : char) (table : list (N * N * N * N)) : char :=
  match table with
  | [] => c
  | (first, last, step, image) :: rest =>
      if (c <? first)%N then c
      else if (c <=? last)%N
      then if ((c - first) mod step =? 0)%N then (image + (c - first))%N
           else c
      else lower_in c rest
  end.

(** The full lower-case mapping of one code point out of context: U+0130
    gives two code points, every other one its simple mapping. *)
Definition lower_full (c : char) : str :=
  if (c =? 304)%N then [105; 775]%N else [lower_in c lower_table].

(** The code points with the property Case_Ignorable. *)
Definition case_ignorable_table : list (N * N) :=
  [(39, 39); (46, 46); (58, 58); (94, 94); (96, 96); (168, 168); (173, 173);
   (175, 175); (180, 180); (183, 184); (688, 879); (884, 885); (890, 890);
   (900, 901); (903, 903); (1155, 1161); (1369, 1369); (1375, 1375);
   (1425, 1469); (1471, 1471); (1473, 1474); (1476, 1477); (1479, 1479);
   (1524, 1524); (1536, 1541); (1552, 1562); (1564, 1564); (1600, 1600);
   (1611, 1631); (1648, 1648); (1750, 1757); (1759, 1768); (1770, 1773);
   (1807, 1807); (1809, 1809); (1840, 1866); (1958, 1968); (2027, 2037);
   (2042, 2042); (2045, 2045); (2070, 2093); (2137, 2139); (2184, 2184);
   (2192, 2193); (2200, 2207); (2249, 2306); (2362, 2362); (2364, 2364);
   (2369, 2376); (2381, 2381); (2385, 2391); (2402, 2403); (2417, 2417);
   (2433, 2433); (2492, 2492); (2497, 2500); (2509, 2509); (2530, 2531);
   (2558, 2558); (2561, 2562); (2620, 2620); (2625, 2626); (2631, 2632);
   (2635, 2637); (2641, 2641); (2672, 2673); (2677, 2677); (2689, 2690);
   (2748, 2748); (2753, 2757); (2759, 2760); (2765, 2765); (2786, 2787);
   (2810, 2815); (2817, 2817); (2876, 2876); (2879, 2879); (2881, 2884);
   (2893, 2893); (2901, 2902); (2914, 2915); (2946, 2946); (3008, 3008);
   (3021, 3021); (3072, 3072); (3076, 3076); (3132, 3132); (3134, 3136);
   (3142, 3144); (3146, 3149); (3157, 3158); (3170, 3171); (3201, 3201);
   (3260, 3260); (3263, 3263); (3270, 3270); (3276, 3277); (3298, 3299);
   (3328, 3329); (3387, 3388); (3393, 3396); (3405, 3405); (3426, 3427);
   (3457, 3457); (3530, 3530); (3538, 3540); (3542, 3542); (3633, 3633);
   (3636, 3642); (3654, 3662); (3761, 3761); (3764, 3772); (3782, 3782);
   (3784, 3789); (3864, 3865); (3893, 3893); (3895, 3895); (3897, 3897);
   (3953, 3966); (3968, 3972); (3974, 3975); (3981, 3991); (3993, 4028);
   (4038, 4038); (4141, 4144); (4146, 4151); (4153, 4154); (4157, 4158);
   (4184, 4185); (4190, 4192); (4209, 4212); (4226, 4226); (4229, 4230);
   (4237, 4237); (4253, 4253); (4348, 4348); (4957, 4959); (5906, 5908);
   (5938, 5939); (5970, 5971); (6002, 6003); (6068, 6069); (6071, 6077);
   (6086, 6086); (6089, 6099); (6103, 6103); (6109, 6109); (6155, 6159);
   (6211, 6211); (6277, 6278); (6313, 6313); (6432, 6434); (6439, 6440);
   (6450, 6450); (6457, 6459); (6679, 6680); (6683, 6683); (6742, 6742);
   (6744, 6750); (6752, 6752); (6754, 6754); (6757, 6764); (6771, 6780);
   (6783, 6783); (6823, 6823); (6832, 6862); (6912, 6915); (6964, 6964);
   (6966, 6970); (6972, 6972); (6978, 6978); (7019, 7027); (7040, 7041);
   (7074, 7077); (7080, 7081); (7083, 7085); (7142, 7142); (7144, 7145);
   (7149, 7149); (7151, 7153); (7212, 7219); (7222, 7223); (7288, 7293);
   (7376, 7378); (7380, 7392); (7394, 7400); (7405, 7405); (7412, 7412);
   (7416, 7417); (7468, 7530); (7544, 7544); (7579, 7679); (8125, 8125);
   (8127, 8129); (8141, 8143); (8157, 8159); (8173, 8175); (8189, 8190);
   (8203, 8207); (8216, 8217); (8228, 8228); (8231, 8231); (8234, 8238);
   (8288, 8292); (8294, 8303); (8305, 8305); (8319, 8319); (8336, 8348);
   (8400, 8432); (11388, 11389); (11503, 11505); (11631, 11631);
   (11647, 11647); (11744, 11775); (11823, 11823); (12293, 12293);
   (12330, 12333); (12337, 12341); (12347, 12347); (12441, 12446);
   (12540, 12542); (40981, 40981); (42232, 42237); (42508, 42508);
   (42607, 42610); (42612, 42621); (42623, 42623); (42652, 42655);
   (42736, 42737); (42752, 42785); (42864, 42864); (42888, 42890);
   (42994, 42996); (43000, 43001); (43010, 43010); (43014, 43014);
   (43019, 43019); (43045, 43046); (43052, 43052); (43204, 43205);
   (43232, 43249); (43263, 43263); (43302, 43309); (43335, 43345);
   (43392, 43394); (43443, 43443); (43446, 43449); (43452, 43453);
   (43471, 43471); (43493, 43494); (43561, 43566); (43569, 43570);
   (43573, 43574); (43587, 43587); (43596, 43596); (43632, 43632);
   (43644, 43644); (43696, 43696); (43698, 43700); (43703, 43704);
   (43710, 43711); (43713, 43713); (43741, 43741); (43756, 43757);
   (43763, 43764); (43766, 43766); (43867, 43871); (43881, 43883);
   (44005, 44005); (44008, 44008); (44013, 44013); (64286, 64286);
   (64434, 64450); (65024, 65039); (65043, 65043); (65056, 65071);
   (65106, 65106); (65109, 65109); (65279, 65279); (65287, 65287);
   (65294, 65294); (65306, 65306); (65342, 65342); (65344, 65344);
   (65392, 65392); (65438, 65439); (65507, 65507); (65529, 65531);
   (66045, 66045); (66272, 66272); (66422, 66426); (67456, 67461);
   (67463, 67504); (67506, 67514); (68097, 68099); (68101, 68102);
   (68108, 68111); (68152, 68154); (68159, 68159); (68325, 68326);
   (68900, 68903); (69291, 69292); (69446, 69456); (69506, 69509);
   (69633, 69633); (69688, 69702); (69744, 69744); (69747, 69748);
   (69759, 69761); (69811, 69814); (69817, 69818); (69821, 69821);
   (69826, 69826); (69837, 69837); (69888, 69890); (69927, 69931);
   (69933, 69940); (70003, 70003); (70016, 70017); (70070, 70078);
   (70089, 70092); (70095, 70095); (70191, 70193); (70196, 70196);
   (70198, 70199); (70206, 70206); (70367, 70367); (70371, 70378);
   (70400, 70401); (70459, 70460); (70464, 70464); (70502, 70508);
   (70512, 70516); (70712, 70719); (70722, 70724); (70726, 70726);
   (70750, 70750); (70835, 70840); (70842, 70842); (70847, 70848);
   (70850, 70851); (71090, 71093); (71100, 71101); (71103, 71104);
   (71132, 71133); (71219, 71226); (71229, 71229); (71231, 71232);
   (71339, 71339); (71341, 71341); (71344, 71349); (71351, 71351);
   (71453, 71455); (71458, 71461); (71463, 71467); (71727, 71735);
   (71737, 71738); (71995, 71996); (71998, 71998); (72003, 72003);
   (72148, 72151); (72154, 72155); (72160, 72160); (72193, 72202);
   (72243, 72248); (72251, 72254); (72263, 72263); (72273, 72278);
   (72281, 72283); (72330, 72342); (72344, 72345); (72752, 72758);
   (72760, 72765); (72767, 72767); (72850, 72871); (72874, 72880);
   (72882, 72883); (72885, 72886); (73009, 73014); (73018, 73018);
   (73020, 73021); (73023, 73029); (73031, 73031); (73104, 73105);
   (73109, 73109); (73111, 73111); (73459, 73460); (78896, 78904);
   (92912, 92916); (92976, 92982); (92992, 92995); (94031, 94031);
   (94095, 94111); (94176, 94177); (94179, 94180); (110576, 110579);
   (110581, 110587); (110589, 110590); (113821, 113822); (113824, 113827);
   (118528, 118573); (118576, 118598); (119143, 119145); (119155, 119170);
   (119173, 119179); (119210, 119213); (119362, 119364); (121344, 121398);
   (121403, 121452); (121461, 121461); (121476, 121476); (121499, 121503);
   (121505, 121519); (122880, 122886); (122888, 122904); (122907, 122913);
   (122915, 122916); (122918, 122922); (123184, 123197); (123566, 123566);
   (123628, 123631); (125136, 125142); (125252, 125259); (127995, 127999);
   (917505, 917505); (917536, 917631); (917760, 917999)]%N.

(** The code points with the property Cased that are not Case_Ignorable
    (for a Case_Ignorable code point the test below is never reached). *)
Definition cased_table : list (N * N) :=
  [(65, 90); (97, 122); (170, 170); (181, 181); (186, 186); (192, 214);
   (216, 246); (248, 442); (444, 447); (452, 659); (661, 687); (880, 883);
   (886, 887); (891, 893); (895, 895); (902, 902); (904, 906); (908, 908);
   (910, 929); (931, 1013); (1015, 1153); (1162, 1327); (1329, 1366);
   (1376, 1416); (4256, 4293); (4295, 4295); (4301, 4301); (4304, 4346);
   (4349, 4351); (5024, 5109); (5112, 5117); (7296, 7304); (7312, 7354);
   (7357, 7359); (7424, 7467); (7531, 7543); (7545, 7578); (7680, 7957);
   (7960, 7965); (7968, 8005); (8008, 8013); (8016, 8023); (8025, 8025);
   (8027, 8027); (8029, 8029); (8031, 8061); (8064, 8116); (8118, 8124);
   (8126, 8126); (8130, 8132); (8134, 8140); (8144, 8147); (8150, 8155);
   (8160, 8172); (8178, 8180); (8182, 8188); (8450, 8450); (8455, 8455);
   (8458, 8467); (8469, 8469); (8473, 8477); (8484, 8484); (8486, 8486);
   (8488, 8488); (8490, 8493); (8495, 8500); (8505, 8505); (8508, 8511);
   (8517, 8521); (8526, 8526); (8544, 8575); (8579, 8580); (9398, 9449);
   (11264, 11387); (11390, 11492); (11499, 11502); (11506, 11507);
   (11520, 11557); (11559, 11559); (11565, 11565); (42560, 42605);
   (42624, 42651); (42786, 42863); (42865, 42887); (42891, 42894);
   (42896, 42954); (42960, 42961); (42963, 42963); (42965, 42969);
   (42997, 42998); (43002, 43002); (43824, 43866); (43872, 43880);
   (43888, 43967); (64256, 64262); (64275, 64279); (65313, 65338);
   (65345, 65370); (66560, 66639); (66736, 66771); (66776, 66811);
   (66928, 66938); (66940, 66954); (66956, 66962); (66964, 66965);
   (66967, 66977); (66979, 66993); (66995, 67001); (67003, 67004);
   (68736, 68786); (68800, 68850); (71840, 71903); (93760, 93823);
   (119808, 119892); (119894, 119964); (119966, 119967); (119970, 119970);
   (119973, 119974); (119977, 119980); (119982, 119993); (119995, 119995);
   (119997, 120003); (120005, 120069); (120071, 120074); (120077, 120084);
   (120086, 120092); (120094, 120121); (120123, 120126); (120128, 120132);
   (120134, 120134); (120138, 120144); (120146, 120485); (120488, 120512);
   (120514, 120538); (120540, 120570); (120572, 120596); (120598, 120628);
   (120630, 120654); (120656, 120686); (120688, 120712); (120714, 120744);
   (120746, 120770); (120772, 120779); (122624, 122633); (122635, 122654);
   (125184, 125251); (127280, 127305); (127312, 127337); (127344, 127369)]%N.

Definition case_ignorable (c : char) : bool := in_ranges c case_ignorable_table.
Definition cased (c : char) : bool := in_ranges c cased_table.

(** No cased letter follows, once the Case_Ignorable code points are
    skipped. *)
Fixpoint word_ends (rest : str) : bool :=
  match rest with
  | [] => true
  | c :: r => if case_ignorable c then word_ends r else negb (cased c)
  end.

(** [after_cased] tells whether the last code point read that is not
    Case_Ignorable is cased. A capital sigma, U+03A3, becomes the final
    sigma U+03C2 after a cased letter at the end of a word, and U+03C3
    elsewhere. *)
Fixpoint lower_from (after_cased : bool) (s : str) : str :=
  match s with
  | [] => []
  | c :: r =>
      (if (c =? 931)%N
       then [if after_cased && word_ends r then 962%N else 963%N]
       else lower_full c)
      ++ lower_from (if case_ignorable c then after_cased else cased c) r
  end.

(** [s.lower()] *)
Definition lower (s : str) : str := lower_from false s.

(** [str.isspace] for one character: the white space of [split] and
    [strip]. *)
Definition isspace (c : char) : bool :=
  ((9 <=? c) && (c <=? 13) || (28 <=? c) && (c <=? 32) ||
   (c =? 133) || (c =? 160) || (c =? 5760) ||
   (8192 <=? c) && (c <=? 8202) || (c =? 8232) || (c =? 8233) ||
   (c =? 8239) || (c =? 8287) || (c =? 12288))%N.

(** [s.split()]: the maximal runs of non-space characters. [cur] is the
    token being read. *)
Fixpoint split_from (cur s : str) : list str :=
  match s with
  | [] => match cur with [] => [] | _ => [cur] end
  | c :: r =>
      if isspace c
      then match cur with
           | [] => split_from [] r
           | _ => cur :: split_from [] r
           end
      else split_from (cur ++ [c]) r
  end.

Definition split (s : str) : list str := split_from [] s.

(** [s.split(',')]-style splitting on one separator character: every
    separator ends a field, empty fields are kept. *)
Fixpoint split_on_from (sep : char) (cur s : str) : list str :=
  match s with
  | [] => [cur]
  | c :: r =>
      if N.eqb c sep then cur :: split_on_from sep [] r
      else split_on_from sep (cur ++ [c]) r
  end.

Fixpoint lstrip (s : str) : str :=
  match s with
  | c :: r => if isspace c then lstrip r else s
  | [] => []
  end.

(** [s.strip()] *)
Definition strip (s : str) : str := rev (lstrip (rev (lstrip s))).

(** [s.replace(old, new)]: the occurrences of [old] are found left to
    right and do not overlap. [skip] counts the characters of the current
    occurrence still to be dropped. *)
Fixpoint replace_from (old new : str) (skip : nat) (s : str) : str :=
  match s with
  | [] => []
  | c :: r =>
      match skip with
      | S k => replace_from old new k r
      | O =>
          if startswith s old
          then new ++ replace_from old new (len old - 1) r
          else c :: replace_from old new 0 r
      end
  end.

Fixpoint intersperse (new s : str) : str :=
  match s with
  | [] => new
  | c :: r => new ++ c :: intersperse new r
  end.

Definition replace (old new s : str) : str :=
  match old with
  | [] => intersperse new s
  | _ => replace_from old new 0 s
  end.

(** The class [\w] of [re] for a [str] pattern: the code points that are
    alphanumeric in the Unicode Character Database 14.0.0, and the
    underscore. *)
Definition word_table : list (N * N) :=
  [(48, 57); (65, 90); (95, 95); (97, 122); (170, 170); (178, 179);
   (181, 181); (185, 186); (188, 190); (192, 214); (216, 246); (248, 705);
   (710, 721); (736, 740); (748, 748); (750, 750); (880, 884); (886, 887);
   (890, 893); (895, 895); (902, 902); (904, 906); (908, 908); (910, 929);
   (931, 1013); (1015, 1153); (1162, 1327); (1329, 1366); (1369, 1369);
   (1376, 1416); (1488, 1514); (1519, 1522); (1568, 1610); (1632, 1641);
   (1646, 1647); (1649, 1747); (1749, 1749); (1765, 1766); (1774, 1788);
   (1791, 1791); (1808, 1808); (1810, 1839); (1869, 1957); (1969, 1969);
   (1984, 2026); (2036, 2037); (2042, 2042); (2048, 2069); (2074, 2074);
   (2084, 2084); (2088, 2088); (2112, 2136); (2144, 2154); (2160, 2183);
   (2185, 2190); (2208, 2249); (2308, 2361); (2365, 2365); (2384, 2384);
   (2392, 2401); (2406, 2415); (2417, 2432); (2437, 2444); (2447, 2448);
   (2451, 2472); (2474, 2480); (2482, 2482); (2486, 2489); (2493, 2493);
   (2510, 2510); (2524, 2525); (2527, 2529); (2534, 2545); (2548, 2553);
   (2556, 2556); (2565, 2570); (2575, 2576); (2579, 2600); (2602, 2608);
   (2610, 2611); (2613, 2614); (2616, 2617); (2649, 2652); (2654, 2654);
   (2662, 2671); (2674, 2676); (2693, 2701); (2703, 2705); (2707, 2728);
   (2730, 2736); (2738, 2739); (2741, 2745); (2749, 2749); (2768, 2768);
   (2784, 2785); (2790, 2799); (2809, 2809); (2821, 2828); (2831, 2832);
   (2835, 2856); (2858, 2864); (2866, 2867); (2869, 2873); (2877, 2877);
   (2908, 2909); (2911, 2913); (2918, 2927); (2929, 2935); (2947, 2947);
   (2949, 2954); (2958, 2960); (2962, 2965); (2969, 2970); (2972, 2972);
   (2974, 2975); (2979, 2980); (2984, 2986); (2990, 3001); (3024, 3024);
   (3046, 3058); (3077, 3084); (3086, 3088); (3090, 3112); (3114, 3129);
   (3133, 3133); (3160, 3162); (3165, 3165); (3168, 3169); (3174, 3183);
   (3192, 3198); (3200, 3200); (3205, 3212); (3214, 3216); (3218, 3240);
   (3242, 3251); (3253, 3257); (3261, 3261); (3293, 3294); (3296, 3297);
   (3302, 3311); (3313, 3314); (3332, 3340); (3342, 3344); (3346, 3386);
   (3389, 3389); (3406, 3406); (3412, 3414); (3416, 3425); (3430, 3448);
   (3450, 3455); (3461, 3478); (3482, 3505); (3507, 3515); (3517, 3517);
   (3520, 3526); (3558, 3567); (3585, 3632); (3634, 3635); (3648, 3654);
   (3664, 3673); (3713, 3714); (3716, 3716); (3718, 3722); (3724, 3747);
   (3749, 3749); (3751, 3760); (3762, 3763); (3773, 3773); (3776, 3780);
   (3782, 3782); (3792, 3801); (3804, 3807); (3840, 3840); (3872, 3891);
   (3904, 3911); (3913, 3948); (3976, 3980); (4096, 4138); (4159, 4169);
   (4176, 4181); (4186, 4189); (4193, 4193); (4197, 4198); (4206, 4208);
   (4213, 4225); (4238, 4238); (4240, 4249); (4256, 4293); (4295, 4295);
   (4301, 4301); (4304, 4346); (4348, 4680); (4682, 4685); (4688, 4694);
   (4696, 4696); (4698, 4701); (4704, 4744); (4746, 4749); (4752, 4784);
   (4786, 4789); (4792, 4798); (4800, 4800); (4802, 4805); (4808, 4822);
   (4824, 4880); (4882, 4885); (4888, 4954); (4969, 4988); (4992, 5007);
   (5024, 5109); (5112, 5117); (5121, 5740); (5743, 5759); (5761, 5786);
   (5792, 5866); (5870, 5880); (5888, 5905); (5919, 5937); (5952, 5969);
   (5984, 5996); (5998, 6000); (6016, 6067); (6103, 6103); (6108, 6108);
   (6112, 6121); (6128, 6137); (6160, 6169); (6176, 6264); (6272, 6276);
   (6279, 6312); (6314, 6314); (6320, 6389); (6400, 6430); (6470, 6509);
   (6512, 6516); (6528, 6571); (6576, 6601); (6608, 6618); (6656, 6678);
   (6688, 6740); (6784, 6793); (6800, 6809); (6823, 6823); (6917, 6963);
   (6981, 6988); (6992, 7001); (7043, 7072); (7086, 7141); (7168, 7203);
   (7232, 7241); (7245, 7293); (7296, 7304); (7312, 7354); (7357, 7359);
   (7401, 7404); (7406, 7411); (7413, 7414); (7418, 7418); (7424, 7615);
   (7680, 7957); (7960, 7965); (7968, 8005); (8008, 8013); (8016, 8023);
   (8025, 8025); (8027, 8027); (8029, 8029); (8031, 8061); (8064, 8116);
   (8118, 8124); (8126, 8126); (8130, 8132); (8134, 8140); (8144, 8147);
   (8150, 8155); (8160, 8172); (8178, 8180); (8182, 8188); (8304, 8305);
   (8308, 8313); (8319, 8329); (8336, 8348); (8450, 8450); (8455, 8455);
   (8458, 8467); (8469, 8469); (8473, 8477); (8484, 8484); (8486, 8486);
   (8488, 8488); (8490, 8493); (8495, 8505); (8508, 8511); (8517, 8521);
   (8526, 8526); (8528, 8585); (9312, 9371); (9450, 9471); (10102, 10131);
   (11264, 11492); (11499, 11502); (11506, 11507); (11517, 11517);
   (11520, 11557); (11559, 11559); (11565, 11565); (11568, 11623);
   (11631, 11631); (11648, 11670); (11680, 11686); (11688, 11694);
   (11696, 11702); (11704, 11710); (11712, 11718); (11720, 11726);
   (11728, 11734); (11736, 11742); (11823, 11823); (12293, 12295);
   (12321, 12329); (12337, 12341); (12344, 12348); (12353, 12438);
   (12445, 12447); (12449, 12538); (12540, 12543); (12549, 12591);
   (12593, 12686); (12690, 12693); (12704, 12735); (12784, 12799);
   (12832, 12841); (12872, 12879); (12881, 12895); (12928, 12937);
   (12977, 12991); (13312, 19903); (19968, 42124); (42192, 42237);
   (42240, 42508); (42512, 42539); (42560, 42606); (42623, 42653);
   (42656, 42735); (42775, 42783); (42786, 42888); (42891, 42954);
   (42960, 42961); (42963, 42963); (42965, 42969); (42994, 43009);
   (43011, 43013); (43015, 43018); (43020, 43042); (43056, 43061);
   (43072, 43123); (43138, 43187); (43216, 43225); (43250, 43255);
   (43259, 43259); (43261, 43262); (43264, 43301); (43312, 43334);
   (43360, 43388); (43396, 43442); (43471, 43481); (43488, 43492);
   (43494, 43518); (43520, 43560); (43584, 43586); (43588, 43595);
   (43600, 43609); (43616, 43638); (43642, 43642); (43646, 43695);
   (43697, 43697); (43701, 43702); (43705, 43709); (43712, 43712);
   (43714, 43714); (43739, 43741); (43744, 43754); (43762, 43764);
   (43777, 43782); (43785, 43790); (43793, 43798); (43808, 43814);
   (43816, 43822); (43824, 43866); (43868, 43881); (43888, 44002);
   (44016, 44025); (44032, 55203); (55216, 55238); (55243, 55291);
   (63744, 64109); (64112, 64217); (64256, 64262); (64275, 64279);
   (64285, 64285); (64287, 64296); (64298, 64310); (64312, 64316);
   (64318, 64318); (64320, 64321); (64323, 64324); (64326, 64433);
   (64467, 64829); (64848, 64911); (64914, 64967); (65008, 65019);
   (65136, 65140); (65142, 65276); (65296, 65305); (65313, 65338);
   (65345, 65370); (65382, 65470); (65474, 65479); (65482, 65487);
   (65490, 65495); (65498, 65500); (65536, 65547); (65549, 65574);
   (65576, 65594); (65596, 65597); (65599, 65613); (65616, 65629);
   (65664, 65786); (65799, 65843); (65856, 65912); (65930, 65931);
   (66176, 66204); (66208, 66256); (66273, 66299); (66304, 66339);
   (66349, 66378); (66384, 66421); (66432, 66461); (66464, 66499);
   (66504, 66511); (66513, 66517); (66560, 66717); (66720, 66729);
   (66736, 66771); (66776, 66811); (66816, 66855); (66864, 66915);
   (66928, 66938); (66940, 66954); (66956, 66962); (66964, 66965);
   (66967, 66977); (66979, 66993); (66995, 67001); (67003, 67004);
   (67072, 67382); (67392, 67413); (67424, 67431); (67456, 67461);
   (67463, 67504); (67506, 67514); (67584, 67589); (67592, 67592);
   (67594, 67637); (67639, 67640); (67644, 67644); (67647, 67669);
   (67672, 67702); (67705, 67742); (67751, 67759); (67808, 67826);
   (67828, 67829); (67835, 67867); (67872, 67897); (67968, 68023);
   (68028, 68047); (68050, 68096); (68112, 68115); (68117, 68119);
   (68121, 68149); (68160, 68168); (68192, 68222); (68224, 68255);
   (68288, 68295); (68297, 68324); (68331, 68335); (68352, 68405);
   (68416, 68437); (68440, 68466); (68472, 68497); (68521, 68527);
   (68608, 68680); (68736, 68786); (68800, 68850); (68858, 68899);
   (68912, 68921); (69216, 69246); (69248, 69289); (69296, 69297);
   (69376, 69415); (69424, 69445); (69457, 69460); (69488, 69505);
   (69552, 69579); (69600, 69622); (69635, 69687); (69714, 69743);
   (69745, 69746); (69749, 69749); (69763, 69807); (69840, 69864);
   (69872, 69881); (69891, 69926); (69942, 69951); (69956, 69956);
   (69959, 69959); (69968, 70002); (70006, 70006); (70019, 70066);
   (70081, 70084); (70096, 70106); (70108, 70108); (70113, 70132);
   (70144, 70161); (70163, 70187); (70272, 70278); (70280, 70280);
   (70282, 70285); (70287, 70301); (70303, 70312); (70320, 70366);
   (70384, 70393); (70405, 70412); (70415, 70416); (70419, 70440);
   (70442, 70448); (70450, 70451); (70453, 70457); (70461, 70461);
   (70480, 70480); (70493, 70497); (70656, 70708); (70727, 70730);
   (70736, 70745); (70751, 70753); (70784, 70831); (70852, 70853);
   (70855, 70855); (70864, 70873); (71040, 71086); (71128, 71131);
   (71168, 71215); (71236, 71236); (71248, 71257); (71296, 71338);
   (71352, 71352); (71360, 71369); (71424, 71450); (71472, 71483);
   (71488, 71494); (71680, 71723); (71840, 71922); (71935, 71942);
   (71945, 71945); (71948, 71955); (71957, 71958); (71960, 71983);
   (71999, 71999); (72001, 72001); (72016, 72025); (72096, 72103);
   (72106, 72144); (72161, 72161); (72163, 72163); (72192, 72192);
   (72203, 72242); (72250, 72250); (72272, 72272); (72284, 72329);
   (72349, 72349); (72368, 72440); (72704, 72712); (72714, 72750);
   (72768, 72768); (72784, 72812); (72818, 72847); (72960, 72966);
   (72968, 72969); (72971, 73008); (73030, 73030); (73040, 73049);
   (73056, 73061); (73063, 73064); (73066, 73097); (73112, 73112);
   (73120, 73129); (73440, 73458); (73648, 73648); (73664, 73684);
   (73728, 74649); (74752, 74862); (74880, 75075); (77712, 77808);
   (77824, 78894); (82944, 83526); (92160, 92728); (92736, 92766);
   (92768, 92777); (92784, 92862); (92864, 92873); (92880, 92909);
   (92928, 92975); (92992, 92995); (93008, 93017); (93019, 93025);
   (93027, 93047); (93053, 93071); (93760, 93846); (93952, 94026);
   (94032, 94032); (94099, 94111); (94176, 94177); (94179, 94179);
   (94208, 100343); (100352, 101589); (101632, 101640); (110576, 110579);
   (110581, 110587); (110589, 110590); (110592, 110882); (110928, 110930);
   (110948, 110951); (110960, 111355); (113664, 113770); (113776, 113788);
   (113792, 113800); (113808, 113817); (119520, 119539); (119648, 119672);
   (119808, 119892); (119894, 119964); (119966, 119967); (119970, 119970);
   (119973, 119974); (119977, 119980); (119982, 119993); (119995, 119995);
   (119997, 120003); (120005, 120069); (120071, 120074); (120077, 120084);
   (120086, 120092); (120094, 120121); (120123, 120126); (120128, 120132);
   (120134, 120134); (120138, 120144); (120146, 120485); (120488, 120512);
   (120514, 120538); (120540, 120570); (120572, 120596); (120598, 120628);
   (120630, 120654); (120656, 120686); (120688, 120712); (120714, 120744);
   (120746, 120770); (120772, 120779); (120782, 120831); (122624, 122654);
   (123136, 123180); (123191, 123197); (123200, 123209); (123214, 123214);
   (123536, 123565); (123584, 123627); (123632, 123641); (124896, 124902);
   (124904, 124907); (124909, 124910); (124912, 124926); (124928, 125124);
   (125127, 125135); (125184, 125251); (125259, 125259); (125264, 125273);
   (126065, 126123); (126125, 126127); (126129, 126132); (126209, 126253);
   (126255, 126269); (126464, 126467); (126469, 126495); (126497, 126498);
   (126500, 126500); (126503, 126503); (126505, 126514); (126516, 126519);
   (126521, 126521); (126523, 126523); (126530, 126530); (126535, 126535);
   (126537, 126537); (126539, 126539); (126541, 126543); (126545, 126546);
   (126548, 126548); (126551, 126551); (126553, 126553); (126555, 126555);
   (126557, 126557); (126559, 126559); (126561, 126562); (126564, 126564);
   (126567, 126570); (126572, 126578); (126580, 126583); (126585, 126588);
   (126590, 126590); (126592, 126601); (126603, 126619); (126625, 126627);
   (126629, 126633); (126635, 126651); (127232, 127244); (130032, 130041);
   (131072, 173791); (173824, 177976); (177984, 178205); (178208, 183969);
   (183984, 191456); (194560, 195101); (196608, 201546)]%N.

Definition isword (c : char) : bool := in_ranges c word_table.

(** [re.findall(r'\w+', s)] *)
Fixpoint findall_w_from (cur s : str) : list str :=
  match s with
  | [] => match cur with [] => [] | _ => [cur] end
  | c :: r =>
      if isword c then findall_w_from (cur ++ [c]) r
      else match cur with
           | [] => findall_w_from [] r
           | _ => cur :: findall_w_from [] r
           end
  end.

Definition findall_w (s : str) : list str := findall_w_from [] s.

(** [sep.join(l)] *)
Fixpoint join (sep : str) (l : list str) : str :=
  match l with
  | [] => []
  | [x] => x
  | x :: r => x ++ sep ++ join sep r
  end.

(** Truthiness of a string: [if s] *)
Definition truthy (s : str) : bool :=
  match s with [] => false | _ => true end.

End PyStr.

Import PyStr.

(* ================================================================== *)
(** * Data model *)
(* ================================================================== *)

(** One record of [fetch_news_for_topic]. *)
Record Article := {
  title : str;
  source : str;
  url : str;
  published : str
}.

(** The dictionary built by the three generators: the keys [text],
    [image_url] and [post_type] are always present, [article_url] only for
    news posts with an article. *)
Record GeneratedContent := {
  text : str;
  image_url : option str;
  post_type : str;
  article_url : option str
}.

(** The [content_record] of [post_content]. *)
Record PostRecord := {
  rec_platform : str;
  rec_content : str;
  rec_image_url : option str;
  rec_post_type : str;
  rec_article_url : option str;
  rec_timestamp : str
}.

(** The day selector of a job of the [schedule] library. *)
Inductive Unit_ :=
  Monday | Tuesday | Wednesday | Thursday | Friday | Saturday | Sunday | Day.

(** The callables handed to [do]. *)
Inductive JobFunc := RunDailyPost | AnalyzePostPerformance | ScheduledPost.

Record Job := {
  job_unit : Unit_;
  at_time : str;
  job_func : JobFunc
}.

(** [posted_content.json]: absent, holding a dumped history, or left
    half-written by a dump that failed. *)
Inductive FileState :=
  | Absent
  | Holds (history : list PostRecord)
  | Corrupt.

(** What the program does to the outside world. *)
Inductive Event :=
  | MediaUpload (media_id : N)
  | CreateTweet (tweet_text : str) (media_ids : option N)
  | DumpHistory (history : list PostRecord)
  | JobRun (j : Job)
  | ThreadStart
  | Sleep (seconds : nat).

(** A call that returns a value or raises an exception. *)
Inductive outcome (A : Type) :=
  | Returned (a : A)
  | Raised.
Arguments Raised {A}.

(** Outcome of [open(..., "w")] followed by [json.dump]. *)
Inductive WriteOutcome := Written | OpenRaised | DumpRaised.

(** The outside world. An oracle that stands for a call takes the number
    of consultations made so far, so that two calls of the same operation
    may answer differently. *)
Record Env := {
  random_draw : nat -> nat;
  hash_order : nat -> nat;
  now_isoformat : nat -> str;
  getenv_GOOGLE_API_KEY : bool;
  getenv_HUGGINGFACE_API_KEY : bool;
  (* tweepy, API v1.1: names of [trends[0]['trends']] *)
  get_place_trends : nat -> outcome (list str);
  (* tweepy, API v2: texts of [response.data] *)
  search_recent_tweets : nat -> outcome (list str);
  (* trends24.in: [item.text] of the selected anchors *)
  select_trend_items : nat -> outcome (list str);
  (* fetch_news_for_topic, every path of which is an HTTP exchange *)
  news_lookup : nat -> str -> list Article;
  (* [gemini_model.generate_content(prompt)] then [response.text] *)
  gemini_generate_content : nat -> str -> outcome str;
  (* [requests.post(...).json()] then [result[0].get('generated_text')] *)
  huggingface_post : nat -> str -> outcome (option str);
  (* media upload of [post_to_twitter], stage by stage *)
  oauth1_api : nat -> outcome unit;
  requests_get_image : nat -> str -> outcome nat;
  write_temp_image : nat -> outcome unit;
  media_upload : nat -> outcome N;
  remove_temp_image : nat -> outcome unit;
  (* [twitter_api.create_tweet] then [response.data['id']] *)
  create_tweet : nat -> str -> option N -> outcome N;
  write_history_file : nat -> WriteOutcome;
  (* [schedule]: whether [every().<unit>.at(time)] accepts the time string *)
  schedule_accepts : Unit_ -> str -> bool;
  (* [job.should_run] *)
  should_run : nat -> Job -> bool
}.

(** The attributes of the agent, the jobs of the [schedule] module, the
    history file and the attributes of the manager of main.py. *)
Record World := {
  (* oracle consultations made so far *)
  tick : nat;
  (* SocialMediaAIAgent *)
  mode : str;
  is_running : bool;
  twitter_api : bool;
  gemini_model : bool;
  platforms : list str;
  posted_content : list PostRecord;
  trending_topics : list str;
  weekday_times : list str;
  weekend_times : list str;
  last_run : option str;
  (* schedule.jobs, shared by the whole process *)
  jobs : list Job;
  (* the file posted_content.json *)
  posted_content_json : FileState;
  (* SocialMediaManager of main.py; [agent] is set or None *)
  manager_agent : bool;
  manager_mode : str;
  manager_running : bool;
  (* what was done to the outside world, oldest first *)
  trace : list Event
}.

Definition set_tick (x : nat) (w : World) : World :=
  {| tick := x; mode := mode w; is_running := is_running w;
     twitter_api := twitter_api w; gemini_model := gemini_model w;
     platforms := platforms w; posted_content := posted_content w;
     trending_topics := trending_topics w; weekday_times := weekday_times w;
     weekend_times := weekend_times w; last_run := last_run w;
     jobs := jobs w; posted_content_json := posted_content_json w;
     manager_agent := manager_agent w; manager_mode := manager_mode w;
     manager_running := manager_running w; trace := trace w |}.

Definition set_mode (x : str) (w : World) : World :=
  {| tick := tick w; mode := x; is_running := is_running w;
     twitter_api := twitter_api w; gemini_model := gemini_model w;
     platforms := platforms w; posted_content := posted_content w;
     trending_topics := trending_topics w; weekday_times := weekday_times w;
     weekend_times := weekend_times w; last_run := last_run w;
     jobs := jobs w; posted_content_json := posted_content_json w;
     manager_agent := manager_agent w; manager_mode := manager_mode w;
     manager_running := manager_running w; trace := trace w |}.

Definition set_is_running (x : bool) (w : World) : World :=
  {| tick := tick w; mode := mode w; is_running := x;
     twitter_api := twitter_api w; gemini_model := gemini_model w;
     platforms := platforms w; posted_content := posted_content w;
     trending_topics := trending_topics w; weekday_times := weekday_times w;
     weekend_times := weekend_times w; last_run := last_run w;
     jobs := jobs w; posted_content_json := posted_content_json w;
     manager_agent := manager_agent w; manager_mode := manager_mode w;
     manager_running := manager_running w; trace := trace w |}.

Definition set_posted_content (x : list PostRecord) (w : World) : World :=
  {| tick := tick w; mode := mode w; is_running := is_running w;
     twitter_api := twitter_api w; gemini_model := gemini_model w;
     platforms := platforms w; posted_content := x;
     trending_topics := trending_topics w; weekday_times := weekday_times w;
     weekend_times := weekend_times w; last_run := last_run w;
     jobs := jobs w; posted_content_json := posted_content_json w;
     manager_agent := manager_agent w; manager_mode := manager_mode w;
     manager_running := manager_running w; trace := trace w |}.

Definition set_trending_topics (x : list str) (w : World) : World :=
  {| tick := tick w; mode := mode w; is_running := is_running w;
     twitter_api := twitter_api w; gemini_model := gemini_model w;
     platforms := platforms w; posted_content := posted_content w;
     trending_topics := x; weekday_times := weekday_times w;
     weekend_times := weekend_times w; last_run := last_run w;
     jobs := jobs w; posted_content_json := posted_content_json w;
     manager_agent := manager_agent w; manager_mode := manager_mode w;
     manager_running := manager_running w; trace := trace w |}.

Definition set_weekday_times (x : list str) (w : World) : World :=
  {| tick := tick w; mode := mode w; is_running := is_running w;
     twitter_api := twitter_api w; gemini_model := gemini_model w;
     platforms := platforms w; posted_content := posted_content w;
     trending_topics := trending_topics w; weekday_times := x;
     weekend_times := weekend_times w; last_run := last_run w;
     jobs := jobs w; posted_content_json := posted_content_json w;
     manager_agent := manager_agent w; manager_mode := manager_mode w;
     manager_running := manager_running w; trace := trace w |}.

Definition set_weekend_times (x : list str) (w : World) : World :=
  {| tick := tick w; mode := mode w; is_running := is_running w;
     twitter_api := twitter_api w; gemini_model := gemini_model w;
     platforms := platforms w; posted_content := posted_content w;
     trending_topics := trending_topics w; weekday_times := weekday_times w;
     weekend_times := x; last_run := last_run w; jobs := jobs w;
     posted_content_json := posted_content_json w;
     manager_agent := manager_agent w; manager_mode := manager_mode w;
     manager_running := manager_running w; trace := trace w |}.

Definition set_last_run (x : option str) (w : World) : World :=
  {| tick := tick w; mode := mode w; is_running := is_running w;
     twitter_api := twitter_api w; gemini_model := gemini_model w;
     platforms := platforms w; posted_content := posted_content w;
     trending_topics := trending_topics w; weekday_times := weekday_times w;
     weekend_times := weekend_times w; last_run := x; jobs := jobs w;
     posted_content_json := posted_content_json w;
     manager_agent := manager_agent w; manager_mode := manager_mode w;
     manager_running := manager_running w; trace := trace w |}.

Definition set_jobs (x : list Job) (w : World) : World :=
  {| tick := tick w; mode := mode w; is_running := is_running w;
     twitter_api := twitter_api w; gemini_model := gemini_model w;
     platforms := platforms w; posted_content := posted_content w;
     trending_topics := trending_topics w; weekday_times := weekday_times w;
     weekend_times := weekend_times w; last_run := last_run w; jobs := x;
     posted_content_json := posted_content_json w;
     manager_agent := manager_agent w; manager_mode := manager_mode w;
     manager_running := manager_running w; trace := trace w |}.

Definition set_posted_content_json (x : FileState) (w : World) : World :=
  {| tick := tick w; mode := mode w; is_running := is_running w;
     twitter_api := twitter_api w; gemini_model := gemini_model w;
     platforms := platforms w; posted_content := posted_content w;
     trending_topics := trending_topics w; weekday_times := weekday_times w;
     weekend_times := weekend_times w; last_run := last_run w;
     jobs := jobs w; posted_content_json := x;
     manager_agent := manager_agent w; manager_mode := manager_mode w;
     manager_running := manager_running w; trace := trace w |}.

Definition set_manager_agent (x : bool) (w : World) : World :=
  {| tick := tick w; mode := mode w; is_running := is_running w;
     twitter_api := twitter_api w; gemini_model := gemini_model w;
     platforms := platforms w; posted_content := posted_content w;
     trending_topics := trending_topics w; weekday_times := weekday_times w;
     weekend_times := weekend_times w; last_run := last_run w;
     jobs := jobs w; posted_content_json := posted_content_json w;
     manager_agent := x; manager_mode := manager_mode w;
     manager_running := manager_running w; trace := trace w |}.

Definition set_manager_mode (x : str) (w : World) : World :=
  {| tick := tick w; mode := mode w; is_running := is_running w;
     twitter_api := twitter_api w; gemini_model := gemini_model w;
     platforms := platforms w; posted_content := posted_content w;
     trending_topics := trending_topics w; weekday_times := weekday_times w;
     weekend_times := weekend_times w; last_run := last_run w;
     jobs := jobs w; posted_content_json := posted_content_json w;
     manager_agent := manager_agent w; manager_mode := x;
     manager_running := manager_running w; trace := trace w |}.

Definition set_manager_running (x : bool) (w : World) : World :=
  {| tick := tick w; mode := mode w; is_running := is_running w;
     twitter_api := twitter_api w; gemini_model := gemini_model w;
     platforms := platforms w; posted_content := posted_content w;
     trending_topics := trending_topics w; weekday_times := weekday_times w;
     weekend_times := weekend_times w; last_run := last_run w;
     jobs := jobs w; posted_content_json := posted_content_json w;
     manager_agent := manager_agent w; manager_mode := manager_mode w;
     manager_running := x; trace := trace w |}.

Definition set_trace (x : list Event) (w : World) : World :=
  {| tick := tick w; mode := mode w; is_running := is_running w;
     twitter_api := twitter_api w; gemini_model := gemini_model w;
     platforms := platforms w; posted_content := posted_content w;
     trending_topics := trending_topics w; weekday_times := weekday_times w;
     weekend_times := weekend_times w; last_run := last_run w;
     jobs := jobs w; posted_content_json := posted_content_json w;
     manager_agent := manager_agent w; manager_mode := manager_mode w;
     manager_running := manager_running w; trace := x |}.

(* ================================================================== *)
(** * Effects: state, oracles and exceptions *)
(* ================================================================== *)

Definition M (A : Type) : Type := Env -> World -> outcome A * World.

Definition ret {A} (a : A) : M A := fun _ w => (Returned a, w).

Definition raise {A} : M A := fun _ w => (Raised, w).

Definition bind {A B} (m : M A) (k : A -> M B) : M B :=
  fun e w =>
    match m e w with
    | (Returned a, w') => k a e w'
    | (Raised, w') => (Raised, w')
    end.

(** [try: m  except Exception: h]; what [m] did before raising stays
    done. *)
Definition try_except {A} (m : M A) (h : M A) : M A :=
  fun e w =>
    match m e w with
    | (Returned a, w') => (Returned a, w')
    | (Raised, w') => h e w'
    end.

Declare Scope py_scope.
Delimit Scope py_scope with py_.
Notation "x <- m ;; k" := (bind m (fun x => k))
  (at level 61, m at next level, right associativity) : py_scope.
Notation "m ;;; k" := (bind m (fun _ => k))
  (at level 61, right associativity) : py_scope.
Open Scope py_scope.

Definition get {A} (f : World -> A) : M A := fun _ w => (Returned (f w), w).

Definition modify (f : World -> World) : M unit :=
  fun _ w => (Returned tt, f w).

Definition emit (ev : Event) : M unit :=
  modify (fun w => set_trace (trace w ++ [ev]) w).

(** Consult an oracle: it is asked at the current tick, which advances. *)
Definition ask {A} (f : Env -> nat -> A) : M A :=
  fun e w => (Returned (f e (tick w)), set_tick (S (tick w)) w).

(** Consult an oracle whose answer may be an exception. *)
Definition call {A} (f : Env -> nat -> outcome A) : M A :=
  fun e w => (f e (tick w), set_tick (S (tick w)) w).

Definition getenv (f : Env -> bool) : M bool :=
  fun e w => (Returned (f e), w).

(** [for x in l: body(x)] *)
Fixpoint for_each {A} (l : list A) (body : A -> M unit) : M unit :=
  match l with
  | [] => ret tt
  | x :: r => body x ;;; for_each r body
  end.

(* ------------------------------------------------------------------ *)
(** ** The [random] module *)

(** [random._randbelow(n)] for a positive [n] *)
Definition randbelow (n : nat) : M nat :=
  d <- ask random_draw ;; ret (d mod n).

(** [random.choice(seq)]; an empty sequence raises [IndexError]. *)
Definition random_choice {A} (l : list A) : M A :=
  match l with
  | [] => raise
  | _ =>
      j <- randbelow (List.length l) ;;
      match nth_error l j with
      | Some x => ret x
      | None => raise
      end
  end.

(** [random.randint(a, b)] for [a <= b] *)
Definition randint (a b : nat) : M nat :=
  j <- randbelow (b - a + 1) ;; ret (a + j).

(** [pool[j] = pool[n-i-1]] and the pool shrinks by one. *)
Definition pool_take (pool : list str) (j : nat) : list str :=
  let n := List.length pool in
  let last := nth (n - 1) pool [] in
  firstn (n - 1)
    (firstn j pool ++ last :: skipn (S j) pool).

(** [random.sample] is library code: it returns [k] elements taken at
    distinct positions of the population, in the order they were drawn.
    The model draws them the way the library does over a pool (for a large
    population the library instead redraws a position until it is a new
    one, which yields the same selections). *)
Fixpoint sample_from (draw : Env -> nat -> nat) (pool : list str) (k : nat)
  : M (list str) :=
  match k with
  | O => ret []
  | S k' =>
      d <- ask draw ;;
      let j := d mod List.length pool in
      r <- sample_from draw (pool_take pool j) k' ;;
      ret (nth j pool [] :: r)
  end.

(** [random.sample(population, k)]; [k] larger than the population raises
    [ValueError]. *)
Definition random_sample (population : list str) (k : nat) : M (list str) :=
  if List.length population <? k then raise
  else sample_from random_draw population k.

(** First occurrences of a list, in order. *)
Fixpoint dedup (l : list str) : list str :=
  match l with
  | [] => []
  | x :: r => x :: filter (fun y => negb (PyStr.eqb x y)) (dedup r)
  end.

(** [list(set(l))]: the distinct elements, in the order the hash table
    yields them. *)
Definition list_of_set (l : list str) : M (list str) :=
  let d := dedup l in sample_from hash_order d (List.length d).

(* ================================================================== *)
(** * Trend discovery (app.py, lines 176-272 and 384-440) *)
(* ================================================================== *)

(** [get_twitter_trends]: the whole body is inside [try], any failure
    gives the empty list. *)
Definition get_twitter_trends : M (list str) :=
  try_except
    (trending <- call get_place_trends ;;
     ret (firstn 10 trending))
    (ret []).

(** The phrases kept from one tweet by [get_twitter_trends_v2]. *)
Definition tweet_phrases (tweet_text : str) : list str :=
  filter
    (fun clean_phrase =>
       (3 <? len clean_phrase) && (len clean_phrase <? 30) &&
       isin (py " ") clean_phrase)
    (map strip (split_on_from 44%N [] (lower tweet_text))).

Definition tweet_hashtags (tweet_text : str) : list str :=
  filter (fun word => startswith word (py "#")) (split tweet_text).

(** [get_twitter_trends_v2] *)
Definition get_twitter_trends_v2 : M (list str) :=
  try_except
    (api <- get twitter_api ;;
     if negb api then ret []
     else
       data <- call search_recent_tweets ;;
       let hashtags := flat_map tweet_hashtags data in
       let topics := flat_map tweet_phrases data in
       let all_topics := hashtags ++ topics in
       unique <- list_of_set all_topics ;;
       ret (firstn 10 unique))
    (ret []).

(** [get_twitter_trends_scraping] *)
Definition get_twitter_trends_scraping : M (list str) :=
  try_except
    (trends <- call select_trend_items ;;
     ret (firstn 10 trends))
    (ret []).

Definition fallback_topic_list : list str :=
  map py
    ["technology advancements"; "sustainable living"; "health breakthroughs";
     "remote work productivity"; "digital marketing strategies"; "AI ethics";
     "climate solutions"; "entrepreneurship tips"; "financial literacy";
     "productivity hacks"; "mental health awareness";
     "educational innovations"; "technological innovation";
     "sustainable travel"; "nutrition science"; "fitness trends";
     "stress management"; "influential books"; "film analysis";
     "music production"; "ethical fashion"; "photography techniques";
     "sports science"; "home organization"; "sustainable gardening";
     "pet health"; "effective parenting"; "career development";
     "data privacy"; "renewable energy"; "medical research";
     "space exploration"]%string.

(** [get_fallback_topics] *)
Definition get_fallback_topics : M (list str) :=
  k <- randint 3 5 ;;
  random_sample fallback_topic_list k.

(** The test of the filter loop of [fetch_trends]:
    [trend and len(trend) < 50] and [not trend.startswith('http')]. *)
Definition keep_trend (trend : str) : bool :=
  truthy trend && (len trend <? 50) && negb (startswith trend (py "http")).

(** One discovery method of [fetch_trends], tried only while
    [twitter_trends] is still empty. *)
Definition try_method (twitter_trends : list str) (method : M (list str))
  : M (list str) :=
  match twitter_trends with
  | [] => try_except method (ret twitter_trends)
  | _ => ret twitter_trends
  end.

(** [fetch_trends] *)
Definition fetch_trends : M (list str) :=
  ps <- get platforms ;;
  all_trends <-
    (if existsb (PyStr.eqb (py "twitter")) ps then
       twitter_trends <- try_method [] get_twitter_trends ;;
       twitter_trends <- try_method twitter_trends get_twitter_trends_v2 ;;
       twitter_trends <- try_method twitter_trends get_twitter_trends_scraping ;;
       twitter_trends <-
         (match twitter_trends with
          | [] => get_fallback_topics
          | _ => ret twitter_trends
          end) ;;
       ret ([] ++ twitter_trends)
     else ret []) ;;
  let filtered_trends := filter keep_trend all_trends in
  modify (set_trending_topics filtered_trends) ;;;
  ret filtered_trends.

(* ================================================================== *)
(** * Content generation (app.py, lines 338-382 and 442-782) *)
(* ================================================================== *)

Definition post_types : list str :=
  map py ["informative"; "question"; "statistic"; "tip"; "news"; "opinion";
          "resource"]%string.

(** [self.image_database]; a dictionary is iterated in insertion order. *)
Definition image_database : list (str * list str) :=
  [
   (py "technology",
    map py
      ["https://images.unsplash.com/photo-1518770660439-4636190af475";
       "https://images.unsplash.com/photo-1526374965328-7f61d4dc18c5";
       "https://images.unsplash.com/photo-1504384764586-bb4cdc1707b0"]%string);
   (py "health",
    map py
      ["https://images.unsplash.com/photo-1505576399279-565b52d4ac71";
       "https://images.unsplash.com/photo-1498837167922-ddd27525d352";
       "https://images.unsplash.com/photo-1506126613408-eca07ce68773"]%string);
   (py "business",
    map py
      ["https://images.unsplash.com/photo-1560472355-536de3962603";
       "https://images.unsplash.com/photo-1486406146926-c627a92ad1ab";
       "https://images.unsplash.com/photo-1507679799987-c73779587ccf"]%string);
   (py "nature",
    map py
      ["https://images.unsplash.com/photo-1470071459604-3b5ec3a7fe05";
       "https://images.unsplash.com/photo-1441974231531-c6227db76b6e";
       "https://images.unsplash.com/photo-1472214103451-9374bd1c798e"]%string);
   (py "travel",
    map py
      ["https://images.unsplash.com/photo-1500835556837-99ac94a94552";
       "https://images.unsplash.com/photo-1476514525535-07fb3b4ae5f1";
       "https://images.unsplash.com/photo-1502602898657-3e91760cbb34"]%string);
   (py "food",
    map py
      ["https://images.unsplash.com/photo-1504674900247-0877df9cc836";
       "https://images.unsplash.com/photo-1512621776951-a57141f2eefd";
       "https://images.unsplash.com/photo-1476224203421-9ac39bcb3327"]%string);
   (py "sports",
    map py
      ["https://images.unsplash.com/photo-1461896836934-ffe607ba8211";
       "https://images.unsplash.com/photo-1517649763962-0c623066013b";
       "https://images.unsplash.com/photo-1541534741688-6078c6bfb5c5"]%string);
   (py "education",
    map py
      ["https://images.unsplash.com/photo-1503676260728-1c00da094a0b";
       "https://images.unsplash.com/photo-1523050854058-8df90110c9f1";
       "https://images.unsplash.com/photo-1509062522246-3755977927d7"]%string);
   (py "finance",
    map py
      ["https://images.unsplash.com/photo-1565514020179-026b92b4a5b0";
       "https://images.unsplash.com/photo-1579170053380-58a5b2c13ff6";
       "https://images.unsplash.com/photo-1620714223084-8fcacc6dfd8d"]%string);
   (py "science",
    map py
      ["https://images.unsplash.com/photo-1507668077129-56e32842523b";
       "https://images.unsplash.com/photo-1564325724739-bae0bd08762c";
       "https://images.unsplash.com/photo-1532094349884-543bc11b234d"]%string);
   (py "default",
    map py
      ["https://images.unsplash.com/photo-1496449903678-68ddcb189a24";
       "https://images.unsplash.com/photo-1522199755839-a2bacb67c546";
       "https://images.unsplash.com/photo-1554774853-d50f9c681ae2"]%string)
  ].

(** [d.get(k)] on a dictionary kept in insertion order *)
Fixpoint dict_get {V} (d : list (str * V)) (k : str) : option V :=
  match d with
  | [] => None
  | (k', v) :: r => if PyStr.eqb k' k then Some v else dict_get r k
  end.

(** [d.get(k, default)] *)
Definition dict_get_or {V} (d : list (str * V)) (k : str) (default : V) : V :=
  match dict_get d k with
  | Some v => v
  | None => default
  end.

(** The test of the first loop of [get_relevant_image_url]:
    [category.lower() in topic_lower]. *)
Definition exact_match (topic_lower : str) (entry : str * list str) : bool :=
  isin (lower (fst entry)) topic_lower.

(** The test of the second loop: the default category is skipped, and a
    word of the topic matches when it lies inside the category name or the
    category name lies inside it. *)
Definition partial_match (topic_lower : str) (entry : str * list str)
  : bool :=
  let category := fst entry in
  negb (PyStr.eqb category (py "default")) &&
  existsb (fun word => isin word category || isin category word)
          (findall_w topic_lower).

(** [get_relevant_image_url] *)
Definition get_relevant_image_url (topic : str) : M str :=
  let topic_lower := lower topic in
  match find (exact_match topic_lower) image_database with
  | Some (_, urls) => random_choice urls
  | None =>
      match find (partial_match topic_lower) image_database with
      | Some (_, urls) => random_choice urls
      | None =>
          match dict_get image_database (py "default") with
          | Some urls => random_choice urls
          | None => raise
          end
      end
  end.

(** [stats_by_category] of [get_stats_for_topic] *)
Definition stats_by_category : list (str * list str) :=
  [
   (py "technology",
    [py "90% of the world's data has been created in the last two years";
     py "There are over 5 billion smartphone users worldwide";
     py "The average person touches their phone 2,617 times a day"]);
   (py "health",
    [py "Regular exercise can reduce the risk of major illnesses by up to 50%";
     py "Drinking water can increase energy levels by up to 30%";
     py "Laughing 100 times is equivalent to 15 minutes of exercise on a stationary bike"]);
   (py "business",
    [py "65% of entrepreneurs start their businesses at home";
     py "It takes an average of 3 years for a startup to become profitable";
     py "42% of startups fail because there's no market need for their product"]);
   (py "climate",
    [py "The last decade was the warmest on record";
     py "Sea levels have risen by about 8-9 inches since 1880";
     py "The Earth's average temperature has increased by 1.1" ++ [194; 176]%N ++ py "C since the pre-industrial era"]);
   (py "social media",
    [py "Users spend an average of 2.5 hours per day on social platforms";
     py "There are over 4.2 billion active social media users globally";
     py "72% of the public uses some type of social media"]);
   (py "ai",
    [py "The AI market is projected to reach $190 billion by 2025";
     py "AI adoption in businesses has grown by 270% in the past four years";
     py "70% of customer interactions involve AI like chatbots or virtual assistants"])
  ].

(** [get_stats_for_topic] *)
Definition get_stats_for_topic (topic : str) : M (option str) :=
  let topic_lower := lower topic in
  match
    find (fun entry =>
            isin (fst entry) topic_lower ||
            existsb (fun word => isin word (fst entry)) (split topic_lower))
         stats_by_category
  with
  | Some (_, stats_list) => s <- random_choice stats_list ;; ret (Some s)
  | None => ret None
  end.

(** [fetch_news_for_topic]: the body is one [try] around HTTP exchanges and
    the function returns a list on every path. *)
Definition fetch_news_for_topic (topic : str) : M (list Article) :=
  ask (fun e t => news_lookup e t topic).

(** [platform_specs] of [generate_content_gemini] *)
Definition platform_specs : list (str * (nat * str)) :=
  [(py "twitter", (250, py "tweet"));
   (py "facebook", (400, py "Facebook post"));
   (py "instagram", (300, py "Instagram caption"))].

Definition platform_info (platform : str) : nat * str :=
  dict_get_or platform_specs platform (300, py "social media post").

(** The limit dictionary of [generate_content_huggingface] and
    [generate_content_fallback], with its default. *)
Definition max_length (platform : str) : nat :=
  dict_get_or
    [(py "twitter", 250); (py "facebook", 400); (py "instagram", 300)]
    platform 300.

(** The limit check that closes every generator:
    [if len(content) > max_length: content = content[:max_length-3] + "..."] *)
Definition enforce_limit (max_length : nat) (content : str) : str :=
  if max_length <? len content
  then upto (max_length - 3) content ++ py "..."
  else content.

(** Decimal rendering of an integer inside an f-string. *)
Definition decimal (n : nat) : str :=
  py (NilEmpty.string_of_uint (Nat.to_uint n)).

(** [not post_type] *)
Definition no_post_type (post_type : option str) : bool :=
  match post_type with
  | Some (_ :: _) => false
  | _ => true
  end.

(** [if not post_type: post_type = random.choice(self.post_types)] *)
Definition choose_post_type (post_type : option str) : M str :=
  match post_type with
  | Some (c :: r) => ret (c :: r)
  | _ => random_choice post_types
  end.

Definition is_in (x : str) (l : list str) : bool := existsb (PyStr.eqb x) l.

(** [news_data[0]] when [news_data] is a non-empty list *)
Definition first_article (news_data : option (list Article)) : option Article :=
  match news_data with
  | Some (a :: _) => Some a
  | _ => None
  end.

(** [result["article_url"]] as set at the end of every generator *)
Definition article_url_for (news_data : option (list Article)) (post_type : str)
  : option str :=
  match first_article news_data with
  | Some a => if PyStr.eqb post_type (py "news") then Some (url a) else None
  | None => None
  end.

Definition post_type_prompts : list (str * str) :=
  [(py "informative",
    py "Write an informative, fact-based post that educates the audience");
   (py "question",
    py "Write a thought-provoking question that encourages audience participation");
   (py "statistic",
    py "Write a post highlighting an interesting statistic or data point");
   (py "tip",
    py "Write a practical tip or advice that provides immediate value");
   (py "news",
    py "Write a news update that summarizes recent developments");
   (py "opinion",
    py "Write a thoughtful opinion or perspective that invites discussion");
   (py "resource",
    py "Write a post sharing a useful resource or tool related to the topic")].

(** The prompt sent to Gemini. *)
Definition gemini_prompt (topic platform post_type : str)
  (news_data : option (list Article)) (stat : option str) : str :=
  let info := platform_info platform in
  let post_prompt :=
    dict_get_or post_type_prompts post_type
      (py "Write an engaging social media post") in
  let prompt :=
    py "You are a social media expert creating engaging, valuable content that educates and engages users."
    ++ nl ++ nl
    ++ py "Task: " ++ post_prompt ++ py " about '" ++ topic ++ py "' as a "
    ++ snd info ++ py "." ++ nl ++ nl
    ++ py "Requirements:" ++ nl
    ++ py "- Maximum " ++ decimal (fst info) ++ py " characters" ++ nl
    ++ py "- Include 1-2 relevant hashtags (e.g., #"
    ++ upto 15 (replace (py " ") [] topic) ++ py ")" ++ nl
    ++ py "- Add appropriate emojis for visual appeal" ++ nl
    ++ py "- Include a call-to-action or engagement question" ++ nl
    ++ py "- Be informative yet conversational" ++ nl
    ++ py "- Focus on providing actionable insights or interesting perspectives"
    ++ nl ++ nl
    ++ py "Post Type: " ++ post_type ++ nl
    ++ py "Platform: " ++ platform in
  let prompt :=
    match first_article news_data with
    | Some a =>
        if is_in post_type (map py ["informative"; "news"]%string)
        then prompt ++ nl ++ nl ++ py "Recent news context: " ++ title a
        else prompt
    | None => prompt
    end in
  let prompt :=
    match stat with
    | Some (c :: r) =>
        if PyStr.eqb post_type (py "statistic")
        then prompt ++ nl ++ nl
             ++ py "Relevant statistic to incorporate: " ++ (c :: r)
        else prompt
    | _ => prompt
    end in
  prompt ++ nl ++ nl
  ++ py "Generate only the social media post content, nothing else:".

(** The [templates] dictionary of [generate_content_fallback]; the leading
    code points of each template are those of the source file. *)
Definition templates (topic : str) : list (str * list str) :=
  let compact := replace (py " ") [] topic in
  [
   (py "informative",
    [
      [240; 376; 8220; 353]%N
        ++ py " Did you know? Here's an interesting fact about "
        ++ topic
        ++ py " that most people don't realize. Learning about this changed my perspective! #informative #"
        ++ compact;
      [240; 376; 8221]%N
        ++ py " Understanding "
        ++ topic
        ++ py " is essential in today's world. Here's what you need to know and why it matters. Have you explored this topic before? #knowledgeshare #"
        ++ compact
    ]);
   (py "question",
    [
      [240; 376; 164; 8221]%N
        ++ py " What's your experience with "
        ++ topic
        ++ py "? I'm curious to hear different perspectives on this important topic! #discussion #"
        ++ compact;
      [226; 8220]%N
        ++ py " If you could change one thing about "
        ++ topic
        ++ py ", what would it be and why? Share your thoughts below! #feedback #"
        ++ compact
    ]);
   (py "statistic",
    [
      [240; 376; 8220; 352]%N
        ++ py " Surprising statistic: The latest research on "
        ++ topic
        ++ py " shows significant developments. Did you expect these numbers? #data #"
        ++ compact;
      [240; 376; 8220; 710]%N
        ++ py " The numbers don't lie: "
        ++ topic
        ++ py " is changing rapidly. Here's what the latest data reveals about where things are headed. What do these trends mean for you? #statistics #"
        ++ compact
    ]);
   (py "tip",
    [
      [240; 376; 8217; 161]%N
        ++ py " Pro tip for "
        ++ topic
        ++ py ": This approach can save you time and improve results. What strategies have worked for you? #helpful #"
        ++ compact;
      [226; 339; 8230]%N
        ++ py " Quick tip that improved my approach to "
        ++ topic
        ++ py ": This simple change made a significant difference. What tips would you add? #productivity #"
        ++ compact
    ]);
   (py "news",
    [
      [240; 376; 8221; 8221]%N
        ++ py " Breaking update on "
        ++ topic
        ++ py ": Recent developments are changing how we understand this issue. What's your take on these changes? #update #"
        ++ compact;
      [240; 376; 8220; 176]%N
        ++ py " Just in: Important news about "
        ++ topic
        ++ py " that everyone should know. How might this affect your approach? #currentevents #"
        ++ compact
    ]);
   (py "opinion",
    [
      [240; 376; 8217; 173]%N
        ++ py " My perspective on "
        ++ topic
        ++ py ": After researching this topic, I've come to an interesting conclusion. Do you agree or see it differently? #perspective #"
        ++ compact;
      [240; 376; 167; 160]%N
        ++ py " Unpopular opinion about "
        ++ topic
        ++ py ": This viewpoint challenges conventional wisdom but deserves consideration. Where do you stand on this? #thoughtleadership #"
        ++ compact
    ]);
   (py "resource",
    [
      [240; 376; 8221; 8212]%N
        ++ py " Just discovered an excellent resource on "
        ++ topic
        ++ py " that's worth checking out. What resources have you found helpful? #useful #"
        ++ compact;
      [240; 376; 8220; 353]%N
        ++ py " For anyone interested in "
        ++ topic
        ++ py ", this comprehensive guide covers everything you need to know. What other resources would you recommend? #learning #"
        ++ compact
    ])
  ].

(** [image_url = None; if include_image: image_url = ...] *)
Definition image_for (include_image : bool) (topic : str) : M (option str) :=
  if include_image
  then u <- get_relevant_image_url topic ;; ret (Some u)
  else ret None.

(** [generate_content_fallback] *)
Definition generate_content_fallback (topic platform : str)
  (include_image : bool) (post_type : option str) : M GeneratedContent :=
  post_type <- choose_post_type post_type ;;
  let type_templates :=
    dict_get_or (templates topic) post_type
      (dict_get_or (templates topic) (py "informative") []) in
  content <- random_choice type_templates ;;
  let content := enforce_limit (max_length platform) content in
  image_url <- image_for include_image topic ;;
  news_data <-
    (if PyStr.eqb post_type (py "news")
     then n <- fetch_news_for_topic topic ;; ret (Some n)
     else ret None) ;;
  ret {| text := content;
         image_url := image_url;
         post_type := post_type;
         article_url := article_url_for news_data post_type |}.

(** The auxiliary look-ups shared by the two model-backed generators. *)
Definition news_for (topic post_type : str) : M (option (list Article)) :=
  if is_in post_type (map py ["informative"; "news"]%string)
  then n <- fetch_news_for_topic topic ;; ret (Some n)
  else ret None.

Definition stat_for (topic post_type : str) : M (option str) :=
  if PyStr.eqb post_type (py "statistic")
  then get_stats_for_topic topic
  else ret None.

(** The body of the [try] of [generate_content_gemini] once the post type
    is known (lines 483-575). *)
Definition gemini_attempt (topic platform : str) (include_image : bool)
  (post_type : str) : M GeneratedContent :=
  news_data <- news_for topic post_type ;;
  stat <- stat_for topic post_type ;;
  let prompt := gemini_prompt topic platform post_type news_data stat in
  response_text <- call (fun e t => gemini_generate_content e t prompt) ;;
  let content := strip response_text in
  let max_length := fst (platform_info platform) in
  let content := enforce_limit max_length content in
  image_url <- image_for include_image topic ;;
  ret {| text := content;
         image_url := image_url;
         post_type := post_type;
         article_url := article_url_for news_data post_type |}.

(** [generate_content_gemini]. The handler of the [try] receives the post
    type as it stands when the exception is raised: the caller's before the
    random choice, the chosen one after it. *)
Definition generate_content_gemini (topic platform : str)
  (include_image : bool) (post_type : option str) : M GeneratedContent :=
  model <- get gemini_model ;;
  if negb model
  then try_except
         (generate_content_fallback topic platform include_image post_type)
         (generate_content_fallback topic platform include_image post_type)
  else
    chosen <- try_except (p <- choose_post_type post_type ;; ret (Some p))
                         (ret None) ;;
    match chosen with
    | None => generate_content_fallback topic platform include_image post_type
    | Some p =>
        try_except
          (gemini_attempt topic platform include_image p)
          (generate_content_fallback topic platform include_image (Some p))
    end.

Definition platform_desc (platform : str) : str :=
  dict_get_or
    [(py "twitter", py "tweet");
     (py "facebook", py "Facebook post");
     (py "instagram", py "Instagram caption")]
    platform (py "social media post").

(** [prompts_by_type.get(post_type, ...)] of
    [generate_content_huggingface] *)
Definition huggingface_prompt (topic platform post_type : str)
  (news_data : option (list Article)) (stat : option str) : str :=
  let desc := platform_desc platform in
  let stat_text :=
    match stat with
    | Some (c :: r) => c :: r
    | _ => py "an interesting statistic"
    end in
  let news_text :=
    match first_article news_data with
    | Some a => title a
    | None => py "recent developments"
    end in
  dict_get_or
    [(py "informative",
      py "Write an informative " ++ desc ++ py " about " ++ topic
      ++ py " with valuable facts:");
     (py "question",
      py "Write a " ++ desc ++ py " with a thought-provoking question about "
      ++ topic ++ py ":");
     (py "statistic",
      py "Write a " ++ desc ++ py " about " ++ topic
      ++ py " with this statistic: " ++ stat_text ++ py ":");
     (py "tip",
      py "Write a " ++ desc ++ py " with a useful tip about " ++ topic
      ++ py ":");
     (py "news",
      py "Write a " ++ desc ++ py " about this " ++ topic ++ py " news: "
      ++ news_text ++ py ":");
     (py "opinion",
      py "Write a " ++ desc ++ py " with a thoughtful perspective on "
      ++ topic ++ py ":");
     (py "resource",
      py "Write a " ++ desc ++ py " sharing a valuable resource about "
      ++ topic ++ py ":")]
    post_type
    (py "Write an informative " ++ desc ++ py " about " ++ topic ++ py ":").

(** [any(tag.startswith('#') for tag in content.split())] *)
Definition has_hashtag (content : str) : bool :=
  existsb (fun tag => startswith tag (py "#")) (split content).

(** The [hashtags] list built from the words of the topic. *)
Definition topic_hashtags (topic : str) : list str :=
  map (fun word => py "#" ++ word)
      (filter (fun word => 3 <? len word) (findall_w topic)).

(** "Add hashtags if needed" (lines 631-641) *)
Definition add_hashtags (topic content : str) : str :=
  if negb (has_hashtag content)
  then match topic_hashtags topic with
       | [] => content
       | hashtags => content ++ nl ++ nl ++ join (py " ") (firstn 2 hashtags)
       end
  else content.

Definition engagement_questions : list str :=
  map py ["What do you think?";
          "Have you experienced this?";
          "What's your take on this?";
          "How does this impact you?";
          "Would you like to learn more about this topic?"]%string.

(** "Add engagement element if missing" (lines 643-652) *)
Definition add_engagement (post_type content : str) : M str :=
  if negb (isin (py "?") content) && negb (PyStr.eqb post_type (py "question"))
  then q <- random_choice engagement_questions ;;
       ret (content ++ py " " ++ q)
  else ret content.

(** The body of the [try] of [generate_content_huggingface] once the post
    type is known (lines 591-679). A reply without the key
    [generated_text] counts as the empty text. *)
Definition huggingface_attempt (topic platform : str) (include_image : bool)
  (post_type : str) : M GeneratedContent :=
  news_data <- news_for topic post_type ;;
  stat <- stat_for topic post_type ;;
  let prompt_text :=
    huggingface_prompt topic platform post_type news_data stat in
  generated <- call (fun e t => huggingface_post e t prompt_text) ;;
  let generated_text :=
    match generated with Some g => g | None => [] end in
  let content := strip (replace prompt_text [] generated_text) in
  let content := add_hashtags topic content in
  content <- add_engagement post_type content ;;
  let content := enforce_limit (max_length platform) content in
  image_url <- image_for include_image topic ;;
  ret {| text := content;
         image_url := image_url;
         post_type := post_type;
         article_url := article_url_for news_data post_type |}.

(** [generate_content_huggingface] *)
Definition generate_content_huggingface (topic platform : str)
  (include_image : bool) (post_type : option str) : M GeneratedContent :=
  chosen <- try_except (p <- choose_post_type post_type ;; ret (Some p))
                       (ret None) ;;
  match chosen with
  | None => generate_content_fallback topic platform include_image post_type
  | Some p =>
      try_except
        (huggingface_attempt topic platform include_image p)
        (generate_content_fallback topic platform include_image (Some p))
  end.

(** One strategy of [generate_content]: [try: return g  except: log]. *)
Definition attempt (g : M GeneratedContent) : M (option GeneratedContent) :=
  try_except (c <- g ;; ret (Some c)) (ret None).

(** [generate_content] *)
Definition generate_content (topic platform : str) (include_image : bool)
  : M GeneratedContent :=
  post_type <- random_choice post_types ;;
  model <- get gemini_model ;;
  google_key <- getenv getenv_GOOGLE_API_KEY ;;
  first <-
    (if model && google_key
     then attempt (generate_content_gemini topic platform include_image
                     (Some post_type))
     else ret None) ;;
  match first with
  | Some c => ret c
  | None =>
      huggingface_key <- getenv getenv_HUGGINGFACE_API_KEY ;;
      second <-
        (if huggingface_key
         then attempt (generate_content_huggingface topic platform
                         include_image (Some post_type))
         else ret None) ;;
      match second with
      | Some c => ret c
      | None =>
          generate_content_fallback topic platform include_image
            (Some post_type)
      end
  end.

(* ================================================================== *)
(** * Publishing (app.py, lines 784-912) *)
(* ================================================================== *)

(** Truthiness of an optional string: [if image_url] *)
Definition present (x : option str) : option str :=
  match x with
  | Some (c :: r) => Some (c :: r)
  | _ => None
  end.

(** The inner [try] of [post_to_twitter] (lines 803-833): the value of
    [media_id] when the block is left, normally or through its handler.
    [media_id] is assigned as soon as the upload has returned, so a failure
    of the clean-up that follows keeps it. *)
Definition upload_image (image_url : str) : M (option N) :=
  try_except
    (call oauth1_api ;;;
     status_code <- call (fun e t => requests_get_image e t image_url) ;;
     if status_code =? 200 then
       call write_temp_image ;;;
       media_id <- call media_upload ;;
       emit (MediaUpload media_id) ;;;
       try_except (call remove_temp_image ;;; ret (Some media_id))
                  (ret (Some media_id))
     else ret None)
    (ret None).

(** The text that is tweeted (lines 792-798): the article link is added
    on a line of its own when the whole still fits in 250 characters. *)
Definition tweet_text (content : GeneratedContent) : str :=
  let text_ := text content in
  match present (article_url content) with
  | Some article =>
      if len text_ + len article + 1 <=? 250
      then text_ ++ nl ++ article
      else text_
  | None => text_
  end.

(** [media_ids] of the call of [create_tweet]: [if media_id] is false for
    [None] and for zero. *)
Definition media_ids_of (media_id : option N) : option N :=
  match media_id with
  | Some m => if N.eqb m 0 then None else Some m
  | None => None
  end.

(** [post_to_twitter] *)
Definition post_to_twitter (content : GeneratedContent) : M bool :=
  try_except
    (api <- get twitter_api ;;
     if negb api then ret false
     else
       let text_ := tweet_text content in
       media_id <-
         (match present (image_url content) with
          | Some image => upload_image image
          | None => ret None
          end) ;;
       let media_ids := media_ids_of media_id in
       emit (CreateTweet text_ media_ids) ;;;
       _tweet_id <- call (fun e t => create_tweet e t text_ media_ids) ;;
       ret true)
    (ret false).

(** [save_posted_content]: opening the file for writing empties it, so a
    dump that fails leaves it half-written. *)
Definition save_posted_content : M unit :=
  try_except
    (result <- ask write_history_file ;;
     history <- get posted_content ;;
     match result with
     | OpenRaised => raise
     | DumpRaised =>
         emit (DumpHistory history) ;;;
         modify (set_posted_content_json Corrupt) ;;;
         raise
     | Written =>
         emit (DumpHistory history) ;;;
         modify (set_posted_content_json (Holds history))
     end)
    (ret tt).

(** [post_content] *)
Definition post_content (platform : str) (content : GeneratedContent)
  : M bool :=
  success <-
    (if PyStr.eqb platform (py "twitter")
     then post_to_twitter content
     else ret false) ;;
  if success : bool then
    timestamp <- ask now_isoformat ;;
    let content_record :=
      {| rec_platform := platform;
         rec_content := text content;
         rec_image_url := image_url content;
         rec_post_type := post_type content;
         rec_article_url := article_url content;
         rec_timestamp := timestamp |} in
    modify (fun w => set_posted_content (posted_content w ++ [content_record]) w) ;;;
    save_posted_content ;;;
    ret success
  else ret success.

(** [run_daily_post] *)
Definition run_daily_post : M unit :=
  start_time <- ask now_isoformat ;;
  modify (set_last_run (Some start_time)) ;;;
  trends <- fetch_trends ;;
  let trends :=
    match trends with
    | [] => map py ["social media"; "digital marketing"; "technology"]%string
    | _ => trends
    end in
  selected_trend <- random_choice trends ;;
  ps <- get platforms ;;
  for_each ps
    (fun platform =>
       try_except
         (content <- generate_content selected_trend platform true ;;
          _success <- post_content platform content ;;
          emit (Sleep 2))
         (ret tt)) ;;;
  _end_time <- ask now_isoformat ;;
  ret tt.

(* ================================================================== *)
(** * Scheduling (app.py, lines 1235-1280; main.py, lines 136-190) *)
(* ================================================================== *)

(** [schedule.every().<unit>.at(time_slot).do(func)]: a time string the
    library rejects raises, otherwise the job joins [schedule.jobs]. *)
Definition register (u : Unit_) (time_slot : str) (f : JobFunc) : M unit :=
  fun e w =>
    if schedule_accepts e u time_slot
    then (Returned tt,
          set_jobs (jobs w ++ [{| job_unit := u; at_time := time_slot;
                                  job_func := f |}]) w)
    else (Raised, w).

(** [schedule.clear()] *)
Definition schedule_clear : M unit := modify (set_jobs []).

(** [run_production_mode]; the result tells whether a thread was
    returned. *)
Definition run_production_mode : M bool :=
  m <- get mode ;;
  if negb (PyStr.eqb m (py "production")) then ret false
  else
    modify (set_is_running true) ;;;
    schedule_clear ;;;
    weekday <- get weekday_times ;;
    for_each weekday
      (fun time_slot =>
         register Monday time_slot RunDailyPost ;;;
         register Tuesday time_slot RunDailyPost ;;;
         register Wednesday time_slot RunDailyPost ;;;
         register Thursday time_slot RunDailyPost ;;;
         register Friday time_slot RunDailyPost) ;;;
    weekend <- get weekend_times ;;
    for_each weekend
      (fun time_slot =>
         register Saturday time_slot RunDailyPost ;;;
         register Sunday time_slot RunDailyPost) ;;;
    register Day (py "23:00") AnalyzePostPerformance ;;;
    emit ThreadStart ;;;
    ret true.

(** [stop_production_mode] of the agent *)
Definition stop_production_mode : M unit :=
  modify (set_is_running false) ;;;
  schedule_clear.

(** [set_production_schedule] *)
Definition set_production_schedule (weekday weekend : list str) : M unit :=
  modify (set_weekday_times weekday) ;;;
  modify (set_weekend_times weekend).

(** [len(schedule.jobs)] as reported by [get_status] *)
Definition scheduled_jobs (w : World) : nat := List.length (jobs w).

(** [_scheduled_post] of the manager *)
Definition scheduled_post : M unit :=
  running <- get manager_running ;;
  agent <- get manager_agent ;;
  if running && agent then try_except run_daily_post (ret tt) else ret tt.

Definition run_job (f : JobFunc) : M unit :=
  match f with
  | RunDailyPost => run_daily_post
  | AnalyzePostPerformance => ret tt
  | ScheduledPost => scheduled_post
  end.

(** [job for job in self.jobs if job.should_run] *)
Fixpoint runnable_jobs (js : list Job) : M (list Job) :=
  match js with
  | [] => ret []
  | j :: r =>
      due <- ask (fun e t => should_run e t j) ;;
      rest <- runnable_jobs r ;;
      ret (if due : bool then j :: rest else rest)
  end.

(** [schedule.run_pending()]: the jobs that are due are collected, then
    each of them runs once. The library runs them in the order of their
    fire times, which are not modelled; here they run in the order of
    their registration. *)
Definition run_pending : M unit :=
  js <- get jobs ;;
  runnable <- runnable_jobs js ;;
  for_each runnable
    (fun j => emit (JobRun j) ;;; run_job (job_func j)).

(** One turn of [while flag: schedule.run_pending(); time.sleep(60)];
    the result tells whether the loop goes on. *)
Definition poll (flag : World -> bool) : M bool :=
  running <- get flag ;;
  if running : bool then run_pending ;;; emit (Sleep 60) ;;; ret true
  else ret false.

(** The loop of a scheduler thread, for at most [turns] turns; the result
    tells whether the loop is still going. *)
Fixpoint poll_loop (flag : World -> bool) (turns : nat) : M bool :=
  match turns with
  | O => ret true
  | S n =>
      go_on <- poll flag ;;
      if go_on : bool then poll_loop flag n else ret false
  end.

(** [run_scheduler], the thread body of the agent *)
Definition run_scheduler (turns : nat) : M bool := poll_loop is_running turns.

Module Manager.

(** [SocialMediaManager.start_production_mode]; the result tells whether
    a thread was started. *)
Definition start_production_mode : M bool :=
  agent <- get manager_agent ;;
  if negb agent then ret false
  else
    running <- get manager_running ;;
    if running : bool then ret false
    else
      modify (set_manager_mode (py "production")) ;;;
      modify (set_manager_running true) ;;;
      emit ThreadStart ;;;
      ret true.

(** [SocialMediaManager.stop_production_mode] *)
Definition stop_production_mode : M unit :=
  running <- get manager_running ;;
  if negb running then ret tt
  else
    modify (set_manager_running false) ;;;
    modify (set_manager_mode (py "testing")).

(** The registrations that open [_run_scheduler]. *)
Definition run_scheduler_setup : M unit :=
  for_each (map py ["12:30"; "15:45"; "17:30"]%string)
    (fun time_slot => register Day time_slot ScheduledPost).

(** [_run_scheduler], the thread body of the manager *)
Definition run_scheduler (turns : nat) : M bool :=
  run_scheduler_setup ;;;
  poll_loop manager_running turns.

End Manager.

(** The attributes set by [SocialMediaAIAgent.__init__], for the given
    mode and the given availability of the two clients, together with an
    empty schedule and no history file. *)
Definition init_world (mode_ : str) (twitter gemini : bool) : World :=
  {| tick := 0;
     mode := mode_;
     is_running := false;
     twitter_api := twitter;
     gemini_model := gemini;
     platforms := [py "twitter"];
     posted_content := [];
     trending_topics := [];
     weekday_times := map py ["09:00"; "14:00"; "18:00"]%string;
     weekend_times := map py ["11:00"; "15:00"; "19:00"]%string;
     last_run := None;
     jobs := [];
     posted_content_json := Absent;
     manager_agent := true;
     manager_mode := py "testing";
     manager_running := false;
     trace := [] |}.

(* ================================================================== *)
(** * Further operations (app.py, lines 901-912, 1039-1070 and 1180-1202;
      main.py, lines 102-134 and 248-259) *)
(* ================================================================== *)

(** [load_posted_content]: a missing file and a file that does not parse
    both give the empty history. *)
Definition load_posted_content : M unit :=
  modify (fun w =>
            set_posted_content
              match posted_content_json w with
              | Holds history => history
              | Absent => []
              | Corrupt => []
              end w).

(** The dictionary returned by [check_content_quality]. *)
Record QualityReport := {
  issues : list str;
  suggestions : list str;
  quality_score : nat
}.

(** [emoji_chars], code point by code point as the source file holds
    it. *)
Definition emoji_chars : str :=
  [240; 376; 732; 8364; 240; 376; 732; 402; 240; 376; 732; 8222; 240; 376;
   732; 240; 376; 732; 8224; 240; 376; 732; 8230; 240; 376; 732; 8218; 240;
   376; 164; 163; 240; 376; 732; 352; 240; 376; 732; 8225; 240; 376; 8482;
   8218; 240; 376; 8482; 402; 240; 376; 732; 8240; 240; 376; 732; 338; 240;
   376; 732; 240; 376; 165; 176; 240; 376; 732; 732; 240; 376; 732; 8212;
   240; 376; 732; 8482; 240; 376; 732; 353; 240; 376; 732; 8249; 240; 376;
   732; 8250; 240; 376; 732; 240; 376; 732; 339; 240; 376; 164; 170; 240;
   376; 164; 168; 240; 376; 167; 240; 376; 164; 8220; 240; 376; 732; 381;
   240; 376; 164; 169; 240; 376; 165; 179; 240; 376; 732; 240; 376; 732;
   8217; 240; 376; 732; 382; 240; 376; 732; 8221; 240; 376; 732; 376; 240;
   376; 732; 8226; 240; 376; 8482; 226; 732; 185; 239; 184; 240; 376; 732;
   163; 240; 376; 732; 8211; 240; 376; 732; 171; 240; 376; 732; 169; 240;
   376; 165; 186; 240; 376; 732; 162; 240; 376; 732; 173; 240; 376; 732;
   164; 240; 376; 732; 160; 240; 376; 732; 161; 240; 376; 164; 172; 240;
   376; 164; 175; 240; 376; 732; 179; 240; 376; 165; 181; 240; 376; 165;
   182; 240; 376; 732; 177; 240; 376; 732; 168; 240; 376; 732; 176; 240;
   376; 732; 165; 240; 376; 732; 8220; 240; 376; 164; 8212; 240; 376; 164;
   8221; 240; 376; 164; 173; 240; 376; 164; 171; 240; 376; 164; 165; 240;
   376; 732; 182; 240; 376; 732; 240; 376; 732; 8216; 240; 376; 732; 172;
   240; 376; 8482; 8222; 240; 376; 732; 175; 240; 376; 732; 166; 240; 376;
   732; 167; 240; 376; 732; 174; 240; 376; 732; 178; 240; 376; 165; 177;
   240; 376; 732; 180; 240; 376; 164; 164; 240; 376; 732; 170; 240; 376;
   732; 181; 240; 376; 164; 240; 376; 165; 180; 240; 376; 164; 162; 240;
   376; 164; 174; 240; 376; 164; 167; 240; 376; 732; 183; 240; 376; 164;
   8217; 240; 376; 164; 8226; 240; 376; 164; 8216; 240; 376; 164; 160; 240;
   376; 732; 710; 240; 376; 8216; 191; 240; 376; 8216; 185; 240; 376; 8216;
   186; 240; 376; 164; 161; 240; 376; 8217; 169; 240; 376; 8216; 187; 240;
   376; 8217; 8364; 226; 732; 160; 239; 184; 240; 376; 8216; 189; 240; 376;
   8216; 190; 240; 376; 164; 8211; 240; 376; 381; 402; 240; 376; 732; 186;
   240; 376; 732; 184; 240; 376; 732; 185; 240; 376; 732; 187; 240; 376;
   732; 188; 240; 376; 732; 189; 240; 376; 8482; 8364; 240; 376; 732; 191;
   240; 376; 732; 190]%N.

(** [issues.append(issue); suggestions.append(suggestion)] under a
    condition *)
Definition flag (condition : bool) (issue suggestion : str)
  (found : list str * list str) : list str * list str :=
  if condition
  then (fst found ++ [issue], snd found ++ [suggestion])
  else found.

(** [any(call in content.lower() for call in [...])] *)
Definition has_call_to_action (content : str) : bool :=
  existsb (fun call => isin call (lower content))
          (map py ["share"; "comment"; "tell us"; "let us know"]%string).

(** [any(c in emoji_chars for c in content)] *)
Definition has_emoji_char (content : str) : bool :=
  existsb (fun c => isin [c] emoji_chars) content.

(** [check_content_quality] *)
Definition check_content_quality (content : str) : QualityReport :=
  let found := ([], []) in
  let found :=
    flag (len content <? 50)
      (py "Content is too short")
      (py "Add more valuable information or context") found in
  let found :=
    flag (negb (isin (py "?") content) && negb (has_call_to_action content))
      (py "Missing engagement prompt")
      (py "Add a question or clear call to action") found in
  let found :=
    flag (negb (isin (py "#") content))
      (py "No hashtags")
      (py "Add 1-2 relevant hashtags for better discoverability") found in
  let found :=
    flag (negb (has_emoji_char content))
      (py "No visual elements")
      (py "Include relevant emojis to increase visibility") found in
  {| issues := fst found;
     suggestions := snd found;
     quality_score :=
       if List.length (fst found) <=? 10
       then 10 - List.length (fst found) else 0 |}.

(** The dictionary returned by [test_post_creation]. *)
Record TestResult := {
  status : str;
  message : str;
  tested_content : option GeneratedContent;
  tested_topic : option str
}.

(** [test_post_creation] *)
Definition test_post_creation (test_topic : option str) : M TestResult :=
  try_except
    (test_topic <-
       (match test_topic with
        | Some (c :: r) => ret (c :: r)
        | _ =>
            random_choice
              (map py ["AI technology"; "productivity tips";
                       "health and wellness"]%string)
        end) ;;
     content <- generate_content test_topic (py "twitter") true ;;
     match text content with
     | _ :: _ =>
         ret {| status := py "success";
                message := py "Content generated successfully";
                tested_content := Some content;
                tested_topic := Some test_topic |}
     | [] =>
         ret {| status := py "error";
                message := py "Failed to generate content";
                tested_content := None;
                tested_topic := None |}
     end)
    (ret {| status := py "error";
            message := py "Content generation failed";
            tested_content := None;
            tested_topic := None |}).

(** [SocialMediaManager.test_full_post_cycle]; the result is the content
    it prints, if it gets that far. *)
Definition manager_test_full_post_cycle : M (option GeneratedContent) :=
  agent <- get manager_agent ;;
  if negb agent then ret None
  else
    try_except
      (trends <- fetch_trends ;;
       trends <-
         (match trends with
          | [] => get_fallback_topics
          | _ => ret trends
          end) ;;
       selected_topic <- random_choice trends ;;
       content <- generate_content selected_topic (py "twitter") true ;;
       ret (Some content))
      (ret None).

(** [SocialMediaManager.switch_mode] *)
Definition manager_switch_mode : M unit :=
  running <- get manager_running ;;
  if running : bool then ret tt
  else
    current_mode <- get manager_mode ;;
    let new_mode :=
      if PyStr.eqb current_mode (py "testing")
      then py "production" else py "testing" in
    modify (set_manager_mode new_mode).

(* ================================================================== *)
(** * Sample outside worlds, for evaluating the model *)
(* ================================================================== *)

Definition ascii_digit (c : char) : bool := ((48 <=? c) && (c <=? 57))%N.

(** A time of day written [HH:MM]. *)
Definition hhmm (s : str) : bool :=
  match s with
  | [h1; h2; colon; m1; m2] =>
      ascii_digit h1 && ascii_digit h2 && N.eqb colon 58 &&
      ascii_digit m1 && ascii_digit m2
      && ((h1 - 48) * 10 + (h2 - 48) <? 24)%N && (m1 - 48 <? 6)%N
  | _ => false
  end.

(** An outside world that answers every consultation the same way. *)
Definition sample_env (draw : nat)
  (place_trends tweets scraped : outcome (list str))
  (gemini : outcome str) (huggingface : outcome (option str))
  (image_status : outcome nat) (upload posted : outcome N)
  (written : WriteOutcome) : Env :=
  {| random_draw := fun _ => draw;
     hash_order := fun _ => 0;
     now_isoformat := fun _ => py "2025-01-01T09:00:00";
     getenv_GOOGLE_API_KEY := true;
     getenv_HUGGINGFACE_API_KEY := true;
     get_place_trends := fun _ => place_trends;
     search_recent_tweets := fun _ => tweets;
     select_trend_items := fun _ => scraped;
     news_lookup := fun _ _ => [];
     gemini_generate_content := fun _ _ => gemini;
     huggingface_post := fun _ _ => huggingface;
     oauth1_api := fun _ => Returned tt;
     requests_get_image := fun _ _ => image_status;
     write_temp_image := fun _ => Returned tt;
     media_upload := fun _ => upload;
     remove_temp_image := fun _ => Returned tt;
     create_tweet := fun _ _ _ => posted;
     write_history_file := fun _ => written;
     schedule_accepts := fun _ time_slot => hhmm time_slot;
     should_run := fun _ _ => false |}.

(** Nothing outside answers: every network call raises. *)
Definition offline_env : Env :=
  sample_env 0 Raised Raised Raised Raised Raised Raised Raised Raised
             OpenRaised.

(** Everything outside works. *)
Definition online_env : Env :=
  sample_env 0 (Returned [py "#Python"]) (Returned []) (Returned [])
             (Returned (py "Hello")) (Returned (Some (py "Hello")))
             (Returned 200) (Returned 7%N) (Returned 1%N) Written.

Definition sample_content : GeneratedContent :=
  {| text := py "Hello";
     image_url := Some (py "https://images.unsplash.com/photo-1518770660439-4636190af475");
     post_type := py "tip";
     article_url := None |}.

(** The upload of the image raises, everything else works. *)
Definition upload_down_env : Env :=
  sample_env 0 Raised Raised Raised Raised Raised
             (Returned 200) Raised (Returned 1%N) Written.

(** Tweets go out but the history file cannot be opened. *)
Definition readonly_disk_env : Env :=
  sample_env 0 Raised Raised Raised Raised Raised
             (Returned 200) (Returned 7%N) (Returned 1%N) OpenRaised.

(* ================================================================== *)
(** * Vocabulary of the statements *)
(* ================================================================== *)

(** The publisher left the history alone: nothing was appended, the file
    is as it was and no dump was attempted. *)
Definition history_untouched (w w' : World) : Prop :=
  posted_content w' = posted_content w /\
  posted_content_json w' = posted_content_json w /\
  exists events,
    trace w' = trace w ++ events /\
    forall h, ~ In (DumpHistory h) events.

(** The record that [post_content] appends. *)
Definition record_of (platform : str) (content : GeneratedContent)
  (timestamp : str) : PostRecord :=
  {| rec_platform := platform;
     rec_content := text content;
     rec_image_url := image_url content;
     rec_post_type := post_type content;
     rec_article_url := article_url content;
     rec_timestamp := timestamp |}.

(** The file after an attempt to save [history] over [before]. *)
Definition file_after (result : WriteOutcome) (before : FileState)
  (history : list PostRecord) : FileState :=
  match result with
  | Written => Holds history
  | OpenRaised => before
  | DumpRaised => Corrupt
  end.

(** The image step of [post_to_twitter], begun at tick [t], yields no
    media handle: one of its stages raises or the download is refused. *)
Inductive image_step_fails (e : Env) (t : nat) (image : str) : Prop :=
  | setup_raises :
      oauth1_api e t = Raised ->
      image_step_fails e t image
  | download_raises :
      oauth1_api e t = Returned tt ->
      requests_get_image e (S t) image = Raised ->
      image_step_fails e t image
  | download_refused status :
      oauth1_api e t = Returned tt ->
      requests_get_image e (S t) image = Returned status ->
      status <> 200 ->
      image_step_fails e t image
  | temp_file_raises :
      oauth1_api e t = Returned tt ->
      requests_get_image e (S t) image = Returned 200 ->
      write_temp_image e (S (S t)) = Raised ->
      image_step_fails e t image
  | upload_raises :
      oauth1_api e t = Returned tt ->
      requests_get_image e (S t) image = Returned 200 ->
      write_temp_image e (S (S t)) = Returned tt ->
      media_upload e (S (S (S t))) = Raised ->
      image_step_fails e t image.

(** Whether a call answered. *)
Definition succeeded {A} (o : outcome A) : bool :=
  match o with
  | Returned _ => true
  | Raised => false
  end.

(** The jobs that [run_production_mode] registers for one weekday slot,
    for one weekend slot, and for the analytics check. *)
Definition weekday_jobs (time_slot : str) : list Job :=
  map (fun u => {| job_unit := u; at_time := time_slot;
                   job_func := RunDailyPost |})
      [Monday; Tuesday; Wednesday; Thursday; Friday].

Definition weekend_jobs (time_slot : str) : list Job :=
  map (fun u => {| job_unit := u; at_time := time_slot;
                   job_func := RunDailyPost |})
      [Saturday; Sunday].

Definition analytics_job : Job :=
  {| job_unit := Day; at_time := py "23:00";
     job_func := AnalyzePostPerformance |}.

(** A session at the menu of main.py: production mode is started, the
    scheduler thread registers its jobs and polls once, production mode is
    stopped and the thread takes its next turn. The result is the number
    of jobs left in [schedule.jobs] and whether the thread is still going. *)
Definition manager_start_stop : M (nat * bool) :=
  Manager.start_production_mode ;;;
  Manager.run_scheduler 1 ;;;
  Manager.stop_production_mode ;;;
  going <- poll manager_running ;;
  n <- get scheduled_jobs ;;
  ret (n, going).

(** The same session followed by a second start. *)
Definition manager_restart : M (nat * bool) :=
  manager_start_stop ;;;
  Manager.start_production_mode ;;;
  going <- Manager.run_scheduler 1 ;;
  n <- get scheduled_jobs ;;
  ret (n, going).

(** The same session on the agent of app.py. *)
Definition agent_start_stop : M (nat * bool) :=
  run_production_mode ;;;
  run_scheduler 1 ;;;
  stop_production_mode ;;;
  going <- poll is_running ;;
  n <- get scheduled_jobs ;;
  ret (n, going).

(** Where [get_relevant_image_url] takes its URL from, in the order of its
    three stages. *)
Definition image_source (topic : str) : list str :=
  match find (exact_match (lower topic)) image_database with
  | Some (_, urls) => urls
  | None =>
      match find (partial_match (lower topic)) image_database with
      | Some (_, urls) => urls
      | None => dict_get_or image_database (py "default") []
      end
  end.

(** The text of strategy B before the limit check, for the reply [raw] of
    the backend once the prompt has been removed and the ends stripped. *)
Definition processed (topic post_type raw content : str) : Prop :=
  let tagged := add_hashtags topic raw in
  if negb (isin (py "?") tagged) && negb (PyStr.eqb post_type (py "question"))
  then exists q, In q engagement_questions /\ content = tagged ++ py " " ++ q
  else content = tagged.

(** What the limit check guarantees about the text it yields. *)
Definition within_limit (limit : nat) (content result : str) : Prop :=
  result = enforce_limit limit content /\
  len result <= limit /\
  (limit < len content ->
   result = upto (limit - 3) content ++ py "..." /\ len result = limit).

(** Where the text of a generated post comes from, before the limit check:
    a template of the static strategy, the stripped reply of strategy A, or
    the post-processed reply of strategy B. *)
Inductive pre_truncation (e : Env) (topic : str) : str -> Prop :=
  | from_template type_templates content :
      In type_templates (map snd (templates topic)) ->
      In content type_templates ->
      pre_truncation e topic content
  | from_gemini t prompt reply :
      gemini_generate_content e t prompt = Returned reply ->
      pre_truncation e topic (strip reply)
  | from_huggingface t prompt reply post_type content :
      huggingface_post e t prompt = Returned reply ->
      processed topic post_type
        (strip (replace prompt []
                  match reply with Some g => g | None => [] end))
        content ->
      pre_truncation e topic content.

(** A generated post whose text is the limit check applied to a text of
    one of the three origins. *)
Definition generated_from (e : Env) (topic platform : str)
  (gc : GeneratedContent) : Prop :=
  exists content,
    pre_truncation e topic content /\
    within_limit (max_length platform) content (text gc).

(** The origins of a text of [generate_content_huggingface]: a template
    when the attempt raised, the post-processed reply otherwise. *)
Definition huggingface_origin (e : Env) (topic post_type content : str)
  : Prop :=
  (exists type_templates,
      In type_templates (map snd (templates topic)) /\
      In content type_templates) \/
  (exists t prompt reply,
      huggingface_post e t prompt = Returned reply /\
      processed topic post_type
        (strip (replace prompt []
                  match reply with Some g => g | None => [] end))
        content).

(** The text was cut by the limit check. *)
Definition cut_to (limit : nat) (result : str) : Prop :=
  (exists body, result = body ++ py "...") /\ len result = limit.

(** The generators, one by one and chained. *)
Inductive Strategy := StrategyA | StrategyB | StaticTemplate | Chain.

Definition generate (s : Strategy) (topic platform : str)
  (include_image : bool) (post_type : option str) : M GeneratedContent :=
  match s with
  | StrategyA => generate_content_gemini topic platform include_image post_type
  | StrategyB =>
      generate_content_huggingface topic platform include_image post_type
  | StaticTemplate =>
      generate_content_fallback topic platform include_image post_type
  | Chain => generate_content topic platform include_image
  end.

(** The URL list of a category of the image table. *)
Definition urls_of (category : str) : list str :=
  dict_get_or image_database category [].

(** A category matches the topic exactly when its name, in lower case,
    occurs in the topic in lower case. *)
Definition exact_category (topic category : str) : Prop :=
  In category (map fst image_database) /\
  isin (lower category) (lower topic) = true.

(** A category other than the default one matches the topic partially
    when a word of the topic occurs in its name or its name occurs in a
    word of the topic. *)
Definition partial_category (topic category : str) : Prop :=
  In category (map fst image_database) /\
  category <> py "default" /\
  exists word,
    In word (findall_w (lower topic)) /\
    (isin word category = true \/ isin category word = true).

(** A scheme as URLs write it: a letter, then letters, digits, [+], [-]
    or [.], then [://]. *)
Definition scheme_letter (c : char) : bool :=
  ((65 <=? c) && (c <=? 90) || (97 <=? c) && (c <=? 122))%N.

Fixpoint scheme_tail (s : str) : bool :=
  match s with
  | [] => false
  | c :: r =>
      if scheme_letter c || ascii_digit c ||
         N.eqb c 43 || N.eqb c 45 || N.eqb c 46
      then scheme_tail r
      else N.eqb c 58 && startswith r (py "//")
  end.

Definition starts_with_url_scheme (s : str) : bool :=
  match s with
  | [] => false
  | c :: r => scheme_letter c && scheme_tail r
  end.

(** None of the three outside sources of trends has anything: each of
    them raises or comes back empty, whenever it is asked. *)
Definition nothing_found (e : Env) : Prop :=
  (forall t, get_place_trends e t = Raised \/
             get_place_trends e t = Returned []) /\
  (forall t, search_recent_tweets e t = Raised \/
             search_recent_tweets e t = Returned []) /\
  (forall t, select_trend_items e t = Raised \/
             select_trend_items e t = Returned []).

(** The only trend found is a link. *)
Definition link_trend_env : Env :=
  sample_env 0 (Returned [py "https://t.co/abc"]) Raised Raised Raised Raised
             Raised Raised Raised Written.

(** The only trend found is a file-transfer address. *)
Definition ftp_trend_env : Env :=
  sample_env 0 (Returned [py "ftp://files.example.com/trends"]) Raised Raised
             Raised Raised Raised Raised Raised Written.

(** The backend of strategy B answers with the given text. *)
Definition huggingface_env (reply : str) : Env :=
  sample_env 0 Raised Raised Raised Raised (Returned (Some reply))
             Raised Raised Raised Written.

(** What the agent holds apart from the count of consultations, the
    cached trends and the time of the last run. *)
Definition kept_part (w : World) :=
  (mode w, is_running w, twitter_api w, gemini_model w, platforms w,
   posted_content w, weekday_times w, weekend_times w, jobs w,
   posted_content_json w, manager_agent w, manager_mode w,
   manager_running w, trace w).

(** Nothing was posted, saved, scheduled or reconfigured, and nothing was
    done to the outside world. *)
Definition agent_kept (w w' : World) : Prop := kept_part w' = kept_part w.

(** A computation that keeps the agent, however it ends. *)
Definition keeps {A} (e : Env) (m : M A) : Prop :=
  forall w, match m e w with (_, w') => agent_kept w w' end.

(** Neither of the two model-backed strategies can be tried. *)
Definition no_model_available (e : Env) (w : World) : Prop :=
  (gemini_model w = false \/ getenv_GOOGLE_API_KEY e = false) /\
  getenv_HUGGINGFACE_API_KEY e = false.

(** No key is configured and the network is down. *)
Definition keyless_env : Env :=
  {| random_draw := fun n => n;
     hash_order := fun _ => 0;
     now_isoformat := fun _ => py "2025-01-01T09:00:00";
     getenv_GOOGLE_API_KEY := false;
     getenv_HUGGINGFACE_API_KEY := false;
     get_place_trends := fun _ => Raised;
     search_recent_tweets := fun _ => Raised;
     select_trend_items := fun _ => Raised;
     news_lookup := fun _ _ => [];
     gemini_generate_content := fun _ _ => Raised;
     huggingface_post := fun _ _ => Raised;
     oauth1_api := fun _ => Raised;
     requests_get_image := fun _ _ => Raised;
     write_temp_image := fun _ => Raised;
     media_upload := fun _ => Raised;
     remove_temp_image := fun _ => Raised;
     create_tweet := fun _ _ _ => Raised;
     write_history_file := fun _ => OpenRaised;
     schedule_accepts := fun _ time_slot => hhmm time_slot;
     should_run := fun _ _ => false |}.

(** Everything works except the removal of the temporary image file. *)
Definition cleanup_fails_env : Env :=
  {| random_draw := fun _ => 0;
     hash_order := fun _ => 0;
     now_isoformat := fun _ => py "2025-01-01T09:00:00";
     getenv_GOOGLE_API_KEY := true;
     getenv_HUGGINGFACE_API_KEY := true;
     get_place_trends := fun _ => Returned [py "#Python"];
     search_recent_tweets := fun _ => Returned [];
     select_trend_items := fun _ => Returned [];
     news_lookup := fun _ _ => [];
     gemini_generate_content := fun _ _ => Returned (py "Hello");
     huggingface_post := fun _ _ => Returned (Some (py "Hello"));
     oauth1_api := fun _ => Returned tt;
     requests_get_image := fun _ _ => Returned 200;
     write_temp_image := fun _ => Returned tt;
     media_upload := fun _ => Returned 7%N;
     remove_temp_image := fun _ => Raised;
     create_tweet := fun _ _ _ => Returned 1%N;
     write_history_file := fun _ => Written;
     schedule_accepts := fun _ time_slot => hhmm time_slot;
     should_run := fun _ _ => false |}.

(** A world whose first weekday slot is not a time of day. *)
Definition misconfigured_world : World :=
  set_weekday_times [py "9am"; py "14:00"]
    (init_world (py "production") true true).

(** The post type of a generated post: the one that was asked for, or one
    of the seven when none was. *)
Definition post_type_ok (pt : option str) (gc : GeneratedContent) : Prop :=
  match pt with
  | Some (c :: r) => post_type gc = c :: r
  | _ => In (post_type gc) post_types
  end.

(** The image of a generated post: one of the list that the topic
    selects when an image was asked for, none otherwise. *)
Definition image_ok (topic : str) (include_image : bool)
  (gc : GeneratedContent) : Prop :=
  if include_image
  then exists u, image_url gc = Some u /\ In u (image_source topic)
  else image_url gc = None.

Definition well_formed (topic : str) (include_image : bool)
  (pt : option str) (gc : GeneratedContent) : Prop :=
  post_type_ok pt gc /\
  image_ok topic include_image gc /\
  (article_url gc <> None -> post_type gc = py "news").

(** The same outside world with another Hugging Face key and backend. *)
Definition with_huggingface (e : Env) (key : bool)
  (backend : nat -> str -> outcome (option str)) : Env :=
  {| random_draw := random_draw e;
     hash_order := hash_order e;
     now_isoformat := now_isoformat e;
     getenv_GOOGLE_API_KEY := getenv_GOOGLE_API_KEY e;
     getenv_HUGGINGFACE_API_KEY := key;
     get_place_trends := get_place_trends e;
     search_recent_tweets := search_recent_tweets e;
     select_trend_items := select_trend_items e;
     news_lookup := news_lookup e;
     gemini_generate_content := gemini_generate_content e;
     huggingface_post := backend;
     oauth1_api := oauth1_api e;
     requests_get_image := requests_get_image e;
     write_temp_image := write_temp_image e;
     media_upload := media_upload e;
     remove_temp_image := remove_temp_image e;
     create_tweet := create_tweet e;
     write_history_file := write_history_file e;
     schedule_accepts := schedule_accepts e;
     should_run := should_run e |}.

(** A computation that runs the same in two outside worlds. *)
Definition same_run {A} (e e' : Env) (m : M A) : Prop :=
  forall w, m e' w = m e w.

(** A record of a tweet within the limit of the platform. *)
Definition tweet_record (r : PostRecord) : Prop :=
  rec_platform r = py "twitter" /\ len (rec_content r) <= 250.

(** The manager runs in production mode whenever it says it is running. *)
Definition manager_consistent (w : World) : Prop :=
  manager_running w = true -> manager_mode w = py "production".

(** The test of [get_stats_for_topic] on one category of its table. *)
Definition stats_match (topic category : str) : bool :=
  isin category (lower topic) ||
  existsb (fun word => isin word category) (split (lower topic)).

(** No job of the schedule is ever due. *)
Definition nothing_due (e : Env) : Prop :=
  forall t j, should_run e t j = false.

(** The world after [turns] idle turns of a scheduler loop. *)
Definition after_idle_turns (turns : nat) (w : World) : World :=
  set_trace (trace w ++ repeat (Sleep 60) turns)
    (set_tick (tick w + turns * List.length (jobs w)) w).

(** A discovery strategy that, run in the world [w], ends in an exception
    or in the empty list. *)
Definition finds_nothing (e : Env) (method : M (list str)) (w : World)
  : Prop :=
  fst (method e w) = Raised \/ fst (method e w) = Returned [].

(** Each of the three outside strategies, run one after the other as
    [fetch_trends] runs them from the world [w], ends in an exception or
    in the empty list. *)
Definition strategies_find_nothing (e : Env) (w : World) : Prop :=
  let w1 := snd (get_twitter_trends e w) in
  let w2 := snd (get_twitter_trends_v2 e w1) in
  finds_nothing e get_twitter_trends w /\
  finds_nothing e get_twitter_trends_v2 w1 /\
  finds_nothing e get_twitter_trends_scraping w2.

(** The trends endpoint raises, the one tweet found holds neither a
    hashtag nor a phrase, and the page scraped lists nothing. *)
Definition quiet_tweets_env : Env :=
  sample_env 0 Raised (Returned [py "hello"]) (Returned []) Raised Raised
             Raised Raised Raised Written.

(** The only trend found is a link written in capital letters. *)
Definition capital_link_env : Env :=
  sample_env 0 (Returned [py "HTTP://EXAMPLE.COM/TRENDS"]) Raised Raised
             Raised Raised Raised Raised Raised Written.

(** A news post with its article link and no image. *)
Definition news_content : GeneratedContent :=
  {| text := py "Hello";
     image_url := None;
     post_type := py "news";
     article_url := Some (py "https://example.com/a") |}.

(** The topics that [get_twitter_trends_v2] collects from the tweets, in
    the order it collects them. *)
Definition tweet_topics (tweets : list str) : list str :=
  flat_map tweet_hashtags tweets ++ flat_map tweet_phrases tweets.

(** The world in which the scheduler thread of the agent starts: the one
    that [run_production_mode] leaves, with the default time slots. *)
Definition production_world : World :=
  snd (run_production_mode offline_env
         (init_world (py "production") true true)).

(* ================================================================== *)
(** * Reasoning about effectful code *)
(* ================================================================== *)

Unset Implicit Arguments.

(** [post e m w Q X]: run from [w], [m] either returns a value and a world
    that satisfy [Q] or raises in a world that satisfies [X]. *)
Definition post {A} (e : Env) (m : M A) (w : World)
  (Q : A -> World -> Prop) (X : World -> Prop) : Prop :=
  match m e w with
  | (Returned a, w') => Q a w'
  | (Raised, w') => X w'
  end.

Definition never (_ : World) : Prop := False.

Section PostRules.
Variable e : Env.
Context {A B : Type}.

Lemma post_ret (a : A) w (Q : A -> World -> Prop) X :
  Q a w -> post e (ret a) w Q X.
Proof. exact (fun H => H). Qed.

Lemma post_raise w (Q : A -> World -> Prop) (X : World -> Prop) :
  X w -> post e (@raise A) w Q X.
Proof. exact (fun H => H). Qed.

Lemma post_bind (m : M A) (k : A -> M B) w (Q : B -> World -> Prop) X :
  post e m w (fun a w1 => post e (k a) w1 Q X) X ->
  post e (bind m k) w Q X.
Proof.
  unfold post, bind. destruct (m e w) as [[a|] w1]; auto.
Qed.

Lemma post_try (m h : M A) w (Q : A -> World -> Prop) X :
  post e m w Q (fun w1 => post e h w1 Q X) ->
  post e (try_except m h) w Q X.
Proof.
  unfold post, try_except. destruct (m e w) as [[a|] w1]; auto.
Qed.

Lemma post_get (f : World -> A) w (Q : A -> World -> Prop) X :
  Q (f w) w -> post e (get f) w Q X.
Proof. exact (fun H => H). Qed.

Lemma post_ask (f : Env -> nat -> A) w (Q : A -> World -> Prop) X :
  Q (f e (tick w)) (set_tick (S (tick w)) w) -> post e (ask f) w Q X.
Proof. exact (fun H => H). Qed.

Lemma post_call (f : Env -> nat -> outcome A) w
  (Q : A -> World -> Prop) (X : World -> Prop) :
  (forall a, f e (tick w) = Returned a -> Q a (set_tick (S (tick w)) w)) ->
  (f e (tick w) = Raised -> X (set_tick (S (tick w)) w)) ->
  post e (call f) w Q X.
Proof.
  unfold post, call. destruct (f e (tick w)); auto.
Qed.

Lemma post_conseq (m : M A) w (Q Q' : A -> World -> Prop)
  (X X' : World -> Prop) :
  post e m w Q X ->
  (forall a w', Q a w' -> Q' a w') ->
  (forall w', X w' -> X' w') ->
  post e m w Q' X'.
Proof.
  unfold post. destruct (m e w) as [[a|] w1]; auto.
Qed.

Lemma post_returns (m : M A) w (Q : A -> World -> Prop) :
  post e m w Q never ->
  exists a w', m e w = (Returned a, w') /\ Q a w'.
Proof.
  unfold post, never. destruct (m e w) as [[a|] w1]; [eauto | tauto].
Qed.

Lemma returns_post (m : M A) w (Q : A -> World -> Prop) X a w' :
  m e w = (Returned a, w') -> Q a w' -> post e m w Q X.
Proof. unfold post. now intros ->. Qed.
End PostRules.

Lemma post_modify e (f : World -> World) w (Q : unit -> World -> Prop) X :
  Q tt (f w) -> post e (modify f) w Q X.
Proof. exact (fun H => H). Qed.

Lemma post_emit e ev w (Q : unit -> World -> Prop) X :
  Q tt (set_trace (trace w ++ [ev]) w) -> post e (emit ev) w Q X.
Proof. exact (fun H => H). Qed.

Lemma post_getenv e f w (Q : bool -> World -> Prop) X :
  Q (f e) w -> post e (getenv f) w Q X.
Proof. exact (fun H => H). Qed.

(** One step of symbolic execution of a goal [post e m w Q X]. *)
Ltac post_step :=
  lazymatch goal with
  | |- post _ (bind _ _) _ _ _ => apply post_bind
  | |- post _ (ret _) _ _ _ => apply post_ret
  | |- post _ raise _ _ _ => apply post_raise
  | |- post _ (try_except _ _) _ _ _ => apply post_try
  | |- post _ (get _) _ _ _ => apply post_get
  | |- post _ (getenv _) _ _ _ => apply post_getenv
  | |- post _ (ask _) _ _ _ => apply post_ask
  | |- post _ (modify _) _ _ _ => apply post_modify
  | |- post _ (emit _) _ _ _ => apply post_emit
  | |- post _ (call _) _ _ _ => apply post_call; [intros ? ? | intros ?]
  end.

(* ------------------------------------------------------------------ *)
(** ** Strings *)

Lemma eqb_refl (a : str) : PyStr.eqb a a = true.
Proof.
  induction a as [|x a IH]; simpl; [reflexivity|].
  now rewrite N.eqb_refl, IH.
Qed.

Lemma eqb_eq (a b : str) : PyStr.eqb a b = true <-> a = b.
Proof.
  split.
  - revert b. induction a as [|x a IH]; intros [|y b]; simpl; try easy.
    intros H. apply andb_true_iff in H as [Hx Hab].
    apply N.eqb_eq in Hx. subst. f_equal. now apply IH.
  - intros ->. apply eqb_refl.
Qed.

Lemma eqb_neq (a b : str) : PyStr.eqb a b = false <-> a <> b.
Proof.
  rewrite <- eqb_eq. destruct (PyStr.eqb a b); split; congruence.
Qed.

Lemma startswith_app s p b :
  startswith s p = true -> startswith (s ++ b) p = true.
Proof.
  revert s. induction p as [|x p IH]; intros s H.
  - now destruct s, b.
  - destruct s as [|y s]; [discriminate |]. simpl in *.
    apply andb_true_iff in H as [-> H]. simpl. now apply IH.
Qed.

Lemma startswith_split s p :
  startswith s p = true -> exists b, s = p ++ b.
Proof.
  revert s. induction p as [|x p IH]; intros s H.
  - now exists s.
  - destruct s as [|y s]; [discriminate |]. simpl in H.
    apply andb_true_iff in H as [Hx H]. apply N.eqb_eq in Hx. subst y.
    destruct (IH s H) as [b ->]. now exists b.
Qed.

Lemma isin_app_l sub a b : isin sub a = true -> isin sub (a ++ b) = true.
Proof.
  induction a as [|c a IH]; simpl; intros H.
  - rewrite orb_false_r in H. destruct sub; [| discriminate].
    destruct b; reflexivity.
  - apply orb_true_iff in H as [H | H]; apply orb_true_iff.
    + left. exact (startswith_app (c :: a) sub b H).
    + right. now apply IH.
Qed.

Lemma isin_app_r sub a b : isin sub b = true -> isin sub (a ++ b) = true.
Proof.
  intros H. induction a as [|c a IH]; simpl; [exact H |].
  rewrite IH. apply orb_true_r.
Qed.

Lemma isin_split sub s :
  isin sub s = true -> exists a b, s = a ++ sub ++ b.
Proof.
  induction s as [|c s IH]; intros H.
  - simpl in H. rewrite orb_false_r in H. destruct sub; [| discriminate].
    now exists [], [].
  - change (startswith (c :: s) sub || isin sub s = true) in H.
    apply orb_true_iff in H as [H | H].
    + apply startswith_split in H as [b ->]. now exists [], b.
    + destruct (IH H) as (a & b & ->). now exists (c :: a), b.
Qed.

Lemma split_from_space cur a ws rest :
  isspace ws = true ->
  split_from cur (a ++ ws :: rest) = split_from cur a ++ split_from [] rest.
Proof.
  intros Hws. revert cur. induction a as [|c a IH]; intros cur; simpl.
  - rewrite Hws. now destruct cur.
  - destruct (isspace c).
    + destruct cur; simpl; now rewrite IH.
    + apply IH.
Qed.

Lemma split_from_head cur s :
  cur <> [] -> exists tok more, split_from cur s = (cur ++ tok) :: more.
Proof.
  revert cur. induction s as [|c s IH]; intros cur Hcur; simpl.
  - destruct cur; [congruence |]. exists [], []. now rewrite app_nil_r.
  - destruct (isspace c).
    + destruct cur; [congruence |]. exists [], (split_from [] s).
      now rewrite app_nil_r.
    + destruct (IH (cur ++ [c])) as (tok & more & ->).
      { now destruct cur. }
      exists (c :: tok), more. now rewrite <- app_assoc.
Qed.

(** A [#] that follows white space opens a hashtag token. *)
Lemma has_hashtag_intro a ws rest :
  isspace ws = true -> has_hashtag (a ++ ws :: 35%N :: rest) = true.
Proof.
  intros Hws. unfold has_hashtag, split.
  rewrite split_from_space by exact Hws.
  rewrite existsb_app. apply orb_true_iff. right.
  change (split_from [] (35%N :: rest)) with (split_from [35%N] rest).
  destruct (split_from_head [35%N] rest) as (tok & more & ->);
    [discriminate | cbn; now destruct tok].
Qed.

(** Text added after white space keeps the hashtag tokens. *)
Lemma has_hashtag_app a ws rest :
  isspace ws = true -> has_hashtag a = true ->
  has_hashtag (a ++ ws :: rest) = true.
Proof.
  intros Hws Ha. unfold has_hashtag, split in *.
  rewrite split_from_space by exact Hws.
  rewrite existsb_app, Ha. reflexivity.
Qed.

Lemma has_hashtag_isin s : isin (py " #") s = true -> has_hashtag s = true.
Proof.
  intros H. apply isin_split in H as (a & b & ->).
  now apply has_hashtag_intro.
Qed.

(* ================================================================== *)
(** * The publisher *)
(* ================================================================== *)

Lemma history_untouched_refl w : history_untouched w w.
Proof.
  repeat split. exists []. rewrite app_nil_r. split; [reflexivity | easy].
Qed.

Ltac solve_untouched :=
  unfold history_untouched; simpl; repeat split;
  first
    [ exists []; rewrite app_nil_r; split; [reflexivity | easy]
    | eexists; split; [repeat rewrite <- app_assoc; reflexivity |];
      simpl; intros h Hin;
      repeat (destruct Hin as [Hin | Hin]; [discriminate Hin |]);
      exact Hin ].

(** Symbolic execution through conditionals on values already known. *)
Ltac post_run :=
  repeat first
    [ post_step
    | match goal with
      | |- post _ (if ?b then _ else _) _ _ _ => destruct b eqn:?
      | |- post _ (match ?x with _ => _ end) _ _ _ => destruct x eqn:?
      end ].

Lemma upload_image_untouched e image w (Q : option N -> World -> Prop) X :
  (forall m w', history_untouched w w' -> Q m w') ->
  post e (upload_image image) w Q X.
Proof.
  intros HQ. unfold upload_image. post_run; apply HQ; solve_untouched.
Qed.

Lemma history_untouched_trans w1 w2 w3 :
  history_untouched w1 w2 -> history_untouched w2 w3 ->
  history_untouched w1 w3.
Proof.
  intros (Ha & Hb & ev1 & Hc & Hd) (Ha' & Hb' & ev2 & Hc' & Hd').
  repeat split; try congruence.
  exists (ev1 ++ ev2). split.
  - rewrite Hc', Hc. now rewrite app_assoc.
  - intros h Hin. apply in_app_or in Hin as [Hin | Hin]; firstorder.
Qed.

(** [post_to_twitter] always returns, and leaves the history alone. *)
Lemma post_to_twitter_untouched e content w (Q : bool -> World -> Prop) :
  (forall b w', history_untouched w w' -> Q b w') ->
  post e (post_to_twitter content) w Q never.
Proof.
  intros HQ. unfold post_to_twitter.
  post_run; try (apply HQ; solve_untouched).
  - apply upload_image_untouched. intros m w1 H1.
    post_run; apply HQ;
      (eapply history_untouched_trans; [exact H1 | solve_untouched]).
Qed.

Lemma save_posted_content_post e w (Q : unit -> World -> Prop) :
  (forall w',
      posted_content w' = posted_content w ->
      tick w' = S (tick w) ->
      posted_content_json w' =
        file_after (write_history_file e (tick w)) (posted_content_json w)
                   (posted_content w) ->
      Q tt w') ->
  post e save_posted_content w Q never.
Proof.
  intros HQ. unfold save_posted_content.
  apply post_try. apply post_bind. apply post_ask. apply post_bind.
  apply post_get.
  destruct (write_history_file e (tick w)) eqn:Hwrite; simpl;
    post_run; apply HQ; simpl; rewrite ?Hwrite; reflexivity.
Qed.

(** C4, as the code has it: [post_content] always returns a boolean. When
    it returns [True], the record of the post has been appended to the
    history in memory and one attempt to save the history has been made:
    the file holds the whole history when the write succeeds, and a write
    that raises is caught, leaving the file stale (the open failed) or
    half-written (the dump failed) while [True] is still returned. When it
    returns [False], nothing was appended, the file is as it was and no
    dump was attempted. *)
Theorem post_content_outcome e w platform content :
  exists b w',
    post_content platform content e w = (Returned b, w') /\
    (b = true ->
     exists timestamp t,
       tick w' = S t /\
       posted_content w' =
         posted_content w ++ [record_of platform content timestamp] /\
       posted_content_json w' =
         file_after (write_history_file e t) (posted_content_json w)
                    (posted_content w')) /\
    (b = false -> history_untouched w w').
Proof.
  apply post_returns. unfold post_content.
  apply post_bind.
  assert (Hrest :
    forall b w1, history_untouched w w1 ->
      post e
        (if b : bool then
           timestamp <- ask now_isoformat ;;
           modify (fun w => set_posted_content
                              (posted_content w ++
                               [{| rec_platform := platform;
                                   rec_content := text content;
                                   rec_image_url := image_url content;
                                   rec_post_type := post_type content;
                                   rec_article_url := article_url content;
                                   rec_timestamp := timestamp |}]) w) ;;;
           save_posted_content ;;;
           ret b
         else ret b) w1
        (fun b w' =>
           (b = true ->
            exists timestamp t,
              tick w' = S t /\
              posted_content w' =
                posted_content w ++ [record_of platform content timestamp] /\
              posted_content_json w' =
                file_after (write_history_file e t) (posted_content_json w)
                           (posted_content w')) /\
           (b = false -> history_untouched w w')) never).
  { intros b w1 H1. destruct b.
    - destruct H1 as (Hh & Hf & _).
      apply post_bind, post_ask, post_bind, post_modify, post_bind.
      apply save_posted_content_post. intros w2 H2 Ht H3. apply post_ret.
      split; [intros _ | discriminate].
      exists (now_isoformat e (tick w1)), (S (tick w1)).
      simpl in *. split; [exact Ht |].
      rewrite H2, H3, Hh, Hf. split; reflexivity.
    - apply post_ret. split; [discriminate | intros _]. exact H1. }
  destruct (PyStr.eqb platform (py "twitter")).
  - apply post_to_twitter_untouched. intros b w1 H1. exact (Hrest b w1 H1).
  - apply post_ret. exact (Hrest false w (history_untouched_refl w)).
Qed.

(** C10: on any platform other than twitter, [post_content] returns
    [False] and changes nothing at all: the history in memory, the history
    file and the trace of outside effects are those it started from. *)
Theorem post_content_other_platform e w platform content :
  platform <> py "twitter" ->
  post_content platform content e w = (Returned false, w).
Proof.
  intros Hp. apply eqb_neq in Hp.
  unfold post_content, bind. now rewrite Hp.
Qed.

(** C5: when the content carries an image and the image step yields no
    media handle (a stage raises, or the download is refused),
    [post_to_twitter] still calls [create_tweet] once, with the text and
    without media, and its result is the success of that call: the failed
    image alone never makes it return [False]. *)
Theorem post_to_twitter_image_fallback e w content image :
  twitter_api w = true ->
  present (image_url content) = Some image ->
  image_step_fails e (tick w) image ->
  exists w' t,
    post_to_twitter content e w =
      (Returned (succeeded (create_tweet e t (tweet_text content) None)), w') /\
    tick w' = S t /\
    trace w' = trace w ++ [CreateTweet (tweet_text content) None].
Proof.
  intros Hapi Himage Hfails.
  assert (Hup : exists w1,
             upload_image image e w = (Returned None, w1) /\
             trace w1 = trace w).
  { unfold upload_image, try_except, bind, call, emit, modify, ret.
    destruct Hfails as [H1 | H1 H2 | status H1 H2 H3 | H1 H2 H3 | H1 H2 H3 H4];
      rewrite H1; simpl; try rewrite H2; simpl;
      try (apply Nat.eqb_neq in H3; rewrite H3); simpl;
      try rewrite H3; simpl; try rewrite H4; simpl;
      eexists; split; reflexivity. }
  destruct Hup as (w1 & Hup & Htrace).
  cut (post e (post_to_twitter content) w
         (fun b w' =>
            exists t,
              b = succeeded (create_tweet e t (tweet_text content) None) /\
              tick w' = S t /\
              trace w' = trace w ++ [CreateTweet (tweet_text content) None])
         never).
  { intros H. apply post_returns in H as (b & w' & Heq & t & -> & Ht & Htr).
    now exists w', t. }
  unfold post_to_twitter.
  apply post_try, post_bind, post_get. rewrite Hapi. simpl.
  apply post_bind. rewrite Himage.
  eapply returns_post; [exact Hup |]. simpl.
  apply post_bind, post_emit, post_bind, post_call.
  - intros a Ha. apply post_ret. eexists. rewrite Ha. simpl.
    rewrite Htrace. repeat split.
  - intros Ha. unfold post, ret. eexists. rewrite Ha. simpl.
    rewrite Htrace. repeat split.
Qed.

Lemma post_to_twitter_image_fallback_witness :
  let w := init_world (py "testing") true false in
  let image := py "https://images.unsplash.com/photo-1518770660439-4636190af475" in
  twitter_api w = true /\
  present (image_url sample_content) = Some image /\
  image_step_fails upload_down_env (tick w) image /\
  exists w',
    post_to_twitter sample_content upload_down_env w = (Returned true, w') /\
    trace w' = [CreateTweet (py "Hello") None].
Proof.
  intros w image.
  assert (Hfails : image_step_fails upload_down_env (tick w) image)
    by (apply upload_raises; reflexivity).
  split; [reflexivity | split; [reflexivity | split; [exact Hfails |]]].
  destruct (@post_to_twitter_image_fallback upload_down_env w sample_content
              image eq_refl eq_refl Hfails) as (w' & t & Hrun & _ & Htrace).
  exists w'. split; [exact Hrun | exact Htrace].
Defined.

Lemma post_content_other_platform_witness :
  py "facebook" <> py "twitter" /\
  post_content (py "facebook") sample_content online_env
               (init_world (py "production") true true)
  = (Returned false, init_world (py "production") true true).
Proof.
  assert (H : py "facebook" <> py "twitter") by (vm_compute; discriminate).
  split; [exact H | apply (post_content_other_platform _ _ _ _ H)].
Defined.

(** C4 as stated fails: the tweet goes out and [post_content] returns
    [True], the record is in memory, but the history file could not be
    opened and holds nothing. *)
Lemma post_content_true_without_file :
  exists w',
    post_content (py "twitter") sample_content readonly_disk_env
                 (init_world (py "testing") true false)
    = (Returned true, w') /\
    List.length (posted_content w') = 1 /\
    posted_content_json w' = Absent /\
    posted_content_json w' <> Holds (posted_content w').
Proof.
  eexists. split; [vm_compute; reflexivity |].
  split; [reflexivity | split; [reflexivity | discriminate]].
Qed.

(* ================================================================== *)
(** * The scheduler *)
(* ================================================================== *)

Lemma register_accepted e u time_slot f w :
  schedule_accepts e u time_slot = true ->
  register u time_slot f e w =
    (Returned tt,
     set_jobs (jobs w ++ [{| job_unit := u; at_time := time_slot;
                             job_func := f |}]) w).
Proof. intros H. unfold register. now rewrite H. Qed.

Lemma register_weekdays e times : forall w,
  (forall u t, In t times -> schedule_accepts e u t = true) ->
  for_each times
    (fun time_slot =>
       register Monday time_slot RunDailyPost ;;;
       register Tuesday time_slot RunDailyPost ;;;
       register Wednesday time_slot RunDailyPost ;;;
       register Thursday time_slot RunDailyPost ;;;
       register Friday time_slot RunDailyPost) e w
  = (Returned tt, set_jobs (jobs w ++ flat_map weekday_jobs times) w).
Proof.
  induction times as [|t times IH]; intros w Hacc.
  - simpl. unfold ret. rewrite app_nil_r. now destruct w.
  - simpl. unfold bind at 1. unfold bind at 1, register at 1.
    rewrite (Hacc Monday t (or_introl eq_refl)).
    unfold bind at 1, register at 1. cbn [jobs set_jobs].
    rewrite (Hacc Tuesday t (or_introl eq_refl)).
    unfold bind at 1, register at 1. cbn [jobs set_jobs].
    rewrite (Hacc Wednesday t (or_introl eq_refl)).
    unfold bind at 1, register at 1. cbn [jobs set_jobs].
    rewrite (Hacc Thursday t (or_introl eq_refl)).
    unfold register at 1. cbn [jobs set_jobs].
    rewrite (Hacc Friday t (or_introl eq_refl)).
    rewrite IH by (intros; apply Hacc; now right).
    simpl. repeat rewrite <- app_assoc. reflexivity.
Qed.

Lemma register_weekends e times : forall w,
  (forall u t, In t times -> schedule_accepts e u t = true) ->
  for_each times
    (fun time_slot =>
       register Saturday time_slot RunDailyPost ;;;
       register Sunday time_slot RunDailyPost) e w
  = (Returned tt, set_jobs (jobs w ++ flat_map weekend_jobs times) w).
Proof.
  induction times as [|t times IH]; intros w Hacc.
  - simpl. unfold ret. rewrite app_nil_r. now destruct w.
  - simpl. unfold bind at 1. unfold bind at 1, register at 1.
    rewrite (Hacc Saturday t (or_introl eq_refl)).
    unfold register at 1. cbn [jobs set_jobs].
    rewrite (Hacc Sunday t (or_introl eq_refl)).
    rewrite IH by (intros; apply Hacc; now right).
    simpl. repeat rewrite <- app_assoc. reflexivity.
Qed.

Lemma length_flat_map_const {A B} (f : A -> list B) n (l : list A) :
  (forall x, List.length (f x) = n) ->
  List.length (flat_map f l) = n * List.length l.
Proof.
  intros Hf. induction l as [|x l IH]; simpl; [lia |].
  rewrite length_app, Hf, IH. lia.
Qed.

(** C8, as the code has it: in production mode, with time slots that the
    schedule library accepts, [run_production_mode] leaves exactly these
    jobs registered: for every weekday slot one pipeline job on each of
    Monday to Friday, for every weekend slot one on Saturday and one on
    Sunday, and the daily analytics job. That is five jobs per weekday
    slot, two per weekend slot, and one more. *)
Theorem run_production_mode_jobs e w :
  mode w = py "production" ->
  (forall u t,
      In t (py "23:00" :: weekday_times w ++ weekend_times w) ->
      schedule_accepts e u t = true) ->
  exists w',
    run_production_mode e w = (Returned true, w') /\
    is_running w' = true /\
    jobs w' =
      flat_map weekday_jobs (weekday_times w) ++
      flat_map weekend_jobs (weekend_times w) ++ [analytics_job] /\
    scheduled_jobs w' =
      5 * List.length (weekday_times w) +
      2 * List.length (weekend_times w) + 1.
Proof.
  intros Hmode Hacc.
  assert (Hjobs : forall l1 l2 : list str,
    List.length (flat_map weekday_jobs l1 ++ flat_map weekend_jobs l2 ++
                 [analytics_job]) =
    5 * List.length l1 + 2 * List.length l2 + 1).
  { intros. rewrite !length_app.
    rewrite (@length_flat_map_const _ _ weekday_jobs 5) by reflexivity.
    rewrite (@length_flat_map_const _ _ weekend_jobs 2) by reflexivity.
    simpl. lia. }
  cut (post e run_production_mode w
         (fun b w' =>
            b = true /\ is_running w' = true /\
            jobs w' =
              flat_map weekday_jobs (weekday_times w) ++
              flat_map weekend_jobs (weekend_times w) ++ [analytics_job])
         never).
  { intros H. apply post_returns in H as (b & w' & Hrun & -> & Hr & Hj).
    exists w'. repeat split; try assumption.
    unfold scheduled_jobs. rewrite Hj. apply Hjobs. }
  unfold run_production_mode.
  apply post_bind, post_get. rewrite Hmode, eqb_refl. simpl negb. cbv iota.
  apply post_bind, post_modify, post_bind.
  unfold schedule_clear. apply post_modify, post_bind, post_get, post_bind.
  eapply returns_post;
    [apply register_weekdays; intros; apply Hacc; right; apply in_or_app;
     now left |].
  apply post_bind, post_get, post_bind.
  eapply returns_post;
    [apply register_weekends; intros; apply Hacc; right; apply in_or_app;
     now right |].
  apply post_bind.
  eapply returns_post;
    [apply register_accepted; apply Hacc; now left |].
  apply post_bind, post_emit, post_ret. simpl.
  rewrite <- app_assoc. repeat split.
Qed.

Lemma run_production_mode_jobs_witness :
  let w := init_world (py "production") true true in
  mode w = py "production" /\
  (forall u t,
      In t (py "23:00" :: weekday_times w ++ weekend_times w) ->
      schedule_accepts online_env u t = true) /\
  exists w',
    run_production_mode online_env w = (Returned true, w') /\
    scheduled_jobs w' = 22.
Proof.
  intros w.
  assert (Hacc : forall u t,
             In t (py "23:00" :: weekday_times w ++ weekend_times w) ->
             schedule_accepts online_env u t = true).
  { intros u t Hin. simpl in Hin.
    repeat (destruct Hin as [<- | Hin]; [reflexivity |]).
    destruct Hin. }
  split; [reflexivity | split; [exact Hacc |]].
  destruct (@run_production_mode_jobs online_env w eq_refl Hacc)
    as (w' & Hrun & _ & _ & Hn).
  exists w'. split; [exact Hrun | exact Hn].
Defined.

(** C8 as stated fails: with the three weekday slots and the three
    weekend slots of [__init__], starting production mode registers 22
    jobs, which is neither the six slots nor the six slots and the
    analytics job. *)
Lemma run_production_mode_not_one_job_per_slot :
  let w := init_world (py "production") true true in
  exists w',
    run_production_mode online_env w = (Returned true, w') /\
    scheduled_jobs w' = 22 /\
    scheduled_jobs w' <>
      List.length (weekday_times w) + List.length (weekend_times w) /\
    scheduled_jobs w' <>
      List.length (weekday_times w) + List.length (weekend_times w) + 1.
Proof.
  eexists. split; [vm_compute; reflexivity |].
  split; [reflexivity | split; vm_compute; discriminate].
Qed.

(** [stop_production_mode] of the agent clears the flag and the schedule,
    and the scheduler thread leaves its loop at its next look at the flag
    without running a job. *)
Lemma stop_production_mode_clears e w :
  exists w',
    stop_production_mode e w = (Returned tt, w') /\
    is_running w' = false /\
    jobs w' = [] /\
    forall turns, run_scheduler (S turns) e w' = (Returned false, w').
Proof.
  eexists. split; [reflexivity |]. simpl. repeat split.
Qed.

(** [stop_production_mode] of the manager clears its flag and leaves
    [schedule.jobs] as it is. *)
Lemma manager_stop_production_mode_jobs e w :
  exists w',
    Manager.stop_production_mode e w = (Returned tt, w') /\
    manager_running w' = false /\
    jobs w' = jobs w.
Proof.
  unfold Manager.stop_production_mode, bind, get, modify.
  destruct (manager_running w) eqn:Hrun; simpl;
    eexists; (split; [reflexivity |]); simpl; auto.
Qed.

(** C9 on the code: after start and stop at the menu of main.py the flag
    is cleared and the thread leaves its loop, but the three jobs it had
    registered are still in [schedule.jobs], and a second start adds three
    more; the same session on the agent of app.py leaves none. *)
Theorem manager_stop_keeps_jobs :
  let w := init_world (py "production") true true in
  fst (manager_start_stop online_env w) = Returned (3, false) /\
  fst (manager_restart online_env w) = Returned (6, true) /\
  fst (agent_start_stop online_env w) = Returned (0, false).
Proof.
  repeat split; vm_compute; reflexivity.
Qed.

(* ================================================================== *)
(** * Content generation *)
(* ================================================================== *)

Lemma random_choice_post {A} e (l : list A) w (Q : A -> World -> Prop) X :
  l <> [] ->
  (forall x, In x l -> Q x (set_tick (S (tick w)) w)) ->
  post e (random_choice l) w Q X.
Proof.
  intros Hl HQ. unfold random_choice.
  destruct l as [|x0 l0]; [congruence |]. clear Hl.
  set (l := x0 :: l0) in *.
  unfold randbelow. apply post_bind, post_bind, post_ask, post_ret.
  assert (Hlt : random_draw e (tick w) mod List.length l < List.length l)
    by (apply Nat.mod_upper_bound; discriminate).
  destruct (nth_error l (random_draw e (tick w) mod List.length l)) eqn:Hnth.
  - apply post_ret. apply HQ. eapply nth_error_In; eassumption.
  - apply nth_error_None in Hnth. lia.
Qed.

Lemma image_database_lists :
  forall entry, In entry image_database -> snd entry <> [].
Proof.
  apply Forall_forall. unfold image_database.
  repeat (constructor; [discriminate |]). constructor.
Qed.

Lemma image_source_nonempty topic : image_source topic <> [].
Proof.
  unfold image_source.
  destruct (find (exact_match (lower topic)) image_database)
    as [[c urls]|] eqn:H1.
  - apply find_some in H1 as [Hin _].
    exact (image_database_lists _ Hin).
  - destruct (find (partial_match (lower topic)) image_database)
      as [[c urls]|] eqn:H2.
    + apply find_some in H2 as [Hin _].
      exact (image_database_lists _ Hin).
    + vm_compute. discriminate.
Qed.

(** [get_relevant_image_url] always returns, with a URL of the list that
    its three stages select. *)
Lemma get_relevant_image_url_post e topic w (Q : str -> World -> Prop) X :
  (forall u w', In u (image_source topic) -> Q u w') ->
  post e (get_relevant_image_url topic) w Q X.
Proof.
  intros HQ. pose proof (image_source_nonempty topic) as Hne.
  unfold get_relevant_image_url, image_source in *.
  destruct (find (exact_match (lower topic)) image_database)
    as [[c urls]|].
  - apply random_choice_post; auto.
  - destruct (find (partial_match (lower topic)) image_database)
      as [[c urls]|].
    + apply random_choice_post; auto.
    + change (dict_get image_database (py "default"))
        with (Some (dict_get_or image_database (py "default") [])).
      apply random_choice_post; auto.
Qed.

Lemma image_for_post e include_image topic w
  (Q : option str -> World -> Prop) X :
  (forall u w', Q u w') ->
  post e (image_for include_image topic) w Q X.
Proof.
  intros HQ. unfold image_for. destruct include_image.
  - apply post_bind, get_relevant_image_url_post. intros u w' _.
    now apply post_ret.
  - now apply post_ret.
Qed.

Lemma choose_post_type_post e post_type w (Q : str -> World -> Prop) X :
  (forall p w', Q p w') ->
  post e (choose_post_type post_type) w Q X.
Proof.
  intros HQ. unfold choose_post_type.
  destruct post_type as [[|c r]|]; try (now apply post_ret);
    apply random_choice_post; auto; discriminate.
Qed.

Lemma news_for_post e topic post_type w
  (Q : option (list Article) -> World -> Prop) X :
  (forall n w', Q n w') ->
  post e (news_for topic post_type) w Q X.
Proof.
  intros HQ. unfold news_for, fetch_news_for_topic.
  destruct (is_in _ _); post_run; apply HQ.
Qed.

Lemma stats_by_category_lists :
  forall entry, In entry stats_by_category -> snd entry <> [].
Proof.
  apply Forall_forall. unfold stats_by_category.
  repeat (constructor; [discriminate |]). constructor.
Qed.

Lemma stat_for_post e topic post_type w
  (Q : option str -> World -> Prop) X :
  (forall s w', Q s w') ->
  post e (stat_for topic post_type) w Q X.
Proof.
  intros HQ. unfold stat_for, get_stats_for_topic.
  destruct (PyStr.eqb _ _); [| now apply post_ret].
  match goal with |- context [find ?f ?l] => destruct (find f l) as [[c sl]|] eqn:Hf end.
  - apply find_some in Hf as [Hin _].
    apply post_bind, random_choice_post.
    + exact (stats_by_category_lists _ Hin).
    + intros. now apply post_ret.
  - now apply post_ret.
Qed.

(* ------------------------------------------------------------------ *)
(** ** The limit check *)

Lemma max_length_values platform :
  max_length platform = 250 \/ max_length platform = 400 \/
  max_length platform = 300.
Proof.
  cbv [max_length dict_get_or dict_get].
  repeat match goal with
         | |- context [PyStr.eqb ?a ?b] => destruct (PyStr.eqb a b)
         end; auto.
Qed.

Lemma platform_info_max_length platform :
  fst (platform_info platform) = max_length platform.
Proof.
  cbv [platform_info platform_specs max_length dict_get_or dict_get].
  repeat match goal with
         | |- context [PyStr.eqb ?a ?b] => destruct (PyStr.eqb a b)
         end; reflexivity.
Qed.

(** The limits of the claim: 250, 400 and 300 for the three platforms
    the code names, 300 for any other. *)
Lemma max_length_table platform :
  max_length (py "twitter") = 250 /\
  max_length (py "facebook") = 400 /\
  max_length (py "instagram") = 300 /\
  (platform <> py "twitter" -> platform <> py "facebook" ->
   platform <> py "instagram" -> max_length platform = 300).
Proof.
  repeat split; try reflexivity.
  intros H1 H2 H3.
  assert (E1 : PyStr.eqb (py "twitter") platform = false)
    by (apply eqb_neq; congruence).
  assert (E2 : PyStr.eqb (py "facebook") platform = false)
    by (apply eqb_neq; congruence).
  assert (E3 : PyStr.eqb (py "instagram") platform = false)
    by (apply eqb_neq; congruence).
  cbv [max_length dict_get_or dict_get]. now rewrite E1, E2, E3.
Qed.

Lemma enforce_limit_short limit content :
  len content <= limit -> enforce_limit limit content = content.
Proof.
  intros H. unfold enforce_limit.
  destruct (limit <? len content) eqn:E; [| reflexivity].
  apply Nat.ltb_lt in E. lia.
Qed.

Lemma enforce_limit_long limit content :
  3 <= limit -> limit < len content ->
  enforce_limit limit content = upto (limit - 3) content ++ py "..." /\
  len (enforce_limit limit content) = limit.
Proof.
  intros H3 Hlong. unfold enforce_limit.
  apply Nat.ltb_lt in Hlong as E. rewrite E. split; [reflexivity |].
  unfold len, upto in *. rewrite length_app, length_firstn.
  change (List.length (py "...")) with 3. lia.
Qed.

Lemma enforce_limit_bound limit content :
  3 <= limit -> len (enforce_limit limit content) <= limit.
Proof.
  intros H3. destruct (Nat.le_gt_cases (len content) limit) as [H | H].
  - now rewrite enforce_limit_short.
  - destruct (enforce_limit_long limit content H3 H) as [_ ->]. lia.
Qed.

Lemma enforce_limit_within platform content :
  within_limit (max_length platform) content
               (enforce_limit (max_length platform) content).
Proof.
  assert (H3 : 3 <= max_length platform)
    by (destruct (max_length_values platform) as [-> | [-> | ->]]; lia).
  split; [reflexivity | split].
  - now apply enforce_limit_bound.
  - intros Hlong. now apply enforce_limit_long.
Qed.

(* ------------------------------------------------------------------ *)
(** ** The static templates *)

Lemma dict_get_In {V} (d : list (str * V)) k v :
  dict_get d k = Some v -> In v (map snd d).
Proof.
  induction d as [|[k' v'] d IH]; simpl; [discriminate |].
  destruct (PyStr.eqb k' k); [intros [= ->]; now left | auto].
Qed.

Lemma templates_lookup topic post_type :
  In (dict_get_or (templates topic) post_type
        (dict_get_or (templates topic) (py "informative") []))
     (map snd (templates topic)).
Proof.
  unfold dict_get_or at 1.
  destruct (dict_get (templates topic) post_type) eqn:H.
  - eapply dict_get_In; eassumption.
  - unfold dict_get_or.
    destruct (dict_get (templates topic) (py "informative")) eqn:H'.
    + eapply dict_get_In; eassumption.
    + unfold templates in H'. cbn [dict_get] in H'.
      rewrite eqb_refl in H'. discriminate.
Qed.

Lemma templates_nonempty topic type_templates :
  In type_templates (map snd (templates topic)) -> type_templates <> [].
Proof.
  revert type_templates. apply Forall_forall.
  unfold templates. cbn [map snd].
  repeat (constructor; [discriminate |]). constructor.
Qed.

(** Looks for a literal piece of a concatenation that contains the
    wanted substring. *)
Ltac find_isin :=
  first [ solve [apply isin_app_l; vm_compute; reflexivity]
        | apply isin_app_r; find_isin ].

(** Every template carries a hashtag after a space, and a question
    mark. *)
Lemma templates_engaging topic type_templates content :
  In type_templates (map snd (templates topic)) ->
  In content type_templates ->
  isin (py " #") content = true /\ isin (py "?") content = true.
Proof.
  unfold templates. cbn [map snd]. intros Hl Hc.
  repeat (destruct Hl as [<- | Hl];
          [ destruct Hc as [<- | [<- | []]]; split; find_isin |]).
  destruct Hl.
Qed.

(* ------------------------------------------------------------------ *)
(** ** The three generators *)

(** [generate_content_fallback] always returns; its text is the limit
    check applied to one of the templates. *)
Lemma generate_content_fallback_post e topic platform include_image
  post_type w (Q : GeneratedContent -> World -> Prop) X :
  (forall gc w' type_templates content,
      In type_templates (map snd (templates topic)) ->
      In content type_templates ->
      text gc = enforce_limit (max_length platform) content ->
      Q gc w') ->
  post e (generate_content_fallback topic platform include_image post_type)
       w Q X.
Proof.
  intros HQ. unfold generate_content_fallback.
  apply post_bind, choose_post_type_post. intros p w1.
  pose proof (templates_lookup topic p) as Hin.
  apply post_bind, random_choice_post.
  { exact (templates_nonempty _ _ Hin). }
  intros content Hc.
  apply post_bind, image_for_post. intros u w2.
  apply post_bind.
  destruct (PyStr.eqb p (py "news")); post_run;
    (eapply HQ; [exact Hin | exact Hc | reflexivity]).
Qed.

(** The reply of Gemini, stripped and checked against the limit, or an
    exception. *)
Lemma gemini_attempt_post e topic platform include_image p w
  (Q : GeneratedContent -> World -> Prop) (X : World -> Prop) :
  (forall gc w' t prompt reply,
      gemini_generate_content e t prompt = Returned reply ->
      text gc = enforce_limit (max_length platform) (strip reply) ->
      Q gc w') ->
  (forall w', X w') ->
  post e (gemini_attempt topic platform include_image p) w Q X.
Proof.
  intros HQ HX. unfold gemini_attempt.
  apply post_bind, news_for_post. intros n w1.
  apply post_bind, stat_for_post. intros s w2.
  apply post_bind, post_call; [| intros; apply HX].
  intros reply Hreply.
  apply post_bind, image_for_post. intros u w3. apply post_ret.
  eapply HQ; [exact Hreply |]. simpl.
  now rewrite platform_info_max_length.
Qed.

Lemma add_engagement_post e topic p raw w (Q : str -> World -> Prop) X :
  (forall content w', processed topic p raw content -> Q content w') ->
  post e (add_engagement p (add_hashtags topic raw)) w Q X.
Proof.
  intros HQ. unfold add_engagement.
  destruct (negb (isin (py "?") (add_hashtags topic raw)) &&
            negb (PyStr.eqb p (py "question"))) eqn:E.
  - apply post_bind, random_choice_post; [discriminate |].
    intros q Hq. apply post_ret. apply HQ.
    unfold processed. rewrite E. now exists q.
  - apply post_ret. apply HQ. unfold processed. now rewrite E.
Qed.

(** The reply of the Hugging Face backend, post-processed and checked
    against the limit, or an exception. *)
Lemma huggingface_attempt_post e topic platform include_image p w
  (Q : GeneratedContent -> World -> Prop) (X : World -> Prop) :
  (forall gc w' t prompt reply content,
      huggingface_post e t prompt = Returned reply ->
      processed topic p
        (strip (replace prompt []
                  match reply with Some g => g | None => [] end))
        content ->
      text gc = enforce_limit (max_length platform) content ->
      post_type gc = p ->
      Q gc w') ->
  (forall w', X w') ->
  post e (huggingface_attempt topic platform include_image p) w Q X.
Proof.
  intros HQ HX. unfold huggingface_attempt.
  apply post_bind, news_for_post. intros n w1.
  apply post_bind, stat_for_post. intros s w2.
  apply post_bind, post_call; [| intros; apply HX].
  intros reply Hreply.
  apply post_bind, add_engagement_post. intros content w3 Hcontent.
  apply post_bind, image_for_post. intros u w4. apply post_ret.
  eapply HQ; [exact Hreply | exact Hcontent | reflexivity | reflexivity].
Qed.

Lemma chosen_post_type_post e post_type w
  (Q : option str -> World -> Prop) X :
  (forall c w', Q c w') ->
  post e (try_except (p <- choose_post_type post_type ;; ret (Some p))
                     (ret None)) w Q X.
Proof.
  intros HQ. apply post_try, post_bind, choose_post_type_post.
  intros p w1. apply post_ret, HQ.
Qed.

Lemma template_pre_truncation e topic platform gc type_templates content :
  In type_templates (map snd (templates topic)) ->
  In content type_templates ->
  text gc = enforce_limit (max_length platform) content ->
  generated_from e topic platform gc.
Proof.
  intros Hl Hc Ht. exists content. split.
  - eapply from_template; eassumption.
  - rewrite Ht. apply enforce_limit_within.
Qed.

Lemma generate_content_gemini_post e topic platform include_image
  post_type w (Q : GeneratedContent -> World -> Prop) X :
  (forall gc w', generated_from e topic platform gc -> Q gc w') ->
  post e (generate_content_gemini topic platform include_image post_type)
       w Q X.
Proof.
  intros HQ.
  assert (Hfb : forall pt w1 X1,
    post e (generate_content_fallback topic platform include_image pt)
         w1 Q X1).
  { intros. apply generate_content_fallback_post. intros.
    eapply HQ, template_pre_truncation; eassumption. }
  unfold generate_content_gemini.
  apply post_bind, post_get. destruct (gemini_model w); simpl.
  - apply post_bind, chosen_post_type_post. intros [p|] w1.
    + apply post_try, gemini_attempt_post.
      * intros gc w' t prompt reply Hreply Ht. apply HQ.
        exists (strip reply). split.
        -- eapply from_gemini; eassumption.
        -- rewrite Ht. apply enforce_limit_within.
      * intros. apply Hfb.
    + apply Hfb.
  - apply post_try. apply Hfb.
Qed.

Lemma generate_content_huggingface_post e topic platform include_image
  pt w (Q : GeneratedContent -> World -> Prop) X :
  (forall gc w' content,
      text gc = enforce_limit (max_length platform) content ->
      huggingface_origin e topic (post_type gc) content ->
      Q gc w') ->
  post e (generate_content_huggingface topic platform include_image pt)
       w Q X.
Proof.
  intros HQ.
  assert (Hfb : forall pt1 w1 X1,
    post e (generate_content_fallback topic platform include_image pt1)
         w1 Q X1).
  { intros. apply generate_content_fallback_post. intros.
    eapply HQ; [eassumption |]. left. eauto. }
  unfold generate_content_huggingface.
  apply post_bind, chosen_post_type_post. intros [p|] w1.
  - apply post_try, huggingface_attempt_post.
    + intros gc w' t prompt reply content Hreply Hproc Ht Hp.
      eapply HQ; [exact Ht |]. right. rewrite Hp. eauto.
    + intros. apply Hfb.
  - apply Hfb.
Qed.

Lemma huggingface_pre_truncation e topic platform gc content :
  text gc = enforce_limit (max_length platform) content ->
  huggingface_origin e topic (post_type gc) content ->
  generated_from e topic platform gc.
Proof.
  intros Ht [(tl & Hl & Hc) | (t & prompt & reply & Hreply & Hproc)].
  - eapply template_pre_truncation; eassumption.
  - exists content. split.
    + eapply from_huggingface; eassumption.
    + rewrite Ht. apply enforce_limit_within.
Qed.

Lemma generate_content_post e topic platform include_image w
  (Q : GeneratedContent -> World -> Prop) X :
  (forall gc w', generated_from e topic platform gc -> Q gc w') ->
  post e (generate_content topic platform include_image) w Q X.
Proof.
  intros HQ. unfold generate_content, attempt.
  apply post_bind, random_choice_post; [discriminate |]. intros p _.
  apply post_bind, post_get, post_bind, post_getenv, post_bind.
  assert (Hrest : forall w1,
    post e
      (huggingface_key <- getenv getenv_HUGGINGFACE_API_KEY ;;
       second <-
         (if huggingface_key
          then try_except
                 (c <- generate_content_huggingface topic platform
                         include_image (Some p) ;; ret (Some c))
                 (ret None)
          else ret None) ;;
       match second with
       | Some c => ret c
       | None =>
           generate_content_fallback topic platform include_image (Some p)
       end) w1 Q X).
  { intros w1. apply post_bind, post_getenv, post_bind.
    destruct (getenv_HUGGINGFACE_API_KEY e).
    - apply post_try, post_bind, generate_content_huggingface_post.
      intros gc w2 content Ht Ho. apply post_ret, post_ret.
      eapply HQ, huggingface_pre_truncation; eassumption.
    - apply post_ret. apply generate_content_fallback_post. intros.
      eapply HQ, template_pre_truncation; eassumption. }
  destruct (gemini_model _ && getenv_GOOGLE_API_KEY e).
  - apply post_try, post_bind, generate_content_gemini_post.
    intros gc w1 Hgc. apply post_ret, post_ret, HQ, Hgc.
  - apply post_ret. apply Hrest.
Qed.

(** C1: each generator, and their chain [generate_content], always
    returns a post whose text is the limit check applied to a text of
    known origin (a template, the stripped reply of strategy A, the
    post-processed reply of strategy B). The text is therefore never
    longer than the limit of the platform, and when the text before the
    check is longer than the limit, the text of the post is its first
    [limit - 3] characters followed by three dots, of length exactly the
    limit. The limits are 250 for twitter, 400 for facebook, 300 for
    instagram and 300 for every other platform. *)
Theorem generate_within_limit s e w topic platform include_image pt :
  (exists gc w' content,
      generate s topic platform include_image pt e w = (Returned gc, w') /\
      pre_truncation e topic content /\
      len (text gc) <= max_length platform /\
      (max_length platform < len content ->
       text gc = upto (max_length platform - 3) content ++ py "..." /\
       len (text gc) = max_length platform) /\
      (len content <= max_length platform -> text gc = content)) /\
  max_length (py "twitter") = 250 /\
  max_length (py "facebook") = 400 /\
  max_length (py "instagram") = 300 /\
  (platform <> py "twitter" -> platform <> py "facebook" ->
   platform <> py "instagram" -> max_length platform = 300).
Proof.
  split; [| apply max_length_table].
  cut (post e (generate s topic platform include_image pt) w
         (fun gc _ => generated_from e topic platform gc) never).
  { intros H.
    apply post_returns in H as (gc & w' & Hrun & content & Hpre & Ht & Hb & Hc).
    exists gc, w', content. repeat split; try assumption; try (now apply Hc).
    intros Hshort. rewrite Ht. now apply enforce_limit_short. }
  destruct s; simpl.
  - apply generate_content_gemini_post. auto.
  - apply generate_content_huggingface_post. intros.
    eapply huggingface_pre_truncation; eassumption.
  - apply generate_content_fallback_post. intros.
    eapply template_pre_truncation; eassumption.
  - apply generate_content_post. auto.
Qed.

(** A reply of 260 characters from strategy A, asked for a tweet, comes
    back as its first 247 characters and three dots. *)
Example generate_content_cuts_260 :
  let reply := repeat 97%N 260 in
  let e := sample_env 0 Raised Raised Raised (Returned reply) Raised
                      Raised Raised Raised Written in
  exists gc w',
    generate_content (py "AI ethics") (py "twitter") true e
                     (init_world (py "testing") true true)
    = (Returned gc, w') /\
    text gc = upto 247 reply ++ py "..." /\
    len (text gc) = 250.
Proof.
  do 2 eexists. split; [vm_compute; reflexivity |].
  split; reflexivity.
Qed.

(* ------------------------------------------------------------------ *)
(** ** The post-processing of strategy B *)

Lemma add_hashtags_tagged topic raw :
  topic_hashtags topic <> [] -> has_hashtag (add_hashtags topic raw) = true.
Proof.
  intros Hne. unfold add_hashtags.
  destruct (has_hashtag raw) eqn:Hraw; simpl; [exact Hraw |].
  destruct (topic_hashtags topic) as [|h hs] eqn:Hh; [congruence |].
  assert (Hhead : exists word, h = 35%N :: word).
  { unfold topic_hashtags in Hh.
    destruct (filter _ (findall_w topic)) as [|word ws]; [discriminate |].
    injection Hh as <- _. now exists word. }
  destruct Hhead as [word ->].
  assert (Hsplit : forall rest,
             raw ++ 10%N :: 10%N :: 35%N :: rest =
             (raw ++ [10%N]) ++ 10%N :: 35%N :: rest)
    by (intros; now rewrite <- app_assoc).
  destruct hs as [|h2 hs]; cbn; rewrite Hsplit;
    now apply has_hashtag_intro.
Qed.

Lemma processed_hashtag topic p raw content :
  processed topic p raw content ->
  topic_hashtags topic <> [] -> has_hashtag content = true.
Proof.
  unfold processed. intros H Hne.
  pose proof (add_hashtags_tagged topic raw Hne) as Htag.
  destruct (negb _ && negb _).
  - destruct H as (q & _ & ->).
    change (py " " ++ q) with (32%N :: q). now apply has_hashtag_app.
  - now subst.
Qed.

Lemma engagement_questions_ask q :
  In q engagement_questions -> isin (py "?") q = true.
Proof.
  revert q. apply Forall_forall. unfold engagement_questions.
  repeat (constructor; [vm_compute; reflexivity |]). constructor.
Qed.

Lemma processed_question topic p raw content :
  processed topic p raw content ->
  p <> py "question" -> isin (py "?") content = true.
Proof.
  unfold processed. intros H Hp. apply eqb_neq in Hp. rewrite Hp in H.
  destruct (isin (py "?") (add_hashtags topic raw)) eqn:E;
    cbn [negb andb] in H.
  - now subst.
  - destruct H as (q & Hq & ->).
    apply isin_app_r, isin_app_r. now apply engagement_questions_ask.
Qed.

(** A word of more than three word characters gives a hashtag. *)
Lemma topic_hashtags_word topic :
  (exists word, In word (findall_w topic) /\ 3 < len word) ->
  topic_hashtags topic <> [].
Proof.
  intros (word & Hin & Hlen) Hnil. unfold topic_hashtags in Hnil.
  apply map_eq_nil in Hnil.
  assert (H : In word (filter (fun word => 3 <? len word)
                         (findall_w topic))).
  { apply filter_In. split; [exact Hin | now apply Nat.ltb_lt]. }
  rewrite Hnil in H. exact H.
Qed.

(** C6, as the code has it: [generate_content_huggingface] always returns
    a post, and unless its text was cut by the limit check (it then has
    exactly the length of the limit and ends in three dots), the text
    contains a hashtag token whenever the topic has a word of more than
    three word characters, and a question mark whenever the post type is
    not "question". *)
Theorem generate_content_huggingface_engaging e w topic platform
  include_image pt :
  exists gc w',
    generate_content_huggingface topic platform include_image pt e w
    = (Returned gc, w') /\
    (cut_to (max_length platform) (text gc) \/
     ((exists word, In word (findall_w topic) /\ 3 < len word) ->
      has_hashtag (text gc) = true) /\
     (post_type gc <> py "question" -> isin (py "?") (text gc) = true)).
Proof.
  apply post_returns, generate_content_huggingface_post.
  intros gc _ content Ht Horigin.
  destruct (Nat.le_gt_cases (len content) (max_length platform))
    as [Hshort | Hlong].
  - right. rewrite Ht, enforce_limit_short by exact Hshort.
    destruct Horigin as [(tl & Hl & Hc) | (t & prompt & reply & _ & Hproc)].
    + destruct (templates_engaging topic tl content Hl Hc) as [Hh Hq].
      split; intros _; [now apply has_hashtag_isin | exact Hq].
    + split.
      * intros Hword. apply topic_hashtags_word in Hword.
        eapply processed_hashtag; eassumption.
      * eapply processed_question; eassumption.
  - left. destruct (enforce_limit_within platform content) as (_ & _ & Hcut).
    destruct (Hcut Hlong) as [Heq Hlen]. rewrite Ht. split.
    + eexists. exact Heq.
    + exact Hlen.
Qed.

(** C6 as stated fails in three ways, each time on a reply that has
    neither a hashtag nor a question mark: a topic without a word of more
    than three characters gets no hashtag; a post of type "question" gets
    no question; and a long reply loses what was added when it is cut to
    the limit. *)
Lemma huggingface_postprocessing_gaps :
  let w := init_world (py "testing") true false in
  (exists gc w',
      generate_content_huggingface (py "AI") (py "twitter") true
        (Some (py "tip")) (huggingface_env (py "Hello")) w
      = (Returned gc, w') /\
      text gc = py "Hello What do you think?" /\
      has_hashtag (text gc) = false) /\
  (exists gc w',
      generate_content_huggingface (py "climate solutions") (py "twitter")
        true (Some (py "question")) (huggingface_env (py "Hello")) w
      = (Returned gc, w') /\
      text gc = py "Hello" ++ nl ++ nl ++ py "#climate #solutions" /\
      isin (py "?") (text gc) = false) /\
  (exists gc w',
      generate_content_huggingface (py "climate solutions") (py "twitter")
        true (Some (py "tip")) (huggingface_env (repeat 97%N 260)) w
      = (Returned gc, w') /\
      text gc = repeat 97%N 247 ++ py "..." /\
      has_hashtag (text gc) = false /\
      isin (py "?") (text gc) = false).
Proof.
  repeat split;
    (do 2 eexists; split; [vm_compute; reflexivity |]);
    repeat split; vm_compute; reflexivity.
Qed.

(* ------------------------------------------------------------------ *)
(** ** The image table *)

Lemma urls_of_entry category urls :
  In (category, urls) image_database -> urls_of category = urls.
Proof.
  revert category urls.
  assert (H : Forall (fun entry => urls_of (fst entry) = snd entry)
                     image_database)
    by (repeat (constructor; [vm_compute; reflexivity |]); constructor).
  intros category urls Hin.
  exact (proj1 (Forall_forall _ _) H (category, urls) Hin).
Qed.

Lemma image_source_exact topic category :
  exact_category topic category ->
  exists c, exact_category topic c /\ image_source topic = urls_of c.
Proof.
  intros [Hin Hmatch]. unfold image_source.
  destruct (find (exact_match (lower topic)) image_database)
    as [[c urls]|] eqn:Hf.
  - apply find_some in Hf as [Hc Hm]. exists c. split.
    + split; [| exact Hm]. apply in_map_iff. now exists (c, urls).
    + symmetry. now apply urls_of_entry.
  - apply in_map_iff in Hin as ([c urls] & <- & Hin).
    pose proof (find_none _ _ Hf _ Hin) as Hno.
    unfold exact_match in Hno. simpl in *. congruence.
Qed.

Lemma partial_match_category topic category urls :
  In (category, urls) image_database ->
  partial_match (lower topic) (category, urls) = true <->
  partial_category topic category.
Proof.
  intros Hin. unfold partial_match, partial_category. cbn [fst].
  rewrite andb_true_iff, negb_true_iff, eqb_neq, existsb_exists.
  split.
  - intros [Hd (word & Hw & Hm)]. split; [| split; [exact Hd |]].
    + apply in_map_iff. now exists (category, urls).
    + exists word. split; [exact Hw |]. now apply orb_true_iff.
  - intros (_ & Hd & word & Hw & Hm). split; [exact Hd |].
    exists word. split; [exact Hw |]. now apply orb_true_iff.
Qed.

Lemma image_source_partial topic category :
  (forall c, ~ exact_category topic c) ->
  partial_category topic category ->
  exists c, partial_category topic c /\ image_source topic = urls_of c.
Proof.
  intros Hno Hpartial. unfold image_source.
  destruct (find (exact_match (lower topic)) image_database)
    as [[c urls]|] eqn:Hf.
  - apply find_some in Hf as [Hc Hm]. exfalso. apply (Hno c).
    split; [| exact Hm]. apply in_map_iff. now exists (c, urls).
  - destruct (find (partial_match (lower topic)) image_database)
      as [[c urls]|] eqn:Hp.
    + apply find_some in Hp as [Hc Hm]. exists c. split.
      * now apply (partial_match_category topic c urls).
      * symmetry. now apply urls_of_entry.
    + destruct Hpartial as (Hin & Hrest).
      apply in_map_iff in Hin as ([c urls] & Hc & Hin). cbn in Hc. subst c.
      pose proof (find_none _ _ Hp _ Hin) as Hfalse.
      assert (Htrue : partial_match (lower topic) (category, urls) = true).
      { apply partial_match_category; [exact Hin |].
        split; [| exact Hrest]. apply in_map_iff. now exists (category, urls). }
      congruence.
Qed.

Lemma image_source_default topic :
  (forall c, ~ exact_category topic c) ->
  (forall c, ~ partial_category topic c) ->
  image_source topic = urls_of (py "default").
Proof.
  intros Hno Hnop. unfold image_source.
  destruct (find (exact_match (lower topic)) image_database)
    as [[c urls]|] eqn:Hf.
  - apply find_some in Hf as [Hc Hm]. exfalso. apply (Hno c).
    split; [| exact Hm]. apply in_map_iff. now exists (c, urls).
  - destruct (find (partial_match (lower topic)) image_database)
      as [[c urls]|] eqn:Hp; [| reflexivity].
    apply find_some in Hp as [Hc Hm]. exfalso. apply (Hnop c).
    now apply (partial_match_category topic c urls).
Qed.

(** C7: [get_relevant_image_url] always returns a URL, taken from the list
    of a category that matches the topic exactly when there is one,
    otherwise from the list of a category that matches it partially when
    there is one, otherwise from the default list. For the topic
    "technology trends 2024" the URL is one of the technology list, for the
    topic "xyzabc123" one of the default list. *)
Theorem get_relevant_image_url_priority e w topic :
  (exists u w',
      get_relevant_image_url topic e w = (Returned u, w') /\
      ((exists c, exact_category topic c) ->
       exists c, exact_category topic c /\ In u (urls_of c)) /\
      ((forall c, ~ exact_category topic c) ->
       (exists c, partial_category topic c) ->
       exists c, partial_category topic c /\ In u (urls_of c)) /\
      ((forall c, ~ exact_category topic c) ->
       (forall c, ~ partial_category topic c) ->
       In u (urls_of (py "default")))) /\
  (exists u w',
      get_relevant_image_url (py "technology trends 2024") e w
      = (Returned u, w') /\
      In u (urls_of (py "technology"))) /\
  (exists u w',
      get_relevant_image_url (py "xyzabc123") e w = (Returned u, w') /\
      In u (urls_of (py "default"))).
Proof.
  split; [| split].
  - apply post_returns, get_relevant_image_url_post. intros u _ Hu.
    split; [| split].
    + intros [c Hc]. destruct (image_source_exact topic c Hc) as (c' & Hc' & E).
      exists c'. split; [exact Hc' | now rewrite <- E].
    + intros Hno [c Hc].
      destruct (image_source_partial topic c Hno Hc) as (c' & Hc' & E).
      exists c'. split; [exact Hc' | now rewrite <- E].
    + intros Hno Hnop. now rewrite <- (image_source_default topic Hno Hnop).
  - apply post_returns, get_relevant_image_url_post. intros u _ Hu. exact Hu.
  - apply post_returns, get_relevant_image_url_post. intros u _ Hu. exact Hu.
Qed.

(* ================================================================== *)
(** * Trend discovery *)
(* ================================================================== *)

Lemma pool_take_length pool j :
  pool <> [] -> j < List.length pool ->
  List.length (pool_take pool j) = List.length pool - 1.
Proof.
  intros Hne Hj. unfold pool_take.
  rewrite length_firstn, length_app, length_firstn. cbn [List.length].
  rewrite length_skipn. lia.
Qed.

Lemma in_firstn {A} n (l : list A) x : In x (firstn n l) -> In x l.
Proof.
  intros H. rewrite <- (firstn_skipn n l). apply in_or_app. now left.
Qed.

Lemma in_skipn {A} n (l : list A) x : In x (skipn n l) -> In x l.
Proof.
  intros H. rewrite <- (firstn_skipn n l). apply in_or_app. now right.
Qed.

Lemma pool_take_incl pool j :
  pool <> [] -> incl (pool_take pool j) pool.
Proof.
  intros Hne x Hx. unfold pool_take in Hx.
  apply in_firstn in Hx. apply in_app_or in Hx as [Hx | [<- | Hx]].
  - now apply in_firstn in Hx.
  - apply nth_In. destruct pool; [congruence | simpl; lia].
  - now apply in_skipn in Hx.
Qed.

(** The selection loop returns [k] elements of the pool. *)
Lemma sample_from_post e draw k : forall pool w
  (Q : list str -> World -> Prop) X,
  k <= List.length pool ->
  (forall r w', List.length r = k -> incl r pool -> Q r w') ->
  post e (sample_from draw pool k) w Q X.
Proof.
  induction k as [|k IH]; intros pool w Q X Hk HQ; simpl.
  - apply post_ret, HQ; [reflexivity | easy].
  - assert (Hne : pool <> []) by (destruct pool; [simpl in Hk; lia | easy]).
    apply post_bind, post_ask.
    set (j := draw e (tick w) mod List.length pool).
    assert (Hj : j < List.length pool)
      by (apply Nat.mod_upper_bound; destruct pool; [congruence | easy]).
    apply post_bind, IH.
    + rewrite pool_take_length by assumption. lia.
    + intros r w' Hlen Hincl. apply post_ret, HQ.
      * simpl. now rewrite Hlen.
      * intros x [<- | Hx].
        -- now apply nth_In.
        -- now apply (pool_take_incl pool j Hne), Hincl.
Qed.

Lemma get_fallback_topics_post e w (Q : list str -> World -> Prop) X :
  (forall r w',
      3 <= List.length r <= 5 -> incl r fallback_topic_list -> Q r w') ->
  post e get_fallback_topics w Q X.
Proof.
  intros HQ. unfold get_fallback_topics, randint, randbelow.
  apply post_bind, post_bind, post_bind, post_ask, post_ret, post_ret.
  set (k := 3 + random_draw e (tick w) mod (5 - 3 + 1)).
  assert (Hk : 3 <= k <= 5).
  { subst k. pose proof (Nat.mod_upper_bound (random_draw e (tick w)) 3).
    change (5 - 3 + 1) with 3. lia. }
  unfold random_sample.
  change (List.length fallback_topic_list) with 32.
  destruct (32 <? k) eqn:E; [apply Nat.ltb_lt in E; lia |].
  apply sample_from_post.
  - change (List.length fallback_topic_list) with 32. lia.
  - intros r w' Hlen Hincl. apply HQ; [lia | exact Hincl].
Qed.

Lemma get_twitter_trends_post e w (Q : list str -> World -> Prop) X :
  (forall r w', (nothing_found e -> r = []) -> Q r w') ->
  post e get_twitter_trends w Q X.
Proof.
  intros HQ. unfold get_twitter_trends.
  apply post_try, post_bind, post_call.
  - intros trending Ht. apply post_ret, HQ. intros (H1 & _).
    destruct (H1 (tick w)) as [H | H]; rewrite H in Ht; [discriminate |].
    injection Ht as <-. reflexivity.
  - intros _. apply post_ret, HQ. reflexivity.
Qed.

Lemma get_twitter_trends_v2_post e w (Q : list str -> World -> Prop) X :
  (forall r w', (nothing_found e -> r = []) -> Q r w') ->
  post e get_twitter_trends_v2 w Q X.
Proof.
  intros HQ. unfold get_twitter_trends_v2, list_of_set.
  apply post_try, post_bind, post_get.
  destruct (twitter_api w); simpl; [| apply post_ret, HQ; reflexivity].
  apply post_bind, post_call.
  - intros data Hd. apply post_bind, sample_from_post; [lia |].
    intros unique w' Hlen _. apply post_ret, HQ. intros (_ & H2 & _).
    destruct (H2 (tick w)) as [H | H]; rewrite H in Hd; [discriminate |].
    injection Hd as <-. simpl in Hlen.
    destruct unique; [reflexivity | discriminate].
  - intros _. apply post_ret, HQ. reflexivity.
Qed.

Lemma get_twitter_trends_scraping_post e w
  (Q : list str -> World -> Prop) X :
  (forall r w', (nothing_found e -> r = []) -> Q r w') ->
  post e get_twitter_trends_scraping w Q X.
Proof.
  intros HQ. unfold get_twitter_trends_scraping.
  apply post_try, post_bind, post_call.
  - intros trends Ht. apply post_ret, HQ. intros (_ & _ & H3).
    destruct (H3 (tick w)) as [H | H]; rewrite H in Ht; [discriminate |].
    injection Ht as <-. reflexivity.
  - intros _. apply post_ret, HQ. reflexivity.
Qed.

Lemma try_method_post e current method w
  (Q : list str -> World -> Prop) X :
  (forall w1 Q1 X1,
      (forall r w', (nothing_found e -> r = []) -> Q1 r w') ->
      post e method w1 Q1 X1) ->
  (forall r w',
      (nothing_found e -> current = [] -> r = []) -> Q r w') ->
  post e (try_method current method) w Q X.
Proof.
  intros Hm HQ. unfold try_method. destruct current as [|c cs].
  - apply post_try, Hm. intros r w' Hr. apply HQ. auto.
  - apply post_ret, HQ. intros _ [=].
Qed.

Lemma fallback_topics_kept :
  forall t, In t fallback_topic_list -> keep_trend t = true.
Proof.
  apply Forall_forall. unfold fallback_topic_list.
  cbn [map]. repeat (constructor; [vm_compute; reflexivity |]). constructor.
Qed.

Lemma filter_all {A} (f : A -> bool) l :
  (forall x, In x l -> f x = true) -> filter f l = l.
Proof.
  induction l as [|x l IH]; intros H; simpl; [reflexivity |].
  rewrite (H x (or_introl eq_refl)), IH; [reflexivity |].
  intros y Hy. apply H. now right.
Qed.

Lemma keep_trend_spec t :
  keep_trend t = true ->
  t <> [] /\ len t < 50 /\ startswith t (py "http") = false.
Proof.
  unfold keep_trend. intros H.
  apply andb_true_iff in H as [H Hh]. apply andb_true_iff in H as [Ht Hl].
  split; [now destruct t | split].
  - now apply Nat.ltb_lt.
  - now apply negb_true_iff.
Qed.

(** [fetch_trends] always returns; what it returns went through the
    filter and is stored in [trending_topics]; when no outside source has
    anything, it is the sample of the static list. *)
Lemma fetch_trends_post e w (Q : list str -> World -> Prop) :
  (forall r w',
      (forall t, In t r -> keep_trend t = true) ->
      trending_topics w' = r ->
      (In (py "twitter") (platforms w) -> nothing_found e ->
       3 <= List.length r <= 5 /\ incl r fallback_topic_list) ->
      Q r w') ->
  post e fetch_trends w Q never.
Proof.
  intros HQ. unfold fetch_trends. apply post_bind, post_get.
  assert (Hend : forall all_trends w1,
    (In (py "twitter") (platforms w) -> nothing_found e ->
     3 <= List.length all_trends <= 5 /\
     incl all_trends fallback_topic_list) ->
    post e
      (modify (set_trending_topics (filter keep_trend all_trends)) ;;;
       ret (filter keep_trend all_trends)) w1 Q never).
  { intros all_trends w1 Hworst.
    apply post_bind, post_modify, post_ret, HQ.
    - intros t Ht. now apply filter_In in Ht.
    - reflexivity.
    - intros Hp Hn. destruct (Hworst Hp Hn) as [Hlen Hincl].
      rewrite filter_all; [now split |].
      intros x Hx. now apply fallback_topics_kept, Hincl. }
  apply post_bind.
  destruct (existsb (PyStr.eqb (py "twitter")) (platforms w)) eqn:Hp.
  - apply post_bind, try_method_post;
      [intros; now apply get_twitter_trends_post |].
    intros r1 w1 H1.
    apply post_bind, try_method_post;
      [intros; now apply get_twitter_trends_v2_post |].
    intros r2 w2 H2.
    apply post_bind, try_method_post;
      [intros; now apply get_twitter_trends_scraping_post |].
    intros r3 w3 H3.
    apply post_bind.
    destruct r3 as [|t3 r3].
    + apply get_fallback_topics_post. intros r w4 Hlen Hincl.
      apply post_ret. apply Hend. intros _ _. now split.
    + apply post_ret, post_ret. apply Hend. intros _ Hn.
      assert (E : t3 :: r3 = []) by (apply H3; auto). discriminate.
  - apply post_ret. apply Hend. intros Hin _.
    assert (Ht : existsb (PyStr.eqb (py "twitter")) (platforms w) = true).
    { apply existsb_exists. exists (py "twitter").
      split; [exact Hin | apply eqb_refl]. }
    congruence.
Qed.

Lemma try_method_nothing e method w :
  finds_nothing e method w ->
  try_method [] method e w = (Returned [], snd (method e w)).
Proof.
  unfold finds_nothing, try_method, try_except, ret.
  destruct (method e w) as [[r |] w1]; cbn [fst snd].
  - intros [H | H]; [discriminate H | injection H as ->; reflexivity].
  - intros _. reflexivity.
Qed.

(** When the three outside strategies find nothing, the topics are the
    sample of the static list. *)
Lemma fetch_trends_fallback e w :
  In (py "twitter") (platforms w) ->
  strategies_find_nothing e w ->
  post e fetch_trends w
    (fun r _ => 3 <= List.length r <= 5 /\ incl r fallback_topic_list)
    never.
Proof.
  intros Hin (H1 & H2 & H3). unfold fetch_trends.
  apply post_bind, post_get.
  assert (Hp : existsb (PyStr.eqb (py "twitter")) (platforms w) = true).
  { apply existsb_exists. exists (py "twitter").
    split; [exact Hin | apply eqb_refl]. }
  rewrite Hp. apply post_bind, post_bind.
  eapply returns_post; [exact (try_method_nothing e _ w H1) |].
  apply post_bind.
  eapply returns_post; [exact (try_method_nothing e _ _ H2) |].
  apply post_bind.
  eapply returns_post; [exact (try_method_nothing e _ _ H3) |].
  apply post_bind, get_fallback_topics_post. intros r w4 Hlen Hincl.
  apply post_ret, post_bind, post_modify, post_ret.
  cbn [app]. rewrite filter_all; [now split |].
  intros x Hx. now apply fallback_topics_kept, Hincl.
Qed.

(** C2, as the code has it: [fetch_trends] never fails, what it returns
    is stored as the agent's trending topics, and every topic it returns
    has passed the filter. When the agent posts to twitter and each of
    the three outside strategies ends in an exception or in the empty
    list, it returns the sample of the static list: three to five topics
    of that list. (When a strategy does return something, only the topics
    that pass the filter come back, and these may be none.) *)
Theorem fetch_trends_returns e w :
  exists r w',
    fetch_trends e w = (Returned r, w') /\
    trending_topics w' = r /\
    (forall t, In t r -> keep_trend t = true) /\
    (In (py "twitter") (platforms w) -> strategies_find_nothing e w ->
     3 <= List.length r <= 5 /\ incl r fallback_topic_list).
Proof.
  assert (H : post e fetch_trends w
                (fun r w' =>
                   trending_topics w' = r /\
                   forall t, In t r -> keep_trend t = true)
                never).
  { apply fetch_trends_post. intros r w' Hkeep Ht _. now split. }
  apply post_returns in H as (r & w' & Hrun & Ht & Hkeep).
  exists r, w'. split; [exact Hrun |]. split; [exact Ht |].
  split; [exact Hkeep |]. intros Hin Hnone.
  pose proof (fetch_trends_fallback e w Hin Hnone) as Hworst.
  unfold post in Hworst. rewrite Hrun in Hworst. exact Hworst.
Qed.

Lemma fetch_trends_returns_witness :
  let w := init_world (py "testing") true false in
  In (py "twitter") (platforms w) /\
  strategies_find_nothing quiet_tweets_env w /\
  exists r w',
    fetch_trends quiet_tweets_env w = (Returned r, w') /\
    3 <= List.length r <= 5.
Proof.
  intros w.
  assert (Hin : In (py "twitter") (platforms w)) by (left; reflexivity).
  assert (Hn : strategies_find_nothing quiet_tweets_env w)
    by (repeat split; right; vm_compute; reflexivity).
  split; [exact Hin | split; [exact Hn |]].
  destruct (fetch_trends_returns quiet_tweets_env w)
    as (r & w' & Hrun & _ & _ & Hworst).
  exists r, w'. split; [exact Hrun | exact (proj1 (Hworst Hin Hn))].
Defined.

(** C2 as stated fails: the only trend that the first source finds is a
    link, the filter drops it, and [fetch_trends] returns the empty list
    without consulting the static list. *)
Lemma fetch_trends_can_be_empty :
  exists w',
    fetch_trends link_trend_env (init_world (py "testing") true false)
    = (Returned [], w').
Proof.
  eexists. vm_compute. reflexivity.
Qed.

(** What the filter of [fetch_trends] does guarantee: every topic
    returned is a non-empty string of fewer than 50 characters that does
    not begin with the four characters "http". *)
Theorem fetch_trends_filtered e w :
  exists r w',
    fetch_trends e w = (Returned r, w') /\
    forall t, In t r ->
      t <> [] /\ len t < 50 /\ startswith t (py "http") = false.
Proof.
  apply post_returns, fetch_trends_post. intros r w' Hkeep _ _.
  intros t Ht. now apply keep_trend_spec, Hkeep.
Qed.

(** C3 on the code: the filter line, commented "Remove any URLs", tests
    the four characters "http" only. A trend that begins with the scheme
    [ftp://], and one that begins with [HTTP://] in capital letters, both
    start with a URL scheme and are both returned by [fetch_trends],
    whereas the link [https://t.co/abc] is dropped. *)
Lemma fetch_trends_keeps_urls :
  let w := init_world (py "testing") true false in
  (exists w',
      fetch_trends ftp_trend_env w
      = (Returned [py "ftp://files.example.com/trends"], w')) /\
  (exists w',
      fetch_trends capital_link_env w
      = (Returned [py "HTTP://EXAMPLE.COM/TRENDS"], w')) /\
  (exists w', fetch_trends link_trend_env w = (Returned [], w')) /\
  starts_with_url_scheme (py "ftp://files.example.com/trends") = true /\
  starts_with_url_scheme (py "HTTP://EXAMPLE.COM/TRENDS") = true /\
  starts_with_url_scheme (py "https://t.co/abc") = true /\
  starts_with_url_scheme (py "AI ethics") = false.
Proof.
  intros w.
  repeat split; try (eexists; vm_compute; reflexivity);
    vm_compute; reflexivity.
Qed.

(* ================================================================== *)
(** * What a computation leaves alone *)
(* ================================================================== *)

Lemma agent_kept_refl w : agent_kept w w.
Proof. reflexivity. Qed.

Lemma agent_kept_trans w1 w2 w3 :
  agent_kept w1 w2 -> agent_kept w2 w3 -> agent_kept w1 w3.
Proof. unfold agent_kept. congruence. Qed.

Section KeepsRules.
Variable e : Env.
Context {A B : Type}.

Lemma keeps_ret (a : A) : keeps e (ret a).
Proof. intros w. reflexivity. Qed.

Lemma keeps_raise : keeps e (@raise A).
Proof. intros w. reflexivity. Qed.

Lemma keeps_get (f : World -> A) : keeps e (get f).
Proof. intros w. reflexivity. Qed.

Lemma keeps_ask (f : Env -> nat -> A) : keeps e (ask f).
Proof. intros w. reflexivity. Qed.

Lemma keeps_call (f : Env -> nat -> outcome A) : keeps e (call f).
Proof. intros w. reflexivity. Qed.

Lemma keeps_bind (m : M A) (k : A -> M B) :
  keeps e m -> (forall a, keeps e (k a)) -> keeps e (bind m k).
Proof.
  intros Hm Hk w. unfold bind. specialize (Hm w).
  destruct (m e w) as [[a|] w1]; [| exact Hm].
  specialize (Hk a w1). destruct (k a e w1) as [r w2].
  eapply agent_kept_trans; eassumption.
Qed.

Lemma keeps_try (m h : M A) :
  keeps e m -> keeps e h -> keeps e (try_except m h).
Proof.
  intros Hm Hh w. unfold try_except. specialize (Hm w).
  destruct (m e w) as [[a|] w1]; [exact Hm |].
  specialize (Hh w1). destruct (h e w1) as [r w2].
  eapply agent_kept_trans; eassumption.
Qed.

(** A postcondition can be strengthened by what is kept. *)
Lemma post_keeps (m : M A) w (Q : A -> World -> Prop) (X : World -> Prop) :
  keeps e m ->
  post e m w (fun a w' => agent_kept w w' -> Q a w')
             (fun w' => agent_kept w w' -> X w') ->
  post e m w Q X.
Proof.
  intros Hk Hp. unfold post in *. specialize (Hk w).
  destruct (m e w) as [[a|] w1]; auto.
Qed.

Lemma keeps_post (m : M A) w (Q : A -> World -> Prop) (X : World -> Prop) :
  keeps e m ->
  (forall a w', agent_kept w w' -> Q a w') ->
  (forall w', agent_kept w w' -> X w') ->
  post e m w Q X.
Proof.
  intros Hk HQ HX. unfold post. specialize (Hk w).
  destruct (m e w) as [[a|] w1]; auto.
Qed.
End KeepsRules.

Lemma keeps_getenv e f : keeps e (getenv f).
Proof. intros w. reflexivity. Qed.

Lemma keeps_set_trending_topics e t : keeps e (modify (set_trending_topics t)).
Proof. intros w. reflexivity. Qed.

Lemma keeps_set_last_run e t : keeps e (modify (set_last_run t)).
Proof. intros w. reflexivity. Qed.

Create HintDb keeps.

#[export] Hint Resolve keeps_ret keeps_raise keeps_get keeps_ask keeps_call
  keeps_getenv keeps_set_trending_topics keeps_set_last_run : keeps.

(** Goes through a computation built from binds, handlers and case
    distinctions, leaving the calls of other functions to the hints. *)
Ltac keeps_run :=
  repeat first
    [ solve [auto with keeps]
    | apply keeps_bind; [| intro]
    | apply keeps_try
    | match goal with
      | |- keeps _ (if ?b then _ else _) => destruct b
      | |- keeps _ (match ?x with _ => _ end) => destruct x
      | |- keeps _ (let (_, _) := ?x in _) => destruct x
      end ].

Lemma keeps_random_choice {A} e (l : list A) : keeps e (random_choice l).
Proof. unfold random_choice, randbelow. keeps_run. Qed.

#[export] Hint Resolve keeps_random_choice : keeps.

Lemma keeps_sample_from e draw k : forall pool,
  keeps e (sample_from draw pool k).
Proof.
  induction k as [|k IH]; intros pool; simpl; keeps_run.
Qed.

#[export] Hint Resolve keeps_sample_from : keeps.

Lemma keeps_get_fallback_topics e : keeps e get_fallback_topics.
Proof.
  unfold get_fallback_topics, randint, randbelow, random_sample. keeps_run.
Qed.

Lemma keeps_get_twitter_trends e : keeps e get_twitter_trends.
Proof. unfold get_twitter_trends. keeps_run. Qed.

Lemma keeps_get_twitter_trends_v2 e : keeps e get_twitter_trends_v2.
Proof. unfold get_twitter_trends_v2, list_of_set. keeps_run. Qed.

Lemma keeps_get_twitter_trends_scraping e :
  keeps e get_twitter_trends_scraping.
Proof. unfold get_twitter_trends_scraping. keeps_run. Qed.

#[export] Hint Resolve keeps_get_fallback_topics keeps_get_twitter_trends
  keeps_get_twitter_trends_v2 keeps_get_twitter_trends_scraping : keeps.

Lemma keeps_fetch_trends e : keeps e fetch_trends.
Proof. unfold fetch_trends, try_method. keeps_run. Qed.

Lemma keeps_get_relevant_image_url e topic :
  keeps e (get_relevant_image_url topic).
Proof. unfold get_relevant_image_url. keeps_run. Qed.

#[export] Hint Resolve keeps_fetch_trends keeps_get_relevant_image_url
  : keeps.

Lemma keeps_image_for e include_image topic :
  keeps e (image_for include_image topic).
Proof. unfold image_for. keeps_run. Qed.

Lemma keeps_choose_post_type e post_type :
  keeps e (choose_post_type post_type).
Proof. unfold choose_post_type. keeps_run. Qed.

Lemma keeps_news_for e topic post_type : keeps e (news_for topic post_type).
Proof. unfold news_for, fetch_news_for_topic. keeps_run. Qed.

Lemma keeps_stat_for e topic post_type : keeps e (stat_for topic post_type).
Proof. unfold stat_for, get_stats_for_topic. keeps_run. Qed.

#[export] Hint Resolve keeps_image_for keeps_choose_post_type keeps_news_for
  keeps_stat_for : keeps.

Lemma keeps_generate_content_fallback e topic platform include_image pt :
  keeps e (generate_content_fallback topic platform include_image pt).
Proof.
  unfold generate_content_fallback, fetch_news_for_topic. keeps_run.
Qed.

#[export] Hint Resolve keeps_generate_content_fallback : keeps.

Lemma keeps_generate_content_gemini e topic platform include_image pt :
  keeps e (generate_content_gemini topic platform include_image pt).
Proof.
  unfold generate_content_gemini, gemini_attempt. keeps_run.
Qed.

Lemma keeps_generate_content_huggingface e topic platform include_image pt :
  keeps e (generate_content_huggingface topic platform include_image pt).
Proof.
  unfold generate_content_huggingface, huggingface_attempt, add_engagement.
  keeps_run.
Qed.

#[export] Hint Resolve keeps_generate_content_gemini
  keeps_generate_content_huggingface : keeps.

Lemma keeps_generate_content e topic platform include_image :
  keeps e (generate_content topic platform include_image).
Proof. unfold generate_content, attempt. keeps_run. Qed.

#[export] Hint Resolve keeps_generate_content : keeps.

(* ================================================================== *)
(** * Saving and loading the history *)
(* ================================================================== *)

Lemma post_returns_tt e (m : M unit) w (Q : unit -> World -> Prop) :
  post e m w Q never ->
  exists w', m e w = (Returned tt, w') /\ Q tt w'.
Proof.
  intros H. apply post_returns in H as ([] & w' & H). now exists w'.
Qed.

(** X1: saving the history and loading it again gives the history back
    when the write succeeds. When the file cannot be opened, loading
    yields what the file held before (nothing, if it was absent or
    unreadable); when the dump fails after the file was opened, loading
    yields the empty history: everything recorded so far is lost at the
    next start. *)
Theorem save_then_load e w :
  exists w',
    (save_posted_content ;;; load_posted_content) e w = (Returned tt, w') /\
    posted_content w' =
      match write_history_file e (tick w) with
      | Written => posted_content w
      | DumpRaised => []
      | OpenRaised =>
          match posted_content_json w with
          | Holds history => history
          | _ => []
          end
      end.
Proof.
  apply (post_returns_tt e _ w
           (fun _ w' =>
              posted_content w' =
                match write_history_file e (tick w) with
                | Written => posted_content w
                | DumpRaised => []
                | OpenRaised =>
                    match posted_content_json w with
                    | Holds history => history
                    | _ => []
                    end
                end)).
  apply post_bind, save_posted_content_post.
  intros w1 Hh Ht Hf. apply post_modify. simpl. rewrite Hf.
  destruct (write_history_file e (tick w)); simpl; reflexivity.
Qed.

(* ================================================================== *)
(** * More on the publisher *)
(* ================================================================== *)

Lemma tweet_text_length content :
  len (text content) <= 250 -> len (tweet_text content) <= 250.
Proof.
  intros Hlen. unfold tweet_text.
  destruct (present (article_url content)) as [article |]; [| exact Hlen].
  destruct (len (text content) + len article + 1 <=? 250) eqn:E;
    [| exact Hlen].
  apply Nat.leb_le in E. unfold len, nl in *.
  rewrite !length_app. cbn [List.length] in *. lia.
Qed.

Lemma tweet_text_cases content :
  (tweet_text content = text content \/
   exists article,
     article_url content = Some article /\
     tweet_text content = text content ++ nl ++ article) /\
  (forall article,
      article_url content = Some article -> article <> [] ->
      len (text content) + len article + 1 <= 250 ->
      tweet_text content = text content ++ nl ++ article).
Proof.
  unfold tweet_text. split.
  - destruct (article_url content) as [[|c article]|] eqn:Hurl;
      cbn [present]; try (now left).
    destruct (len (text content) + len (c :: article) + 1 <=? 250).
    + right. exists (c :: article). now split.
    + now left.
  - intros article -> Hne Hfits. destruct article as [|c article];
      [congruence |]. cbn [present].
    apply Nat.leb_le in Hfits. now rewrite Hfits.
Qed.

Lemma upload_image_trace e image w (Q : option N -> World -> Prop) X :
  (forall m w',
      trace w' = trace w \/
      (exists id, trace w' = trace w ++ [MediaUpload id]) ->
      Q m w') ->
  post e (upload_image image) w Q X.
Proof.
  intros HQ. unfold upload_image.
  post_run; apply HQ; cbn; (now left) || (right; eexists; reflexivity).
Qed.

(** X2: with a configured client, [post_to_twitter] always returns and
    calls [create_tweet] exactly once, after at most one media upload.
    The text it sends is the text of the post, or that text, a line break
    and the whole article link, never a part of the link; the link is
    sent whenever it is not empty and [len(text) + len(link) + 1 <= 250];
    a text of at most 250 characters gives a tweet of at most 250
    characters. *)
Theorem post_to_twitter_sends e w content :
  twitter_api w = true ->
  exists r w' uploads sent media_ids,
    post_to_twitter content e w = (Returned r, w') /\
    trace w' = trace w ++ uploads ++ [CreateTweet sent media_ids] /\
    (uploads = [] \/ exists id, uploads = [MediaUpload id]) /\
    (sent = text content \/
     exists article,
       article_url content = Some article /\
       sent = text content ++ nl ++ article) /\
    (forall article,
        article_url content = Some article -> article <> [] ->
        len (text content) + len article + 1 <= 250 ->
        sent = text content ++ nl ++ article) /\
    (len (text content) <= 250 -> len sent <= 250).
Proof.
  intros Hapi.
  cut (post e (post_to_twitter content) w
         (fun _ w' =>
            exists uploads media_ids,
              trace w' =
                trace w ++ uploads ++
                [CreateTweet (tweet_text content) media_ids] /\
              (uploads = [] \/ exists id, uploads = [MediaUpload id]))
         never).
  { intros H.
    apply post_returns in H as (r & w' & Hrun & uploads & ids & Htr & Hup).
    exists r, w', uploads, (tweet_text content), ids.
    destruct (tweet_text_cases content) as [Hcases Hlink].
    repeat split; try assumption. apply tweet_text_length. }
  unfold post_to_twitter.
  apply post_try, post_bind, post_get. rewrite Hapi. cbn [negb].
  assert (Hsend : forall m w1,
    trace w1 = trace w \/
    (exists id, trace w1 = trace w ++ [MediaUpload id]) ->
    post e
      (emit (CreateTweet (tweet_text content) (media_ids_of m)) ;;;
       _tweet_id <-
         call (fun e t => create_tweet e t (tweet_text content)
                            (media_ids_of m)) ;;
       ret true) w1
      (fun _ w' =>
         exists uploads media_ids,
           trace w' =
             trace w ++ uploads ++
             [CreateTweet (tweet_text content) media_ids] /\
           (uploads = [] \/ exists id, uploads = [MediaUpload id]))
      (fun w2 =>
         post e (ret false) w2
           (fun _ w' =>
              exists uploads media_ids,
                trace w' =
                  trace w ++ uploads ++
                  [CreateTweet (tweet_text content) media_ids] /\
                (uploads = [] \/ exists id, uploads = [MediaUpload id]))
           never)).
  { intros m w1 Htr.
    assert (Hgoal : exists uploads media_ids,
      trace w1 ++ [CreateTweet (tweet_text content) (media_ids_of m)] =
        trace w ++ uploads ++
        [CreateTweet (tweet_text content) media_ids] /\
      (uploads = [] \/ exists id, uploads = [MediaUpload id])).
    { destruct Htr as [-> | (id & ->)].
      - exists [], (media_ids_of m). split; [reflexivity | now left].
      - exists [MediaUpload id], (media_ids_of m).
        split; [now rewrite <- app_assoc | right; now exists id]. }
    apply post_bind, post_emit, post_bind, post_call.
    - intros a _. apply post_ret. exact Hgoal.
    - intros _. apply post_ret. exact Hgoal. }
  apply post_bind.
  destruct (present (image_url content)) as [image |].
  - apply upload_image_trace. intros m w1 Htr. now apply Hsend.
  - apply post_ret, Hsend. now left.
Qed.

Lemma post_to_twitter_sends_witness :
  let w := init_world (py "testing") true false in
  twitter_api w = true /\
  exists r w' uploads media_ids,
    post_to_twitter news_content online_env w = (Returned r, w') /\
    trace w' =
      trace w ++ uploads ++
      [CreateTweet (py "Hello" ++ nl ++ py "https://example.com/a")
         media_ids].
Proof.
  intros w. split; [reflexivity |].
  destruct (post_to_twitter_sends online_env w news_content eq_refl)
    as (r & w' & uploads & sent & ids & Hrun & Htr & _ & _ & Hlink & _).
  exists r, w', uploads, ids. split; [exact Hrun |].
  rewrite Htr.
  rewrite (Hlink (py "https://example.com/a") eq_refl);
    [reflexivity | discriminate | vm_compute; lia].
Defined.

(** X3: whatever the outside world does, a post generated for twitter
    gives a tweet of at most 250 characters, article link included. *)
Theorem generated_tweet_fits e w topic include_image :
  exists gc w',
    generate_content topic (py "twitter") include_image e w
    = (Returned gc, w') /\
    len (tweet_text gc) <= 250.
Proof.
  apply post_returns, generate_content_post.
  intros gc _ (content & _ & _ & Hlen & _).
  apply tweet_text_length. exact Hlen.
Qed.

(** X4: without a configured client, [post_content] returns [False] on
    every platform without calling anything outside and without touching
    the history. *)
Theorem post_content_without_client e w platform content :
  twitter_api w = false ->
  post_content platform content e w = (Returned false, w).
Proof.
  intros Hapi. unfold post_content, bind.
  destruct (PyStr.eqb platform (py "twitter")); [| reflexivity].
  unfold post_to_twitter, try_except, bind, get. now rewrite Hapi.
Qed.

Lemma post_content_without_client_witness :
  let w := init_world (py "testing") false true in
  twitter_api w = false /\
  post_content (py "twitter") sample_content online_env w
  = (Returned false, w).
Proof.
  intros w. split; [reflexivity |].
  apply (post_content_without_client online_env w _ _ eq_refl).
Defined.

(** X5: when the image is downloaded and uploaded, the tweet carries the
    media handle, also when removing the temporary file fails afterwards;
    the result is the success of that one call of [create_tweet]. *)
Theorem post_to_twitter_with_media e w content image media_id :
  twitter_api w = true ->
  present (image_url content) = Some image ->
  oauth1_api e (tick w) = Returned tt ->
  requests_get_image e (tick w + 1) image = Returned 200 ->
  write_temp_image e (tick w + 2) = Returned tt ->
  media_upload e (tick w + 3) = Returned media_id ->
  media_id <> 0%N ->
  exists w',
    post_to_twitter content e w =
      (Returned (succeeded (create_tweet e (tick w + 5) (tweet_text content)
                              (Some media_id))), w') /\
    trace w' =
      trace w ++ [MediaUpload media_id;
                  CreateTweet (tweet_text content) (Some media_id)].
Proof.
  intros Hapi Himage H0 H1 H2 H3 Hm.
  rewrite Nat.add_comm in H1, H2, H3. simpl in H1, H2, H3.
  assert (Hup : exists w1,
             upload_image image e w = (Returned (Some media_id), w1) /\
             tick w1 = tick w + 5 /\
             trace w1 = trace w ++ [MediaUpload media_id]).
  { unfold upload_image, try_except, bind, call, emit, modify, ret.
    rewrite H0. simpl. rewrite H1. simpl. rewrite H2. simpl. rewrite H3.
    simpl.
    destruct (remove_temp_image e (S (S (S (S (tick w)))))); simpl;
      eexists; (split; [reflexivity |]); simpl; split; try reflexivity; lia. }
  destruct Hup as (w1 & Hup & Htick & Htrace).
  cut (post e (post_to_twitter content) w
         (fun b w' =>
            b = succeeded (create_tweet e (tick w + 5) (tweet_text content)
                             (Some media_id)) /\
            trace w' =
              trace w ++ [MediaUpload media_id;
                          CreateTweet (tweet_text content) (Some media_id)])
         never).
  { intros H. apply post_returns in H as (b & w' & Heq & -> & Htr).
    now exists w'. }
  assert (Hids : media_ids_of (Some media_id) = Some media_id).
  { unfold media_ids_of. apply N.eqb_neq in Hm. now rewrite Hm. }
  unfold post_to_twitter.
  apply post_try, post_bind, post_get. rewrite Hapi. simpl.
  apply post_bind. rewrite Himage.
  eapply returns_post; [exact Hup |]. rewrite Hids.
  apply post_bind, post_emit, post_bind, post_call; simpl; rewrite Htick.
  - intros a Ha. apply post_ret. rewrite Ha, Htrace, <- app_assoc.
    split; reflexivity.
  - intros Ha. unfold post, ret. rewrite Ha, Htrace, <- app_assoc.
    split; reflexivity.
Qed.

Lemma post_to_twitter_with_media_witness :
  let w := init_world (py "testing") true false in
  exists w',
    post_to_twitter sample_content cleanup_fails_env w = (Returned true, w') /\
    trace w' =
      [MediaUpload 7%N; CreateTweet (py "Hello") (Some 7%N)].
Proof.
  intros w.
  destruct (post_to_twitter_with_media cleanup_fails_env w sample_content
              (py "https://images.unsplash.com/photo-1518770660439-4636190af475")
              7%N eq_refl eq_refl eq_refl eq_refl eq_refl eq_refl)
    as (w' & Hrun & Htrace); [discriminate |].
  exists w'. split; [exact Hrun | exact Htrace].
Defined.

(* ================================================================== *)
(** * More on trend discovery *)
(* ================================================================== *)

Lemma length_firstn_le {A} n (l : list A) : List.length (firstn n l) <= n.
Proof. rewrite length_firstn. lia. Qed.

Lemma length_filter_le {A} (f : A -> bool) l :
  List.length (filter f l) <= List.length l.
Proof.
  induction l as [|x l IH]; simpl; [lia |]. destruct (f x); simpl; lia.
Qed.

Lemma get_twitter_trends_short e w (Q : list str -> World -> Prop) X :
  (forall r w', List.length r <= 10 -> Q r w') ->
  post e get_twitter_trends w Q X.
Proof.
  intros HQ. unfold get_twitter_trends.
  apply post_try, post_bind, post_call.
  - intros l _. apply post_ret, HQ, length_firstn_le.
  - intros _. apply post_ret, HQ. simpl. lia.
Qed.

Lemma get_twitter_trends_v2_short e w (Q : list str -> World -> Prop) X :
  (forall r w', List.length r <= 10 -> Q r w') ->
  post e get_twitter_trends_v2 w Q X.
Proof.
  intros HQ. unfold get_twitter_trends_v2, list_of_set.
  apply post_try, post_bind, post_get.
  destruct (twitter_api w); cbn [negb]; [| apply post_ret, HQ; simpl; lia].
  apply post_bind, post_call.
  - intros data _. apply post_bind, sample_from_post; [lia |].
    intros unique w' _ _. apply post_ret, HQ, length_firstn_le.
  - intros _. apply post_ret, HQ. simpl. lia.
Qed.

Lemma get_twitter_trends_scraping_short e w
  (Q : list str -> World -> Prop) X :
  (forall r w', List.length r <= 10 -> Q r w') ->
  post e get_twitter_trends_scraping w Q X.
Proof.
  intros HQ. unfold get_twitter_trends_scraping.
  apply post_try, post_bind, post_call.
  - intros l _. apply post_ret, HQ, length_firstn_le.
  - intros _. apply post_ret, HQ. simpl. lia.
Qed.

Lemma try_method_short e current method w
  (Q : list str -> World -> Prop) X :
  List.length current <= 10 ->
  (forall w1 Q1 X1,
      (forall r w', List.length r <= 10 -> Q1 r w') ->
      post e method w1 Q1 X1) ->
  (forall r w', List.length r <= 10 -> Q r w') ->
  post e (try_method current method) w Q X.
Proof.
  intros Hc Hm HQ. unfold try_method. destruct current as [|c cs].
  - apply post_try, Hm. exact HQ.
  - apply post_ret, HQ, Hc.
Qed.

(** X6: [fetch_trends] never returns more than ten topics. *)
Theorem fetch_trends_at_most_ten e w :
  exists r w', fetch_trends e w = (Returned r, w') /\ List.length r <= 10.
Proof.
  apply post_returns. unfold fetch_trends. apply post_bind, post_get.
  assert (Hend : forall all_trends w1,
    List.length all_trends <= 10 ->
    post e
      (modify (set_trending_topics (filter keep_trend all_trends)) ;;;
       ret (filter keep_trend all_trends)) w1
      (fun r _ => List.length r <= 10) never).
  { intros all_trends w1 Hlen. apply post_bind, post_modify, post_ret.
    pose proof (length_filter_le keep_trend all_trends). lia. }
  apply post_bind.
  destruct (existsb (PyStr.eqb (py "twitter")) (platforms w)).
  - apply post_bind, try_method_short;
      [simpl; lia | intros; now apply get_twitter_trends_short |].
    intros r1 w1 H1.
    apply post_bind, try_method_short;
      [exact H1 | intros; now apply get_twitter_trends_v2_short |].
    intros r2 w2 H2.
    apply post_bind, try_method_short;
      [exact H2 | intros; now apply get_twitter_trends_scraping_short |].
    intros r3 w3 H3.
    apply post_bind. destruct r3 as [|t3 r3].
    + apply get_fallback_topics_post. intros r w4 Hlen _.
      apply post_ret. apply Hend. simpl. lia.
    + apply post_ret, post_ret. apply Hend. exact H3.
  - apply post_ret. apply Hend. simpl. lia.
Qed.

(** X7: when the first source answers with a non-empty list,
    [fetch_trends] returns the first ten of its topics that pass the
    filter, stores them as the trending topics, and consults nothing
    else. *)
Theorem fetch_trends_first_source e w trends :
  In (py "twitter") (platforms w) ->
  get_place_trends e (tick w) = Returned trends ->
  trends <> [] ->
  fetch_trends e w =
    (Returned (filter keep_trend (firstn 10 trends)),
     set_trending_topics (filter keep_trend (firstn 10 trends))
       (set_tick (S (tick w)) w)).
Proof.
  intros Hin Hcall Hne.
  assert (Ht : existsb (PyStr.eqb (py "twitter")) (platforms w) = true).
  { apply existsb_exists. exists (py "twitter").
    split; [exact Hin | apply eqb_refl]. }
  destruct trends as [|t trends]; [congruence |].
  unfold fetch_trends, bind at 1, get. rewrite Ht.
  unfold bind at 1, bind at 1, try_method at 1, try_except at 1,
    get_twitter_trends, try_except, bind at 1, call.
  rewrite Hcall. reflexivity.
Qed.

Lemma fetch_trends_first_source_witness :
  let w := init_world (py "testing") true false in
  exists w', fetch_trends online_env w = (Returned [py "#Python"], w') /\
             tick w' = 1.
Proof.
  intros w.
  assert (H := fetch_trends_first_source online_env w [py "#Python"]
                 (or_introl eq_refl) eq_refl).
  eexists. split; [apply H; discriminate | reflexivity].
Defined.

(* ------------------------------------------------------------------ *)
(** ** Sampling without replacement *)

Lemma firstn_length_app {A} (l r : list A) :
  firstn (List.length l) (l ++ r) = l.
Proof.
  replace (List.length l) with (List.length l + 0) by lia.
  rewrite firstn_app_2. simpl. apply app_nil_r.
Qed.

Lemma nth_length_app {A} (l r : list A) x d :
  nth (List.length l) (l ++ x :: r) d = x.
Proof.
  rewrite app_nth2 by lia. now rewrite Nat.sub_diag.
Qed.

Lemma nth_split {A} j (l : list A) d :
  j < List.length l ->
  l = firstn j l ++ nth j l d :: skipn (S j) l /\
  List.length (firstn j l) = j.
Proof.
  revert j. induction l as [|x l IH]; intros j Hj; simpl in Hj; [lia |].
  destruct j; [now split |].
  destruct (IH j) as [Heq Hlen]; [lia |].
  change (firstn (S j) (x :: l)) with (x :: firstn j l).
  change (nth (S j) (x :: l) d) with (nth j l d).
  change (skipn (S (S j)) (x :: l)) with (skipn (S j) l).
  split; [cbn [app]; now f_equal | cbn [List.length]; now rewrite Hlen].
Qed.

Lemma take_permutation {A} (d : A) (pool : list A) j :
  j < List.length pool ->
  Permutation
    (nth j pool d ::
     firstn (List.length pool - 1)
       (firstn j pool ++
        nth (List.length pool - 1) pool d :: skipn (S j) pool))
    pool.
Proof.
  intros Hj. destruct (nth_split j pool d Hj) as [Hsplit Hlen].
  remember (firstn j pool) as a eqn:Ha.
  remember (nth j pool d) as x eqn:Hx.
  remember (skipn (S j) pool) as c eqn:Hc.
  clear Ha Hx Hc Hlen Hj. subst pool.
  destruct c as [|c0 c1].
  - replace (List.length (a ++ [x]) - 1) with (List.length a)
      by (rewrite length_app; simpl; lia).
    rewrite nth_length_app, firstn_length_app.
    apply Permutation_cons_append.
  - destruct (@exists_last _ (c0 :: c1)) as (c' & y & Hy); [discriminate |].
    rewrite Hy.
    replace (a ++ x :: c' ++ [y]) with ((a ++ x :: c') ++ [y])
      by (now rewrite <- app_assoc).
    replace (List.length ((a ++ x :: c') ++ [y]) - 1)
      with (List.length (a ++ x :: c'))
      by (rewrite (length_app _ [y]); simpl; lia).
    rewrite nth_length_app.
    replace (a ++ y :: c' ++ [y]) with ((a ++ y :: c') ++ [y])
      by (now rewrite <- app_assoc).
    replace (List.length (a ++ x :: c')) with (List.length (a ++ y :: c'))
      by (rewrite !length_app; reflexivity).
    rewrite firstn_length_app. rewrite <- app_assoc. cbn [app].
    eapply Permutation_trans; [| apply Permutation_middle].
    apply perm_skip, Permutation_app_head.
    apply Permutation_cons_append.
Qed.

(** Taking position [j] out of the pool leaves the other elements. *)
Lemma pool_take_permutation pool j :
  j < List.length pool ->
  Permutation (nth j pool [] :: pool_take pool j) pool.
Proof. exact (take_permutation [] pool j). Qed.

(** The selection loop returns distinct elements of a pool of distinct
    elements. *)
Lemma sample_from_nodup e draw k : forall pool w
  (Q : list str -> World -> Prop) X,
  k <= List.length pool ->
  NoDup pool ->
  (forall r w',
      List.length r = k -> incl r pool -> NoDup r -> Q r w') ->
  post e (sample_from draw pool k) w Q X.
Proof.
  induction k as [|k IH]; intros pool w Q X Hk Hnd HQ; simpl.
  - apply post_ret, HQ; [reflexivity | easy | constructor].
  - assert (Hne : pool <> []) by (destruct pool; [simpl in Hk; lia | easy]).
    apply post_bind, post_ask.
    set (j := draw e (tick w) mod List.length pool).
    assert (Hj : j < List.length pool)
      by (apply Nat.mod_upper_bound; destruct pool; [congruence | easy]).
    pose proof (pool_take_permutation pool j Hj) as Hperm.
    assert (Hnd' : NoDup (nth j pool [] :: pool_take pool j)).
    { eapply Permutation_NoDup; [apply Permutation_sym, Hperm | exact Hnd]. }
    inversion Hnd' as [| ? ? Hnotin Hrest]; subst.
    apply post_bind, IH.
    + rewrite pool_take_length by assumption. lia.
    + exact Hrest.
    + intros r w' Hlen Hincl Hr. apply post_ret, HQ.
      * simpl. now rewrite Hlen.
      * intros y [<- | Hy].
        -- now apply nth_In.
        -- now apply (pool_take_incl pool j Hne), Hincl.
      * constructor; [| exact Hr]. intros Hin. apply Hnotin, Hincl, Hin.
Qed.

Lemma fallback_topic_list_nodup : NoDup fallback_topic_list.
Proof.
  unfold fallback_topic_list. cbn [map].
  repeat (constructor;
          [ intros Hin; cbn [In] in Hin;
            repeat (destruct Hin as [Hin | Hin];
                    [vm_compute in Hin; discriminate Hin |]);
            exact Hin |]).
  constructor.
Qed.

(** X8: [get_fallback_topics] never fails and returns three, four or five
    topics of the static list, no topic twice. *)
Theorem get_fallback_topics_distinct e w :
  exists r w',
    get_fallback_topics e w = (Returned r, w') /\
    3 <= List.length r <= 5 /\
    incl r fallback_topic_list /\
    NoDup r.
Proof.
  apply post_returns.
  unfold get_fallback_topics, randint, randbelow.
  apply post_bind, post_bind, post_bind, post_ask, post_ret, post_ret.
  set (k := 3 + random_draw e (tick w) mod (5 - 3 + 1)).
  assert (Hk : 3 <= k <= 5).
  { subst k. pose proof (Nat.mod_upper_bound (random_draw e (tick w)) 3).
    change (5 - 3 + 1) with 3. lia. }
  unfold random_sample.
  change (List.length fallback_topic_list) with 32.
  destruct (32 <? k) eqn:E; [apply Nat.ltb_lt in E; lia |].
  apply sample_from_nodup.
  - change (List.length fallback_topic_list) with 32. lia.
  - apply fallback_topic_list_nodup.
  - intros r w' Hlen Hincl Hr. repeat split; try assumption; lia.
Qed.

Lemma dedup_incl l : incl (dedup l) l.
Proof.
  induction l as [|x l IH]; simpl; [easy |].
  intros y [<- | Hy]; [now left |].
  right. apply filter_In in Hy as [Hy _]. now apply IH.
Qed.

Lemma dedup_nodup l : NoDup (dedup l).
Proof.
  induction l as [|x l IH]; simpl; constructor.
  - intros Hin. apply filter_In in Hin as [_ Hneq].
    now rewrite eqb_refl in Hneq.
  - now apply NoDup_filter.
Qed.

Lemma nodup_firstn {A} n (l : list A) : NoDup l -> NoDup (firstn n l).
Proof.
  revert n. induction l as [|x l IH]; intros n Hnd.
  - destruct n; constructor.
  - destruct n; simpl; constructor; inversion Hnd; subst.
    + intros Hin. now apply in_firstn in Hin.
    + now apply IH.
Qed.

Lemma tweet_topics_origin tweets t :
  In t (tweet_topics tweets) ->
  exists tweet,
    In tweet tweets /\
    (In t (split tweet) /\ startswith t (py "#") = true \/
     exists phrase,
       In phrase (split_on_from 44%N [] (lower tweet)) /\
       t = strip phrase /\ 3 < len t < 30 /\ isin (py " ") t = true).
Proof.
  intros Hin. apply in_app_or in Hin as [Hin | Hin];
    apply in_flat_map in Hin as (tweet & Htweet & Hin);
    exists tweet; (split; [exact Htweet |]).
  - left. unfold tweet_hashtags in Hin. now apply filter_In in Hin.
  - right. unfold tweet_phrases in Hin.
    apply filter_In in Hin as [Hin Hok].
    apply in_map_iff in Hin as (phrase & <- & Hphrase).
    apply andb_prop in Hok as [Hok Hspace].
    apply andb_prop in Hok as [Hlo Hhi].
    apply Nat.ltb_lt in Hlo, Hhi.
    exists phrase. repeat split; assumption.
Qed.

(** X9: [get_twitter_trends_v2] never fails and returns no topic twice.
    Without a client, or when the search raises, it returns nothing;
    otherwise it returns ten of the distinct topics found in the tweets,
    or all of them if they are fewer. Every topic it returns comes from
    one of the tweets: a white-space-delimited word of it that begins
    with [#], or the stripped form of a comma-delimited piece of its
    lower-cased text, of 4 to 29 characters and with a space in it. *)
Theorem get_twitter_trends_v2_topics e w :
  exists r w',
    get_twitter_trends_v2 e w = (Returned r, w') /\
    NoDup r /\
    List.length r =
      (if twitter_api w
       then match search_recent_tweets e (tick w) with
            | Returned tweets =>
                Nat.min 10 (List.length (dedup (tweet_topics tweets)))
            | Raised => 0
            end
       else 0) /\
    forall t, In t r ->
      exists tweets tweet,
        search_recent_tweets e (tick w) = Returned tweets /\
        In tweet tweets /\
        (In t (split tweet) /\ startswith t (py "#") = true \/
         exists phrase,
           In phrase (split_on_from 44%N [] (lower tweet)) /\
           t = strip phrase /\ 3 < len t < 30 /\ isin (py " ") t = true).
Proof.
  apply post_returns. unfold get_twitter_trends_v2, list_of_set.
  apply post_try, post_bind, post_get.
  destruct (twitter_api w); cbn [negb].
  2: { apply post_ret. repeat split; [constructor | intros t []]. }
  apply post_bind, post_call.
  - intros data Hd. rewrite Hd.
    apply post_bind, sample_from_nodup; [lia | apply dedup_nodup |].
    intros unique w' Hlen Hincl Hnd. apply post_ret.
    split; [now apply nodup_firstn |].
    split; [rewrite length_firstn, Hlen; reflexivity |].
    intros t Ht. apply in_firstn in Ht. apply Hincl, dedup_incl in Ht.
    destruct (tweet_topics_origin data t Ht) as (tweet & Htweet & Horigin).
    exists data, tweet. repeat split; assumption.
  - intros Hd. rewrite Hd. apply post_ret.
    repeat split; [constructor | intros t []].
Qed.

(* ================================================================== *)
(** * More on content generation *)
(* ================================================================== *)

Lemma post_and {A} e (m : M A) w (Q Q' : A -> World -> Prop)
  (X X' : World -> Prop) :
  post e m w Q X -> post e m w Q' X' ->
  post e m w (fun a w' => Q a w' /\ Q' a w') (fun w' => X w' /\ X' w').
Proof.
  unfold post. destruct (m e w) as [[a|] w1]; auto.
Qed.

Lemma post_types_named p : In p post_types -> exists c r, p = c :: r.
Proof.
  revert p. apply Forall_forall. unfold post_types. cbn [map].
  repeat (constructor; [eexists; eexists; reflexivity |]). constructor.
Qed.

Lemma choose_post_type_ok e pt w (Q : str -> World -> Prop) X :
  (forall p w',
      match pt with
      | Some (c :: r) => p = c :: r
      | _ => In p post_types
      end -> Q p w') ->
  post e (choose_post_type pt) w Q X.
Proof.
  intros HQ. unfold choose_post_type.
  destruct pt as [[|c r]|]; try (now apply post_ret, HQ);
    apply random_choice_post; auto; discriminate.
Qed.

Lemma article_url_for_news news_data p :
  article_url_for news_data p <> None -> p = py "news".
Proof.
  unfold article_url_for. destruct (first_article news_data); [| easy].
  destruct (PyStr.eqb p (py "news")) eqn:E; [| easy].
  intros _. now apply eqb_eq.
Qed.

Lemma image_for_ok e (include_image : bool) topic w
  (Q : option str -> World -> Prop) X :
  (forall u w',
      (if include_image
       then exists u', u = Some u' /\ In u' (image_source topic)
       else u = None) -> Q u w') ->
  post e (image_for include_image topic) w Q X.
Proof.
  intros HQ. unfold image_for. destruct include_image.
  - apply post_bind, get_relevant_image_url_post. intros u w' Hu.
    apply post_ret, HQ. now exists u.
  - now apply post_ret, HQ.
Qed.

Lemma generate_content_fallback_shape e topic platform include_image pt w
  (Q : GeneratedContent -> World -> Prop) X :
  (forall gc w' content,
      well_formed topic include_image pt gc ->
      In content
         (dict_get_or (templates topic) (post_type gc)
            (dict_get_or (templates topic) (py "informative") [])) ->
      text gc = enforce_limit (max_length platform) content ->
      Q gc w') ->
  post e (generate_content_fallback topic platform include_image pt) w Q X.
Proof.
  intros HQ. unfold generate_content_fallback.
  apply post_bind, choose_post_type_ok. intros p w1 Hp.
  apply post_bind, random_choice_post.
  { exact (templates_nonempty _ _ (templates_lookup topic p)). }
  intros content Hc.
  apply post_bind, image_for_ok. intros u w2 Hu.
  apply post_bind.
  assert (Hgc : forall news_data,
    well_formed topic include_image pt
      {| text := enforce_limit (max_length platform) content;
         image_url := u; post_type := p;
         article_url := article_url_for news_data p |}).
  { intros news_data. split; [| split].
    - unfold post_type_ok. now destruct pt as [[|c r]|].
    - unfold image_ok. now destruct include_image.
    - apply article_url_for_news. }
  destruct (PyStr.eqb p (py "news")); unfold fetch_news_for_topic;
    post_run; (eapply HQ; [apply Hgc | exact Hc | reflexivity]).
Qed.

Lemma gemini_attempt_shape e topic platform include_image p w
  (Q : GeneratedContent -> World -> Prop) (X : World -> Prop) :
  (forall gc w',
      post_type gc = p -> image_ok topic include_image gc ->
      (article_url gc <> None -> post_type gc = py "news") -> Q gc w') ->
  (forall w', X w') ->
  post e (gemini_attempt topic platform include_image p) w Q X.
Proof.
  intros HQ HX. unfold gemini_attempt.
  apply post_bind, news_for_post. intros n w1.
  apply post_bind, stat_for_post. intros s w2.
  apply post_bind, post_call; [| intros; apply HX].
  intros reply _.
  apply post_bind, image_for_ok. intros u w3 Hu. apply post_ret, HQ.
  - reflexivity.
  - unfold image_ok. now destruct include_image.
  - apply article_url_for_news.
Qed.

Lemma huggingface_attempt_shape e topic platform include_image p w
  (Q : GeneratedContent -> World -> Prop) (X : World -> Prop) :
  (forall gc w',
      post_type gc = p -> image_ok topic include_image gc ->
      (article_url gc <> None -> post_type gc = py "news") -> Q gc w') ->
  (forall w', X w') ->
  post e (huggingface_attempt topic platform include_image p) w Q X.
Proof.
  intros HQ HX. unfold huggingface_attempt.
  apply post_bind, news_for_post. intros n w1.
  apply post_bind, stat_for_post. intros s w2.
  apply post_bind, post_call; [| intros; apply HX].
  intros reply _.
  apply post_bind, add_engagement_post. intros content w3 _.
  apply post_bind, image_for_ok. intros u w4 Hu. apply post_ret, HQ.
  - reflexivity.
  - unfold image_ok. now destruct include_image.
  - apply article_url_for_news.
Qed.

Lemma chosen_post_type_ok e pt w (Q : option str -> World -> Prop) X :
  (forall c w',
      match c with
      | Some p => match pt with
                  | Some (c :: r) => p = c :: r
                  | _ => In p post_types
                  end
      | None => True
      end -> Q c w') ->
  post e (try_except (p <- choose_post_type pt ;; ret (Some p))
                     (ret None)) w Q X.
Proof.
  intros HQ. apply post_try, post_bind, choose_post_type_ok.
  intros p w1 Hp. apply post_ret, HQ. exact Hp.
Qed.

Lemma well_formed_attempt topic include_image pt p gc :
  match pt with
  | Some (c :: r) => p = c :: r
  | _ => In p post_types
  end ->
  post_type gc = p -> image_ok topic include_image gc ->
  (article_url gc <> None -> post_type gc = py "news") ->
  well_formed topic include_image pt gc.
Proof.
  intros Hp Ht Hi Ha. split; [| now split].
  unfold post_type_ok. rewrite Ht. now destruct pt as [[|c r]|].
Qed.

Lemma well_formed_chosen topic include_image pt p gc :
  match pt with
  | Some (c :: r) => p = c :: r
  | _ => In p post_types
  end ->
  well_formed topic include_image (Some p) gc ->
  well_formed topic include_image pt gc.
Proof.
  intros Hp (Ht & Hi & Ha). split; [| now split].
  unfold post_type_ok in *.
  destruct pt as [[|c r]|]; subst; try exact Ht;
    destruct (post_types_named p Hp) as (c & r & ->); now rewrite Ht.
Qed.

Lemma generate_content_gemini_shape e topic platform include_image pt w
  (Q : GeneratedContent -> World -> Prop) X :
  (forall gc w', well_formed topic include_image pt gc -> Q gc w') ->
  post e (generate_content_gemini topic platform include_image pt) w Q X.
Proof.
  intros HQ.
  assert (Hfb : forall w1 X1,
    post e (generate_content_fallback topic platform include_image pt)
         w1 Q X1).
  { intros. apply generate_content_fallback_shape. intros. now apply HQ. }
  unfold generate_content_gemini.
  apply post_bind, post_get. destruct (gemini_model w); simpl.
  - apply post_bind, chosen_post_type_ok. intros [p|] w1 Hp.
    + apply post_try, gemini_attempt_shape.
      * intros gc w' Ht Hi Ha. apply HQ.
        now apply (well_formed_attempt topic include_image pt p).
      * intros. apply generate_content_fallback_shape. intros gc w2 c Hw _ _.
        apply HQ. now apply (well_formed_chosen topic include_image pt p).
    + apply Hfb.
  - apply post_try; apply Hfb.
Qed.

Lemma generate_content_huggingface_shape e topic platform include_image
  pt w (Q : GeneratedContent -> World -> Prop) X :
  (forall gc w', well_formed topic include_image pt gc -> Q gc w') ->
  post e (generate_content_huggingface topic platform include_image pt)
       w Q X.
Proof.
  intros HQ. unfold generate_content_huggingface.
  apply post_bind, chosen_post_type_ok. intros [p|] w1 Hp.
  - apply post_try, huggingface_attempt_shape.
    + intros gc w' Ht Hi Ha. apply HQ.
      now apply (well_formed_attempt topic include_image pt p).
    + intros. apply generate_content_fallback_shape. intros gc w2 c Hw _ _.
      apply HQ. now apply (well_formed_chosen topic include_image pt p).
  - apply generate_content_fallback_shape. intros. now apply HQ.
Qed.

(** X10: every post that [generate_content] returns has one of the seven
    post types, carries an image exactly when one was asked for, taken
    from the list that the topic selects in the image table, and carries
    an article link only if it is a news post. *)
Theorem generate_content_well_formed e w topic platform include_image :
  exists gc w',
    generate_content topic platform include_image e w = (Returned gc, w') /\
    In (post_type gc) post_types /\
    image_ok topic include_image gc /\
    (article_url gc <> None -> post_type gc = py "news").
Proof.
  apply post_returns. unfold generate_content, attempt.
  apply post_bind, random_choice_post; [discriminate |]. intros p Hp.
  assert (Hwf : forall gc,
    well_formed topic include_image (Some p) gc ->
    In (post_type gc) post_types /\
    image_ok topic include_image gc /\
    (article_url gc <> None -> post_type gc = py "news")).
  { intros gc (Ht & Hi & Ha). split; [| now split].
    unfold post_type_ok in Ht.
    destruct (post_types_named p Hp) as (c & r & ->). now rewrite Ht. }
  apply post_bind, post_get, post_bind, post_getenv, post_bind.
  assert (Hrest : forall w1,
    post e
      (huggingface_key <- getenv getenv_HUGGINGFACE_API_KEY ;;
       second <-
         (if huggingface_key
          then try_except
                 (c <- generate_content_huggingface topic platform
                         include_image (Some p) ;; ret (Some c))
                 (ret None)
          else ret None) ;;
       match second with
       | Some c => ret c
       | None =>
           generate_content_fallback topic platform include_image (Some p)
       end) w1
      (fun gc _ =>
         In (post_type gc) post_types /\
         image_ok topic include_image gc /\
         (article_url gc <> None -> post_type gc = py "news")) never).
  { intros w1. apply post_bind, post_getenv, post_bind.
    destruct (getenv_HUGGINGFACE_API_KEY e).
    - apply post_try, post_bind, generate_content_huggingface_shape.
      intros gc w2 Hgc. apply post_ret, post_ret. now apply Hwf.
    - apply post_ret. apply generate_content_fallback_shape.
      intros gc w2 c Hgc _ _. now apply Hwf. }
  destruct (gemini_model _ && getenv_GOOGLE_API_KEY e).
  - apply post_try, post_bind, generate_content_gemini_shape.
    intros gc w1 Hgc. apply post_ret, post_ret. now apply Hwf.
  - apply post_ret. apply Hrest.
Qed.

Lemma dict_get_key {V} (d : list (str * V)) k :
  In k (map fst d) -> exists v, dict_get d k = Some v.
Proof.
  induction d as [|[k' v'] d IH]; simpl; [easy |].
  intros [-> | Hin].
  - rewrite eqb_refl. now exists v'.
  - destruct (PyStr.eqb k' k); [now exists v' | now apply IH].
Qed.

Lemma templates_for_type topic p :
  In p post_types -> exists tl, dict_get (templates topic) p = Some tl.
Proof. intros Hp. apply dict_get_key. exact Hp. Qed.

Lemma enforce_limit_nonempty platform content :
  content <> [] -> enforce_limit (max_length platform) content <> [].
Proof.
  intros Hc. unfold enforce_limit.
  destruct (max_length platform <? len content); [| exact Hc].
  intros H. apply app_eq_nil in H as [_ H]. discriminate H.
Qed.

Lemma generate_content_static_post e w topic platform include_image
  (Q : GeneratedContent -> World -> Prop) X :
  no_model_available e w ->
  (forall gc w' type_templates content,
      In (post_type gc) post_types ->
      dict_get (templates topic) (post_type gc) = Some type_templates ->
      In content type_templates ->
      text gc = enforce_limit (max_length platform) content ->
      text gc <> [] ->
      Q gc w') ->
  post e (generate_content topic platform include_image) w Q X.
Proof.
  intros [Hgemini Hkey] HQ.
  unfold generate_content, attempt.
  apply post_bind, random_choice_post; [discriminate |]. intros p Hp.
  apply post_bind, post_get, post_bind, post_getenv, post_bind.
  assert (Hoff : gemini_model (set_tick (S (tick w)) w) &&
                 getenv_GOOGLE_API_KEY e = false).
  { simpl. destruct Hgemini as [-> | ->]; [reflexivity | apply andb_false_r]. }
  rewrite Hoff. apply post_ret, post_bind, post_getenv. rewrite Hkey.
  apply post_bind, post_ret.
  apply generate_content_fallback_shape.
  intros gc w' content (Ht & _) Hc Htext.
  destruct (post_types_named p Hp) as (c0 & r0 & ->).
  unfold post_type_ok in Ht.
  destruct (templates_for_type topic _ Hp) as [tl Htl].
  rewrite Ht in Hc. unfold dict_get_or at 1 in Hc. rewrite Htl in Hc.
  apply (HQ gc w' tl content).
  - rewrite Ht. exact Hp.
  - rewrite Ht. exact Htl.
  - exact Hc.
  - exact Htext.
  - rewrite Htext. apply enforce_limit_nonempty.
    assert (Hq : isin (py "?") content = true).
    { eapply (templates_engaging topic tl content); [| exact Hc].
      eapply dict_get_In; eassumption. }
    intros ->. discriminate Hq.
Qed.

(** X11: when neither model-backed strategy can be tried (no Gemini
    model or no Google key, and no Hugging Face key), [generate_content]
    still returns a post: its type is one of the seven, and its text is
    not empty and is the limit check applied to one of the two templates
    of that type. *)
Theorem generate_content_static e w topic platform include_image :
  no_model_available e w ->
  exists gc w' type_templates content,
    generate_content topic platform include_image e w = (Returned gc, w') /\
    In (post_type gc) post_types /\
    dict_get (templates topic) (post_type gc) = Some type_templates /\
    In content type_templates /\
    text gc = enforce_limit (max_length platform) content /\
    text gc <> [].
Proof.
  intros Hno.
  cut (post e (generate_content topic platform include_image) w
         (fun gc _ =>
            exists type_templates content,
              In (post_type gc) post_types /\
              dict_get (templates topic) (post_type gc) = Some type_templates /\
              In content type_templates /\
              text gc = enforce_limit (max_length platform) content /\
              text gc <> []) never).
  { intros H. apply post_returns in H as (gc & w' & Hrun & tl & c & H).
    now exists gc, w', tl, c. }
  apply generate_content_static_post; [exact Hno |].
  intros gc w' tl c H1 H2 H3 H4 H5. now exists tl, c.
Qed.

Lemma generate_content_static_witness :
  let w := init_world (py "testing") false false in
  no_model_available keyless_env w /\
  exists gc w',
    generate_content (py "AI ethics") (py "twitter") true keyless_env w
    = (Returned gc, w') /\
    text gc <> [].
Proof.
  intros w.
  assert (H : no_model_available keyless_env w)
    by (split; [now left | reflexivity]).
  split; [exact H |].
  destruct (generate_content_static keyless_env w (py "AI ethics")
              (py "twitter") true H)
    as (gc & w' & tl & c & Hrun & _ & _ & _ & _ & Hne).
  exists gc, w'. split; [exact Hrun | exact Hne].
Defined.

Section SameRun.
Variables e e' : Env.
Context {A B : Type}.

Lemma same_run_ret (a : A) : same_run e e' (ret a).
Proof. intros w. reflexivity. Qed.

Lemma same_run_raise : same_run e e' (@raise A).
Proof. intros w. reflexivity. Qed.

Lemma same_run_get (f : World -> A) : same_run e e' (get f).
Proof. intros w. reflexivity. Qed.

Lemma same_run_ask (f : Env -> nat -> A) :
  (forall t, f e' t = f e t) -> same_run e e' (ask f).
Proof. intros H w. unfold ask. now rewrite H. Qed.

Lemma same_run_call (f : Env -> nat -> outcome A) :
  (forall t, f e' t = f e t) -> same_run e e' (call f).
Proof. intros H w. unfold call. now rewrite H. Qed.

Lemma same_run_bind (m : M A) (k : A -> M B) :
  same_run e e' m -> (forall a, same_run e e' (k a)) ->
  same_run e e' (bind m k).
Proof.
  intros Hm Hk w. unfold bind. rewrite Hm.
  destruct (m e w) as [[a|] w1]; [apply Hk | reflexivity].
Qed.

Lemma same_run_try (m h : M A) :
  same_run e e' m -> same_run e e' h -> same_run e e' (try_except m h).
Proof.
  intros Hm Hh w. unfold try_except. rewrite Hm.
  destruct (m e w) as [[a|] w1]; [reflexivity | apply Hh].
Qed.
End SameRun.

Create HintDb same_run.

#[export] Hint Resolve same_run_ret same_run_raise same_run_get : same_run.

(** Goes through a computation; a consultation is the same in both
    worlds when the two oracles are the same function. *)
Ltac same_run_go :=
  repeat first
    [ solve [auto with same_run]
    | apply same_run_bind; [| intro]
    | apply same_run_try
    | apply same_run_ask; intro; reflexivity
    | apply same_run_call; intro; reflexivity
    | match goal with
      | |- same_run _ _ (if ?b then _ else _) => destruct b
      | |- same_run _ _ (match ?x with _ => _ end) => destruct x
      | |- same_run _ _ (let (_, _) := ?x in _) => destruct x
      end ].

(** With Gemini configured the chain is the random choice of a post type
    followed by [generate_content_gemini]. *)
Lemma generate_content_configured e w topic platform include_image :
  gemini_model w = true ->
  getenv_GOOGLE_API_KEY e = true ->
  generate_content topic platform include_image e w =
  match random_choice post_types e w with
  | (Returned p, w1) =>
      generate_content_gemini topic platform include_image (Some p) e w1
  | (Raised, w1) => (Raised, w1)
  end.
Proof.
  intros Hmodel Hkey.
  unfold generate_content. unfold bind at 1.
  pose proof (keeps_random_choice e post_types w) as Hk.
  destruct (random_choice post_types e w) as [[p|] w1]; [| reflexivity].
  assert (Hw1 : gemini_model w1 = true).
  { unfold agent_kept, kept_part in Hk. injection Hk as _ _ _ Hg _.
    congruence. }
  unfold bind at 1, get. rewrite Hw1.
  unfold bind at 1, getenv. rewrite Hkey. cbn [andb].
  unfold bind at 1, attempt, try_except, bind at 1.
  destruct (post_returns e
              (generate_content_gemini topic platform include_image (Some p))
              w1 (fun _ _ => True)) as (gc & w2 & H & _).
  { apply generate_content_gemini_post. auto. }
  rewrite H. reflexivity.
Qed.

Section SkipsHuggingface.
Variable e : Env.
Variable key : bool.
Variable backend : nat -> str -> outcome (option str).

Let e' := with_huggingface e key backend.

Lemma same_run_random_choice {A} (l : list A) :
  same_run e e' (random_choice l).
Proof. unfold random_choice, randbelow. same_run_go. Qed.

Hint Resolve same_run_random_choice : same_run.

Lemma same_run_image_for include_image topic :
  same_run e e' (image_for include_image topic).
Proof. unfold image_for, get_relevant_image_url. same_run_go. Qed.

Lemma same_run_choose_post_type pt : same_run e e' (choose_post_type pt).
Proof. unfold choose_post_type. same_run_go. Qed.

Lemma same_run_news_for topic p : same_run e e' (news_for topic p).
Proof. unfold news_for, fetch_news_for_topic. same_run_go. Qed.

Lemma same_run_stat_for topic p : same_run e e' (stat_for topic p).
Proof. unfold stat_for, get_stats_for_topic. same_run_go. Qed.

Hint Resolve same_run_image_for same_run_choose_post_type
  same_run_news_for same_run_stat_for : same_run.

Lemma same_run_fallback topic platform include_image pt :
  same_run e e'
    (generate_content_fallback topic platform include_image pt).
Proof.
  unfold generate_content_fallback, fetch_news_for_topic. same_run_go.
Qed.

Hint Resolve same_run_fallback : same_run.

Lemma same_run_gemini topic platform include_image pt :
  same_run e e' (generate_content_gemini topic platform include_image pt).
Proof.
  unfold generate_content_gemini, gemini_attempt. same_run_go.
Qed.

(** X12: once the Gemini model and its key are configured, strategy B is
    never consulted, not even when Gemini fails: the result of
    [generate_content] is the same whatever the Hugging Face key and
    backend are. *)
Theorem generate_content_skips_huggingface w topic platform include_image :
  gemini_model w = true ->
  getenv_GOOGLE_API_KEY e = true ->
  generate_content topic platform include_image
    (with_huggingface e key backend) w
  = generate_content topic platform include_image e w.
Proof.
  intros Hmodel Hkey. fold e'.
  rewrite !generate_content_configured by assumption.
  rewrite (same_run_random_choice post_types w).
  destruct (random_choice post_types e w) as [[p|] w1]; [| reflexivity].
  apply same_run_gemini.
Qed.
End SkipsHuggingface.

Lemma generate_content_skips_huggingface_witness :
  let w := init_world (py "testing") true true in
  gemini_model w = true /\
  getenv_GOOGLE_API_KEY online_env = true /\
  generate_content (py "AI ethics") (py "twitter") true
    (with_huggingface online_env false (fun _ _ => Raised)) w
  = generate_content (py "AI ethics") (py "twitter") true online_env w.
Proof.
  intros w. split; [reflexivity | split; [reflexivity |]].
  apply (generate_content_skips_huggingface online_env false
           (fun _ _ => Raised) w _ _ _ eq_refl eq_refl).
Defined.

(* ------------------------------------------------------------------ *)
(** ** Trying the generator out *)

Lemma keeps_test_post_creation e test_topic :
  keeps e (test_post_creation test_topic).
Proof. unfold test_post_creation. keeps_run. Qed.

Lemma keeps_kept {A} e (m : M A) w r w' :
  keeps e m -> m e w = (r, w') -> agent_kept w w'.
Proof. intros Hk Hrun. specialize (Hk w). now rewrite Hrun in Hk. Qed.

Lemma test_topic_post e test_topic w (Q : str -> World -> Prop) X :
  (forall t w', Q t w') ->
  post e
    (match test_topic with
     | Some (c :: r) => ret (c :: r)
     | _ =>
         random_choice
           (map py ["AI technology"; "productivity tips";
                    "health and wellness"]%string)
     end) w Q X.
Proof.
  intros HQ. destruct test_topic as [[|c r]|];
    try (apply post_ret, HQ);
    apply random_choice_post; try discriminate; intros; apply HQ.
Qed.

(** X13: [test_post_creation] never fails and never posts, saves or
    schedules anything. It reports success exactly when the text that
    was generated is not empty, and the content it then hands back has a
    text of at most 250 characters. *)
Theorem test_post_creation_report e w test_topic :
  exists r w',
    test_post_creation test_topic e w = (Returned r, w') /\
    agent_kept w w' /\
    ((status r = py "success" /\
      exists gc topic,
        tested_content r = Some gc /\ tested_topic r = Some topic /\
        text gc <> [] /\ len (text gc) <= 250) \/
     (status r = py "error" /\ tested_content r = None)).
Proof.
  cut (post e (test_post_creation test_topic) w
         (fun r _ =>
            (status r = py "success" /\
             exists gc topic,
               tested_content r = Some gc /\ tested_topic r = Some topic /\
               text gc <> [] /\ len (text gc) <= 250) \/
            (status r = py "error" /\ tested_content r = None)) never).
  { intros H. apply post_returns in H as (r & w' & Hrun & H).
    exists r, w'. split; [exact Hrun | split; [| exact H]].
    exact (keeps_kept e _ w _ w' (keeps_test_post_creation e test_topic) Hrun). }
  unfold test_post_creation. apply post_try, post_bind.
  apply test_topic_post. intros topic w1.
  apply post_bind, generate_content_post.
  intros gc w2 (content & _ & _ & Hlen & _).
  destruct (text gc) as [|c r] eqn:Htext; apply post_ret.
  - right. now split.
  - left. split; [reflexivity |]. exists gc, topic.
    repeat split; [now rewrite Htext | rewrite Htext; exact Hlen].
Qed.

(** X14: when neither model-backed strategy can be tried,
    [test_post_creation] always reports success: a static template is
    never empty. *)
Theorem test_post_creation_static e w test_topic :
  no_model_available e w ->
  exists r w',
    test_post_creation test_topic e w = (Returned r, w') /\
    status r = py "success".
Proof.
  intros Hno. apply post_returns.
  assert (Hgen : forall topic w1,
    no_model_available e w1 ->
    post e
      (content <- generate_content topic (py "twitter") true ;;
       match text content with
       | _ :: _ =>
           ret {| status := py "success";
                  message := py "Content generated successfully";
                  tested_content := Some content;
                  tested_topic := Some topic |}
       | [] =>
           ret {| status := py "error";
                  message := py "Failed to generate content";
                  tested_content := None;
                  tested_topic := None |}
       end) w1 (fun r _ => status r = py "success")
      (fun w2 =>
         post e
           (ret {| status := py "error";
                   message := py "Content generation failed";
                   tested_content := None;
                   tested_topic := None |}) w2
           (fun r _ => status r = py "success") never)).
  { intros topic w1 Hno1.
    apply post_bind, generate_content_static_post; [exact Hno1 |].
    intros gc w2 tl c _ _ _ _ Hne.
    destruct (text gc); [congruence | now apply post_ret]. }
  unfold test_post_creation. apply post_try, post_bind.
  destruct test_topic as [[|c r]|];
    try (apply post_ret; now apply Hgen);
    apply random_choice_post; try discriminate; intros topic _;
    now apply Hgen.
Qed.

Lemma test_post_creation_static_witness :
  let w := init_world (py "testing") false false in
  no_model_available keyless_env w /\
  exists r w',
    test_post_creation None keyless_env w = (Returned r, w') /\
    status r = py "success".
Proof.
  intros w.
  assert (H : no_model_available keyless_env w)
    by (split; [now left | reflexivity]).
  split; [exact H | exact (test_post_creation_static keyless_env w None H)].
Defined.

Lemma keeps_manager_test_full_post_cycle e :
  keeps e manager_test_full_post_cycle.
Proof. unfold manager_test_full_post_cycle. keeps_run. Qed.

(** X15: the simulated post cycle of the manager never fails and never
    posts, saves or schedules anything; with an agent it always ends with
    a generated content, of at most 250 characters, and without an agent
    it generates nothing. *)
Theorem manager_test_full_post_cycle_simulates e w :
  exists r w',
    manager_test_full_post_cycle e w = (Returned r, w') /\
    agent_kept w w' /\
    (manager_agent w = true ->
     exists gc, r = Some gc /\ len (text gc) <= 250) /\
    (manager_agent w = false -> r = None).
Proof.
  cut (post e manager_test_full_post_cycle w
         (fun r _ =>
            (manager_agent w = true ->
             exists gc, r = Some gc /\ len (text gc) <= 250) /\
            (manager_agent w = false -> r = None)) never).
  { intros H. apply post_returns in H as (r & w' & Hrun & H).
    exists r, w'. split; [exact Hrun | split; [| exact H]].
    exact (keeps_kept e _ w _ w' (keeps_manager_test_full_post_cycle e) Hrun). }
  unfold manager_test_full_post_cycle. apply post_bind, post_get.
  destruct (manager_agent w); cbn [negb].
  - apply post_try, post_bind.
    eapply post_conseq; [apply fetch_trends_post | | intros w1 []].
    2: { intros a w1 H. exact H. }
    intros trends w1 _ _ _.
    assert (Hgen : forall topic w2,
      post e
        (content <- generate_content topic (py "twitter") true ;;
         ret (Some content)) w2
        (fun r _ =>
           (true = true -> exists gc, r = Some gc /\ len (text gc) <= 250) /\
           (true = false -> r = None))
        (fun w3 =>
           post e (ret None) w3
             (fun r _ =>
                (true = true ->
                 exists gc, r = Some gc /\ len (text gc) <= 250) /\
                (true = false -> r = None)) never)).
    { intros topic w2. apply post_bind, generate_content_post.
      intros gc w3 (content & _ & _ & Hlen & _). apply post_ret.
      split; [intros _; now exists gc | discriminate]. }
    apply post_bind. destruct trends as [|t trends].
    + apply get_fallback_topics_post. intros r w2 Hlen _.
      apply post_bind, random_choice_post.
      * destruct r; [simpl in Hlen; lia | discriminate].
      * intros topic _. apply Hgen.
    + apply post_ret, post_bind, random_choice_post; [discriminate |].
      intros topic _. apply Hgen.
  - apply post_ret. split; [discriminate | reflexivity].
Qed.

(* ================================================================== *)
(** * The daily routine *)
(* ================================================================== *)

Lemma post_content_history e platform content w
  (Q : bool -> World -> Prop) :
  (forall b w',
      posted_content w' = posted_content w \/
      (platform = py "twitter" /\
       exists timestamp,
         posted_content w' =
           posted_content w ++ [record_of platform content timestamp]) ->
      Q b w') ->
  post e (post_content platform content) w Q never.
Proof.
  intros HQ. unfold post_content. apply post_bind.
  destruct (PyStr.eqb platform (py "twitter")) eqn:Hp.
  - apply eqb_eq in Hp.
    apply post_to_twitter_untouched. intros b w1 (Hh & _). destruct b.
    + apply post_bind, post_ask, post_bind, post_modify, post_bind.
      apply save_posted_content_post. intros w2 H2 _ _. apply post_ret, HQ.
      right. split; [exact Hp |].
      exists (now_isoformat e (tick w1)). rewrite H2. simpl. now rewrite Hh.
    + apply post_ret, HQ. now left.
  - apply post_ret, post_ret, HQ. now left.
Qed.

Lemma post_any {A} e (m : M A) w (Q : A -> World -> Prop) X :
  post e m w Q never -> post e m w Q X.
Proof. intros H. eapply post_conseq; [exact H | auto | intros w' []]. Qed.

(** The loop of [run_daily_post] over the platforms. *)
Lemma daily_loop e selected ps : forall w1 (Q : unit -> World -> Prop),
  (forall w2 new,
      posted_content w2 = posted_content w1 ++ new ->
      List.length new <= List.length ps ->
      (forall r, In r new -> tweet_record r) ->
      Q tt w2) ->
  post e
    (for_each ps
       (fun platform =>
          try_except
            (content <- generate_content selected platform true ;;
             _success <- post_content platform content ;;
             emit (Sleep 2))
            (ret tt))) w1 Q never.
Proof.
  induction ps as [|platform ps IH]; intros w1 Q HQ; simpl.
  - apply post_ret, (HQ w1 []); [now rewrite app_nil_r | simpl; lia | easy].
  - apply post_bind, post_try, post_bind.
    apply post_keeps; [apply keeps_generate_content |].
    apply generate_content_post.
    intros gc w2 (content & _ & _ & Hlen & _) Hkept.
    assert (Hh2 : posted_content w2 = posted_content w1).
    { unfold agent_kept, kept_part in Hkept. injection Hkept as _ _ _ _ _ H.
      intros. congruence. }
    apply post_bind, post_any, post_content_history.
    intros b w3 H3. apply post_emit, IH.
    intros w4 new H4 Hn Hnew. simpl in H4.
    destruct H3 as [H3 | (Hp & ts & H3)].
    + apply (HQ w4 new); [congruence | simpl; lia | exact Hnew].
    + apply (HQ w4 (record_of platform gc ts :: new)).
      * rewrite H4, H3, Hh2, <- app_assoc. reflexivity.
      * simpl. lia.
      * intros r [<- | Hr]; [| now apply Hnew].
        split; [exact Hp |]. simpl. subst platform. exact Hlen.
Qed.

(** X16: [run_daily_post] never fails, and it extends the history by at
    most one record per platform; every record it adds is a twitter
    record whose text has at most 250 characters. *)
Theorem run_daily_post_history e w :
  exists w' new,
    run_daily_post e w = (Returned tt, w') /\
    posted_content w' = posted_content w ++ new /\
    List.length new <= List.length (platforms w) /\
    forall r, In r new -> tweet_record r.
Proof.
  cut (post e run_daily_post w
         (fun _ w' =>
            exists new,
              posted_content w' = posted_content w ++ new /\
              List.length new <= List.length (platforms w) /\
              forall r, In r new -> tweet_record r) never).
  { intros H. apply post_returns_tt in H as (w' & Hrun & new & H).
    now exists w', new. }
  unfold run_daily_post.
  apply post_bind, post_ask, post_bind, post_modify, post_bind.
  apply post_keeps; [apply keeps_fetch_trends |].
  eapply post_conseq; [apply fetch_trends_post | | intros w1 []].
  2: { intros a w1 H. exact H. }
  intros trends w1 _ _ _ Hkept1.
  apply post_bind, random_choice_post.
  { destruct trends; discriminate. }
  intros selected _. apply post_bind, post_get, post_bind.
  assert (Hp : platforms w1 = platforms w /\
               posted_content w1 = posted_content w).
  { unfold agent_kept, kept_part in Hkept1. simpl in Hkept1.
    injection Hkept1 as _ _ _ _ H5 H6. intros. split; congruence. }
  destruct Hp as [Hp Hh]. simpl. rewrite Hp.
  apply daily_loop. intros w2 new H2 Hn Hnew.
  apply post_bind, post_ask, post_ret.
  exists new. simpl in *. repeat split; [congruence | exact Hn | |];
    now apply Hnew.
Qed.

(* ================================================================== *)
(** * The quality check *)
(* ================================================================== *)

(** X17: [check_content_quality] reports as many suggestions as issues,
    at most four of them, and a score of ten minus the number of issues,
    so between 6 and 10. *)
Theorem check_content_quality_score content :
  let report := check_content_quality content in
  List.length (suggestions report) = List.length (issues report) /\
  List.length (issues report) <= 4 /\
  quality_score report = 10 - List.length (issues report) /\
  6 <= quality_score report <= 10.
Proof.
  unfold check_content_quality, flag. cbv zeta.
  destruct (len content <? 50);
    destruct (negb (isin (py "?") content) && negb (has_call_to_action content));
    destruct (negb (isin (py "#") content));
    destruct (negb (has_emoji_char content));
    cbn [fst snd issues suggestions quality_score List.length app Nat.leb
         Nat.sub];
    repeat split; lia.
Qed.

Lemma check_content_quality_perfect content :
  50 <= len content ->
  isin (py "?") content = true ->
  isin (py "#") content = true ->
  has_emoji_char content = true ->
  issues (check_content_quality content) = [] /\
  quality_score (check_content_quality content) = 10.
Proof.
  intros Hlen Hq Hh He. unfold check_content_quality, flag. cbv zeta.
  assert (E : (len content <? 50) = false) by (apply Nat.ltb_ge; exact Hlen).
  rewrite E, Hq, Hh, He. split; reflexivity.
Qed.

Lemma has_emoji_char_head c rest :
  isin [c] emoji_chars = true -> has_emoji_char (c :: rest) = true.
Proof. intros H. unfold has_emoji_char. cbn [existsb]. now rewrite H. Qed.

(** Replaces the length of each literal by its value. *)
Ltac literal_lengths :=
  repeat match goal with
         | |- context [List.length (py ?s)] =>
             let n := eval vm_compute in (List.length (py s)) in
             change (List.length (py s)) with n
         end.

(** X18: every static template, whatever the topic, passes the quality
    check without an issue and scores 10. *)
Theorem templates_score_ten topic :
  Forall
    (Forall (fun content =>
               issues (check_content_quality content) = [] /\
               quality_score (check_content_quality content) = 10))
    (map snd (templates topic)).
Proof.
  unfold templates. cbv zeta. cbn [map snd].
  repeat (constructor;
          [ repeat (constructor;
                    [ apply check_content_quality_perfect;
                      [ unfold len; cbn [app List.length];
                        rewrite !length_app; literal_lengths; lia
                      | find_isin
                      | find_isin
                      | cbn [app]; apply has_emoji_char_head;
                        vm_compute; reflexivity ]
                    |]);
            constructor
          |]).
  constructor.
Qed.

Lemma isin_single c s : isin [c] s = true -> In c s.
Proof.
  induction s as [|x s IH]; simpl; [discriminate |].
  intros H. apply orb_true_iff in H as [H | H].
  - left. apply andb_true_iff in H as [H _]. apply N.eqb_eq in H. congruence.
  - right. now apply IH.
Qed.

Lemma emoji_chars_range c :
  In c emoji_chars -> (160 <= c <= 8482)%N.
Proof.
  assert (H : forallb (fun x => andb (160 <=? x)%N (x <=? 8482)%N)
                emoji_chars = true) by (vm_compute; reflexivity).
  intros Hin. rewrite forallb_forall in H. specialize (H c Hin).
  apply andb_true_iff in H as [H1 H2].
  apply N.leb_le in H1, H2. lia.
Qed.

(** X19: the characters that count as emoji all lie between U+00A0 and
    U+2122, so a content made of ASCII characters and of emoji proper
    (code points above U+2122) is always reported as having no visual
    elements. *)
Theorem check_content_quality_misses_emoji content :
  (forall c, In c content -> (c < 160 \/ 8482 < c)%N) ->
  In (py "No visual elements") (issues (check_content_quality content)).
Proof.
  intros Hrange.
  assert (He : has_emoji_char content = false).
  { unfold has_emoji_char.
    destruct (existsb (fun c => isin [c] emoji_chars) content) eqn:E;
      [| reflexivity].
    apply existsb_exists in E as (c & Hc & Hin).
    apply isin_single, emoji_chars_range in Hin.
    destruct (Hrange c Hc); lia. }
  unfold check_content_quality. cbv zeta. rewrite He.
  cbn [negb flag fst issues]. apply in_or_app. right. now left.
Qed.

Lemma check_content_quality_misses_emoji_witness :
  let content := py "Great news " ++ [128512%N] in
  (forall c, In c content -> (c < 160 \/ 8482 < c)%N) /\
  In (py "No visual elements") (issues (check_content_quality content)).
Proof.
  intros content.
  assert (H : forall c, In c content -> (c < 160 \/ 8482 < c)%N).
  { intros c Hc. vm_compute in Hc.
    repeat (destruct Hc as [<- | Hc]; [lia |]). destruct Hc. }
  split; [exact H | exact (check_content_quality_misses_emoji content H)].
Defined.

(* ================================================================== *)
(** * More on the scheduler *)
(* ================================================================== *)

(** The world that [run_production_mode] leaves in production mode. *)
Lemma run_production_mode_world e w :
  mode w = py "production" ->
  (forall u t,
      In t (py "23:00" :: weekday_times w ++ weekend_times w) ->
      schedule_accepts e u t = true) ->
  run_production_mode e w =
    (Returned true,
     set_trace (trace w ++ [ThreadStart])
       (set_jobs
          (flat_map weekday_jobs (weekday_times w) ++
           flat_map weekend_jobs (weekend_times w) ++ [analytics_job])
          (set_is_running true w))).
Proof.
  intros Hmode Hacc.
  cut (post e run_production_mode w
         (fun b w' =>
            b = true /\
            w' = set_trace (trace w ++ [ThreadStart])
                   (set_jobs
                      (flat_map weekday_jobs (weekday_times w) ++
                       flat_map weekend_jobs (weekend_times w) ++
                       [analytics_job])
                      (set_is_running true w)))
         never).
  { intros H. apply post_returns in H as (b & w' & Hrun & -> & ->).
    exact Hrun. }
  unfold run_production_mode.
  apply post_bind, post_get. rewrite Hmode, eqb_refl. cbn [negb].
  apply post_bind, post_modify, post_bind.
  unfold schedule_clear. apply post_modify, post_bind, post_get, post_bind.
  eapply returns_post;
    [apply register_weekdays; intros; apply Hacc; right; apply in_or_app;
     now left |].
  apply post_bind, post_get, post_bind.
  eapply returns_post;
    [apply register_weekends; intros; apply Hacc; right; apply in_or_app;
     now right |].
  apply post_bind.
  eapply returns_post;
    [apply register_accepted; apply Hacc; now left |].
  apply post_bind, post_emit, post_ret. simpl.
  rewrite <- app_assoc. split; reflexivity.
Qed.

(** X20: starting production mode again, with or without a stop in
    between, never piles up jobs: the schedule after the second start is
    the schedule after the first. *)
Theorem run_production_mode_again e w :
  mode w = py "production" ->
  (forall u t,
      In t (py "23:00" :: weekday_times w ++ weekend_times w) ->
      schedule_accepts e u t = true) ->
  exists w1 w2 w3,
    run_production_mode e w = (Returned true, w1) /\
    run_production_mode e w1 = (Returned true, w2) /\
    (stop_production_mode ;;; run_production_mode) e w1
      = (Returned true, w3) /\
    jobs w2 = jobs w1 /\ jobs w3 = jobs w1.
Proof.
  intros Hmode Hacc.
  pose proof (run_production_mode_world e w Hmode Hacc) as H1.
  set (w1 := set_trace (trace w ++ [ThreadStart])
               (set_jobs
                  (flat_map weekday_jobs (weekday_times w) ++
                   flat_map weekend_jobs (weekend_times w) ++ [analytics_job])
                  (set_is_running true w))) in *.
  pose proof (run_production_mode_world e w1 Hmode Hacc) as H2.
  pose proof (run_production_mode_world e
                (set_jobs [] (set_is_running false w1)) Hmode Hacc) as H3.
  eexists w1, _, _. split; [exact H1 | split; [exact H2 | split]].
  - unfold bind, stop_production_mode, schedule_clear, bind, modify.
    exact H3.
  - split; reflexivity.
Qed.

Lemma run_production_mode_again_witness :
  let w := init_world (py "production") true true in
  exists w1 w2,
    run_production_mode online_env w = (Returned true, w1) /\
    run_production_mode online_env w1 = (Returned true, w2) /\
    scheduled_jobs w2 = 22.
Proof.
  intros w.
  assert (Hacc : forall u t,
             In t (py "23:00" :: weekday_times w ++ weekend_times w) ->
             schedule_accepts online_env u t = true).
  { intros u t Hin. simpl in Hin.
    repeat (destruct Hin as [<- | Hin]; [reflexivity |]).
    destruct Hin. }
  destruct (run_production_mode_again online_env w eq_refl Hacc)
    as (w1 & w2 & w3 & H1 & H2 & _ & Hj & _).
  exists w1, w2. split; [exact H1 | split; [exact H2 |]].
  unfold scheduled_jobs. rewrite Hj.
  rewrite (run_production_mode_world online_env w eq_refl Hacc) in H1.
  injection H1 as <-. reflexivity.
Defined.

(** Outside production mode [run_production_mode] does nothing: no flag
    is set, no job is registered or cleared, no thread is started. *)
Lemma run_production_mode_refused e w :
  mode w <> py "production" ->
  run_production_mode e w = (Returned false, w).
Proof.
  intros Hmode. apply eqb_neq in Hmode.
  unfold run_production_mode, bind, get. now rewrite Hmode.
Qed.

Lemma run_production_mode_refused_witness :
  let w := init_world (py "testing") true true in
  mode w <> py "production" /\
  run_production_mode online_env w = (Returned false, w).
Proof.
  intros w.
  assert (H : mode w <> py "production") by (vm_compute; discriminate).
  split; [exact H | exact (run_production_mode_refused online_env w H)].
Defined.

(** X21: when the schedule library rejects the first weekday slot,
    [run_production_mode] raises after it has set the running flag and
    cleared the schedule: the agent is left marked as running, with no
    job and no scheduler thread. *)
Theorem run_production_mode_bad_slot e w time_slot rest :
  mode w = py "production" ->
  weekday_times w = time_slot :: rest ->
  schedule_accepts e Monday time_slot = false ->
  exists w',
    run_production_mode e w = (Raised, w') /\
    is_running w' = true /\
    jobs w' = [] /\
    trace w' = trace w.
Proof.
  intros Hmode Hslots Hreject.
  cut (post e run_production_mode w (fun _ _ => False)
         (fun w' => is_running w' = true /\ jobs w' = [] /\
                    trace w' = trace w)).
  { unfold post. destruct (run_production_mode e w) as [[b |] w'].
    - intros [].
    - intros H. exists w'. split; [reflexivity | exact H]. }
  unfold run_production_mode.
  apply post_bind, post_get. rewrite Hmode, eqb_refl. cbn [negb].
  apply post_bind, post_modify, post_bind.
  unfold schedule_clear. apply post_modify, post_bind, post_get.
  cbn [weekday_times set_jobs set_is_running]. rewrite Hslots.
  cbn [for_each]. do 3 apply post_bind.
  unfold post, register. rewrite Hreject. repeat split.
Qed.

Lemma run_production_mode_bad_slot_witness :
  exists w',
    run_production_mode online_env misconfigured_world = (Raised, w') /\
    is_running w' = true /\ jobs w' = [].
Proof.
  destruct (run_production_mode_bad_slot online_env misconfigured_world
              (py "9am") [py "14:00"] eq_refl eq_refl eq_refl)
    as (w' & Hrun & Hr & Hj & _).
  exists w'. split; [exact Hrun | split; [exact Hr | exact Hj]].
Defined.

(** X22: new time slots given to [set_production_schedule] leave the
    registered jobs as they are; the next [run_production_mode] replaces
    the whole schedule by the jobs of the new slots, five per weekday slot
    and two per weekend slot, and the analytics job. *)
Theorem set_production_schedule_applies e w weekday weekend :
  mode w = py "production" ->
  (forall u t,
      In t (py "23:00" :: weekday ++ weekend) ->
      schedule_accepts e u t = true) ->
  exists w1 w2,
    set_production_schedule weekday weekend e w = (Returned tt, w1) /\
    jobs w1 = jobs w /\
    run_production_mode e w1 = (Returned true, w2) /\
    jobs w2 = flat_map weekday_jobs weekday ++
              flat_map weekend_jobs weekend ++ [analytics_job] /\
    scheduled_jobs w2 =
      5 * List.length weekday + 2 * List.length weekend + 1.
Proof.
  intros Hmode Hacc.
  set (w1 := set_weekend_times weekend (set_weekday_times weekday w)).
  pose proof (run_production_mode_world e w1 Hmode Hacc) as Hrun.
  exists w1. eexists. split; [reflexivity |]. split; [reflexivity |].
  split; [exact Hrun |]. split; [reflexivity |].
  unfold scheduled_jobs. cbn [jobs set_trace set_jobs].
  rewrite !length_app.
  assert (H5 : forall l, List.length (flat_map weekday_jobs l)
                         = 5 * List.length l)
    by (induction l as [| x l IH]; [reflexivity |];
        cbn [flat_map List.length]; rewrite length_app, IH;
        cbn [weekday_jobs map List.length]; lia).
  assert (H2 : forall l, List.length (flat_map weekend_jobs l)
                         = 2 * List.length l)
    by (induction l as [| x l IH]; [reflexivity |];
        cbn [flat_map List.length]; rewrite length_app, IH;
        cbn [weekend_jobs map List.length]; lia).
  rewrite H5, H2. cbn [List.length]. cbn [weekday_times weekend_times w1
    set_weekend_times set_weekday_times set_is_running]. lia.
Qed.

Lemma set_production_schedule_applies_witness :
  exists w1 w2,
    set_production_schedule [py "08:30"] [] online_env
      (init_world (py "production") true true) = (Returned tt, w1) /\
    run_production_mode online_env w1 = (Returned true, w2) /\
    scheduled_jobs w2 = 6.
Proof.
  assert (Hacc : forall u t,
             In t (py "23:00" :: [py "08:30"] ++ []) ->
             schedule_accepts online_env u t = true).
  { intros u t Hin. simpl in Hin.
    repeat (destruct Hin as [<- | Hin]; [reflexivity |]).
    destruct Hin. }
  destruct (set_production_schedule_applies online_env
              (init_world (py "production") true true)
              [py "08:30"] [] eq_refl Hacc)
    as (w1 & w2 & H1 & _ & H2 & _ & Hn).
  exists w1, w2. split; [exact H1 | split; [exact H2 | exact Hn]].
Defined.

(* ------------------------------------------------------------------ *)
(** ** The polling loop *)

Lemma runnable_jobs_idle e : nothing_due e ->
  forall js w,
    runnable_jobs js e w
      = (Returned [], set_tick (tick w + List.length js) w).
Proof.
  intros Hidle js. induction js as [| j js IH]; intros w.
  - destruct w. cbn. unfold set_tick. cbn. now rewrite Nat.add_0_r.
  - cbn [runnable_jobs]. unfold bind at 1, ask at 1. rewrite Hidle.
    unfold bind at 1. rewrite IH. destruct w. cbn. unfold ret, set_tick.
    cbn. now rewrite Nat.add_succ_r.
Qed.

Lemma poll_loop_idle e flag :
  nothing_due e ->
  (forall w f t, flag (set_trace t (set_tick f w)) = flag w) ->
  forall turns w,
    flag w = true ->
    poll_loop flag turns e w = (Returned true, after_idle_turns turns w).
Proof.
  intros Hidle Hflag turns. induction turns as [| n IH]; intros w Hrun.
  - destruct w. cbn. unfold after_idle_turns, set_trace, set_tick. cbn.
    now rewrite Nat.add_0_r, app_nil_r.
  - cbn [poll_loop]. unfold bind at 1, poll at 1, bind at 1, get at 1.
    rewrite Hrun. unfold run_pending.
    unfold bind at 1, bind at 1, bind at 1, get at 1.
    rewrite (runnable_jobs_idle e Hidle). cbn [for_each].
    unfold ret at 1, bind at 1, emit, modify, ret at 1.
    rewrite IH by (rewrite Hflag; exact Hrun).
    destruct w. unfold after_idle_turns, set_trace, set_tick. cbn.
    rewrite <- app_assoc, Nat.add_assoc. reflexivity.
Qed.

(** X23: while the agent is running and no job is due, its scheduler
    thread only sleeps: after any number of turns of [run_scheduler] the
    loop is still going, one minute of sleep per turn has been added to
    what the agent did, each job has been asked once per turn whether it
    is due, and nothing else has changed. *)
Theorem run_scheduler_idle e w turns :
  nothing_due e ->
  is_running w = true ->
  run_scheduler turns e w = (Returned true, after_idle_turns turns w).
Proof.
  intros Hidle Hrun. unfold run_scheduler.
  apply poll_loop_idle; [exact Hidle | reflexivity | exact Hrun].
Qed.

Lemma run_scheduler_idle_witness :
  nothing_due offline_env /\
  is_running production_world = true /\
  scheduled_jobs production_world = 22 /\
  run_scheduler 3 offline_env production_world
    = (Returned true, after_idle_turns 3 production_world) /\
  tick (after_idle_turns 3 production_world)
    = tick production_world + 66.
Proof.
  assert (H : nothing_due offline_env) by (intros t j; reflexivity).
  assert (Hrun : is_running production_world = true)
    by (vm_compute; reflexivity).
  split; [exact H |]. split; [exact Hrun |].
  split; [vm_compute; reflexivity |].
  split; [exact (run_scheduler_idle offline_env production_world 3 H Hrun) |].
  vm_compute; reflexivity.
Defined.

(* ------------------------------------------------------------------ *)
(** ** The manager of main.py *)

(** X24: the manager says it is running only in production mode: this
    holds when the program starts and each of [start_production_mode],
    [stop_production_mode] and [switch_mode] keeps it, whatever the state
    they are called in. *)
Theorem manager_running_in_production e w :
  manager_consistent w ->
  (forall r w', Manager.start_production_mode e w = (r, w') ->
                manager_consistent w') /\
  (forall r w', Manager.stop_production_mode e w = (r, w') ->
                manager_consistent w') /\
  (forall r w', manager_switch_mode e w = (r, w') ->
                manager_consistent w').
Proof.
  intros Hinv. unfold manager_consistent in *. repeat split.
  - intros r w'. unfold Manager.start_production_mode, bind, get, modify,
      emit, modify, ret.
    destruct (manager_agent w); cbn [negb];
      [destruct (manager_running w) eqn:Hr |];
      intros [= <- <-]; cbn; auto.
  - intros r w'. unfold Manager.stop_production_mode, bind, get, modify, ret.
    destruct (manager_running w) eqn:Hr; cbn [negb];
      intros [= <- <-]; cbn; intros H; try discriminate H.
    rewrite Hr in H. discriminate H.
  - intros r w'. unfold manager_switch_mode, bind, get, modify, ret.
    destruct (manager_running w) eqn:Hr;
      intros [= <- <-]; cbn; auto.
    intros H. rewrite Hr in H. discriminate H.
Qed.

Lemma manager_running_in_production_witness :
  let w := init_world (py "testing") true true in
  manager_consistent w /\
  forall r w', Manager.start_production_mode online_env w = (r, w') ->
               manager_consistent w'.
Proof.
  intros w.
  assert (H : manager_consistent w) by (intros Hr; discriminate Hr).
  split; [exact H |].
  exact (proj1 (manager_running_in_production online_env w H)).
Defined.

Lemma manager_switch_mode_run e w :
  manager_switch_mode e w =
    (Returned tt,
     if manager_running w then w
     else set_manager_mode
            (if PyStr.eqb (manager_mode w) (py "testing")
             then py "production" else py "testing") w).
Proof.
  unfold manager_switch_mode, bind, get, modify, ret.
  destruct (manager_running w); reflexivity.
Qed.

(** X25: [switch_mode] is refused while the manager is running, and
    otherwise toggles between the two modes: switching twice in a row
    gives back the state it started from. *)
Theorem manager_switch_mode_twice e w :
  manager_mode w = py "testing" \/ manager_mode w = py "production" ->
  (manager_running w = true ->
   manager_switch_mode e w = (Returned tt, w)) /\
  (manager_running w = false ->
   exists w',
     manager_switch_mode e w = (Returned tt, w') /\
     manager_mode w' <> manager_mode w) /\
  (manager_switch_mode ;;; manager_switch_mode) e w = (Returned tt, w).
Proof.
  intros Hmode. split; [| split].
  - intros Hr. rewrite manager_switch_mode_run, Hr. reflexivity.
  - intros Hr. rewrite manager_switch_mode_run, Hr. eexists.
    split; [reflexivity |]. cbn [manager_mode set_manager_mode].
    destruct Hmode as [Hm | Hm]; rewrite Hm; discriminate.
  - unfold bind. rewrite manager_switch_mode_run.
    rewrite manager_switch_mode_run.
    destruct (manager_running w) eqn:Hr; [now rewrite Hr |].
    cbn [manager_running manager_mode set_manager_mode]. rewrite Hr.
    destruct w. cbn [manager_mode] in Hmode.
    destruct Hmode as [-> | ->]; reflexivity.
Qed.

Lemma manager_switch_mode_twice_witness :
  let w := init_world (py "production") true true in
  (manager_switch_mode ;;; manager_switch_mode) online_env w
    = (Returned tt, w).
Proof.
  intros w.
  exact (proj2 (proj2 (manager_switch_mode_twice online_env w
                         (or_introl eq_refl)))).
Defined.

(* ------------------------------------------------------------------ *)
(** ** Statistics *)

(** X26: [get_stats_for_topic] never fails and changes nothing of the
    agent. A statistic it returns is one of the table, listed under a
    category that occurs in the lower-cased topic or contains one of its
    words; it returns None exactly when no category of the table does. *)
Theorem get_stats_for_topic_table e w topic :
  exists r w',
    get_stats_for_topic topic e w = (Returned r, w') /\
    agent_kept w w' /\
    match r with
    | Some s =>
        exists category stats_list,
          In (category, stats_list) stats_by_category /\
          In s stats_list /\
          stats_match topic category = true
    | None =>
        forall category stats_list,
          In (category, stats_list) stats_by_category ->
          stats_match topic category = false
    end.
Proof.
  cut (post e (get_stats_for_topic topic) w
         (fun r w' =>
            agent_kept w w' /\
            match r with
            | Some s =>
                exists category stats_list,
                  In (category, stats_list) stats_by_category /\
                  In s stats_list /\
                  stats_match topic category = true
            | None =>
                forall category stats_list,
                  In (category, stats_list) stats_by_category ->
                  stats_match topic category = false
            end)
         never).
  { intros H. apply post_returns in H as (r & w' & Hrun & Hk & Hr).
    exists r, w'. auto. }
  unfold get_stats_for_topic. cbv zeta.
  destruct (find _ stats_by_category) as [[category stats_list] |] eqn:Hfind.
  - apply find_some in Hfind as [Hin Hm]. cbn [fst] in Hm.
    apply post_bind, random_choice_post.
    + exact (stats_by_category_lists _ Hin).
    + intros s Hs. apply post_ret. split; [reflexivity |].
      exists category, stats_list. auto.
  - apply post_ret. split; [reflexivity |].
    intros category stats_list Hin.
    exact (find_none _ _ Hfind _ Hin).
Qed.

(* ================================================================== *)
(** * Topics outside ASCII *)
(* ================================================================== *)

(** [str.lower] and the class [\w] on text outside ASCII. "Señor" is one
    word, in which no category of the image table occurs and which occurs
    in none, so its image is a default one; the lower case of "A" followed
    by a dotted capital I begins with "ai", so it gets a statistic of that
    category; "café" is a word of four characters and gives a hashtag; a
    capital sigma at the end of a word becomes a final sigma. *)
Lemma topics_outside_ascii :
  let senor := [83; 101; 241; 111; 114]%N in
  let a_dotted := [65; 304]%N in
  let cafe := [99; 97; 102; 233]%N in
  lower senor = [115; 101; 241; 111; 114]%N /\
  findall_w (lower senor) = [[115; 101; 241; 111; 114]%N] /\
  image_source senor = urls_of (py "default") /\
  lower a_dotted = [97; 105; 775]%N /\
  stats_match a_dotted (py "ai") = true /\
  topic_hashtags cafe = [35%N :: cafe] /\
  lower [201]%N = [233]%N /\
  lower [927; 916; 927; 931; 32; 931; 65]%N
    = [959; 948; 959; 962; 32; 963; 97]%N.
Proof.
  repeat split; vm_compute; reflexivity.
Qed.
